(** * Authentication and session layer of node-ts-drizzle-starter

    A shallow embedding of the token hook ([hooks/useToken.ts]), the session
    service ([app/service/session.service.ts]), the auth service
    ([app/service/auth.service.ts]), the authorization middleware
    ([middleware/authorization.ts]) and the login route and the two
    guarded routes of [app/controller/auth.controller.ts] with the
    envelope they answer in ([core/modules/response/HttpResponse]),
    followed by the properties established about them. After these come
    the smaller parts of the code ([config/env.ts], [config/ms.ts], the
    database probe, paging, the password generator, the error
    middlewares, the second token hook) and their properties.

    Conventions.
    - A database table is the list of its rows, in storage order; a
      [select ... limit 1] without [order by] takes the first match.
    - Service code runs in a state-and-exception monad over the database:
      a thrown error keeps every write that was made before it, as the
      source has no transaction.
    - A service call runs from its first statement to its last. Where two
      requests overlapping at an [await] make a difference, the halves of
      the call are given apart ([createOrUpdateSession_write],
      [interleaved_logins]).
    - The width of a column is modelled where the service stores a token
      it has signed ([password_token], 255 characters); an insert is
      modelled for values that fit their columns.
    - Everything the repository only imports (jsonwebtoken, the password
      hasher, the mail transport, zod's parsers, the process environment)
      is gathered in the record [Env] and never inspected.
    - Logger calls and the timestamp columns are left out: nothing reads
      them. *)

From Stdlib Require Import ZArith List String Ascii Bool Lia.
Import ListNotations.
Local Open Scope string_scope.
Local Open Scope Z_scope.
Set Warnings "-register-all".

(** ** JavaScript values and string helpers *)

Module JS.

(** The values [_.get(req, "query.token")] and [_.get(req, "cookies.token")]
    can take: absent, a string, an array (repeated parameter) or a nested
    object. *)
Inductive jsval : Type :=
| JUndefined
| JString (s : string)
| JArray (xs : list jsval)
| JObject.

(** [if (v)] *)
Definition truthy (v : jsval) : bool :=
  match v with
  | JUndefined => false
  | JString s => negb (String.eqb s "")
  | JArray _ => true
  | JObject => true
  end.

(** [String(v)]; an array joins its elements with commas, an undefined
    element printing as the empty string. *)
Fixpoint toString (v : jsval) : string :=
  match v with
  | JUndefined => "undefined"
  | JString s => s
  | JArray xs =>
      (fix join (l : list jsval) : string :=
         match l with
         | [] => ""
         | x :: r =>
             let sx := match x with JUndefined => "" | _ => toString x end in
             match r with
             | [] => sx
             | _ :: _ => sx ++ "," ++ join r
             end
         end) xs
  | JObject => "[object Object]"
  end.

(** [s.split(sep)] for a one-character separator. *)
Fixpoint split (sep : ascii) (s : string) : list string :=
  match s with
  | EmptyString => [EmptyString]
  | String c rest =>
      if Ascii.eqb c sep then EmptyString :: split sep rest
      else match split sep rest with
           | [] => [String c EmptyString]
           | h :: t => String c h :: t
           end
  end.

(** [xs.includes(x)] on an array of strings. *)
Definition includes (xs : list string) (x : string) : bool :=
  existsb (String.eqb x) xs.

(** Truthiness of a string: [if (s)]. *)
Definition nonempty (s : string) : bool := negb (String.eqb s "").

(** Truthiness of [string | null | undefined]. *)
Definition truthy_opt (o : option string) : bool :=
  match o with
  | Some s => nonempty s
  | None => false
  end.

(** A value that may also be [null] or [undefined], and the test
    [v !== null] on it. *)
Inductive nullable (A : Type) : Type :=
| Null
| Undefined
| Value (a : A).
Arguments Null {A}.
Arguments Undefined {A}.
Arguments Value {A} a.

Definition strict_ne_null {A : Type} (v : nullable A) : bool :=
  match v with
  | Null => false
  | Undefined => true
  | Value _ => true
  end.

(** [o ?? d] *)
Definition nullish {A : Type} (o : option A) (d : A) : A :=
  match o with
  | Some a => a
  | None => d
  end.

End JS.

(** ** Data model *)

(** A JSON claim set: what is signed into a token and what comes back out. *)
Inductive pval : Type :=
| PStr (s : string)
| PNum (n : Z).

Definition JwtPayload : Type := list (string * pval).

(** [jwt.verify] returns [string | JwtPayload]. *)
Inductive Decoded : Type :=
| DString (s : string)
| DPayload (p : JwtPayload).

(** An object caught from [jwt.verify]: the answers to the three
    [instanceof] tests of the handler and its [message]. *)
Record JwtError : Type := mkJwtError {
  isTokenExpiredError : bool;
  isJsonWebTokenError : bool;
  isNotBeforeError : bool;
  err_message : string
}.

Inductive JwtOutcome : Type :=
| JwtReturn (d : Decoded)
| JwtThrow (e : JwtError).

(** [DtoVerifyToken]: [data] is [null] on failure. *)
Record DtoVerifyToken : Type := mkDto {
  data : option Decoded;
  message : string
}.

Record DtoGenerateToken : Type := mkGen {
  gen_token : string;
  gen_expiresIn : Z
}.

(** [ExpiresType = "1h" | "6h" | "12h" | "1d" | ... | "7d"] *)
Inductive ExpiresType : Type :=
| Exp1h | Exp6h | Exp12h
| Exp1d | Exp2d | Exp3d | Exp4d | Exp5d | Exp6d | Exp7d.

Definition ExpiresType_literal (e : ExpiresType) : string :=
  match e with
  | Exp1h => "1h" | Exp6h => "6h" | Exp12h => "12h"
  | Exp1d => "1d" | Exp2d => "2d" | Exp3d => "3d" | Exp4d => "4d"
  | Exp5d => "5d" | Exp6d => "6d" | Exp7d => "7d"
  end.

(** Row of table [user] (db/schema). *)
Record User : Type := mkUser {
  user_id : Z;
  user_name : string;
  user_email : string;
  user_password : option string;
  user_passwordToken : option string;
  user_isActive : bool;
  user_isEmailVerified : bool;
  user_isDeleted : bool
}.

(** Row of table [userSession]. *)
Record UserSession : Type := mkSession {
  session_id : Z;
  session_userId : Z;
  session_token : string
}.

(** [typeof userTable.$inferInsert] together with the [confirmPassword]
    field the insert schema adds: columns with a default are optional. *)
Record UserInsert : Type := mkInsert {
  ins_id : option Z;
  ins_name : string;
  ins_email : string;
  ins_password : option string;
  ins_confirmPassword : option string;
  ins_passwordToken : option string;
  ins_isActive : option bool;
  ins_isEmailVerified : option bool;
  ins_isDeleted : option bool
}.

Record Mail : Type := mkMail {
  mail_to : string;
  mail_subject : string;
  mail_text : string
}.

(** The database and the mail that left the process. Each [serial] column
    has its sequence; [nextval] is not undone by a failed insert. *)
Record World : Type := mkWorld {
  userTable : list User;
  user_id_seq : Z;
  userSessionTable : list UserSession;
  userSession_id_seq : Z;
  outbox : list Mail
}.

(** What service code throws. [ErrorResponse.*] classes carry a message;
    [ZodError] comes from a schema's [parse]; [UniqueViolation] and
    [ForeignKeyViolation] come from the database (the [PostgresError]
    codes that [expressErrorDrizzle] tells apart), as does
    [StringDataRightTruncation] (code 22001, a value too long for its
    column); [MsError] is the [Error] of [ms]. *)
Inductive Exn : Type :=
| NotFound (m : string)
| BadRequest (m : string)
| Forbidden (m : string)
| InternalServer (m : string)
| ZodError
| UniqueViolation
| ForeignKeyViolation
| StringDataRightTruncation
| MsError (m : string).

(** Collaborators the repository imports. *)
Record Env : Type := mkEnv {
  (** [jwt.verify(token, secret)] at a given clock reading (seconds). *)
  jwt_verify : Z -> string -> string -> JwtOutcome;
  (** [jwt.sign(payload, secret, { expiresIn })] at a given clock reading. *)
  jwt_sign : Z -> JwtPayload -> string -> Z -> string;
  (** [hashing.hash(plain)] and [hashing.verify(hash, plain)] *)
  hashing_hash : string -> string;
  hashing_verify : string -> string -> bool;
  (** nodemailer's [transporter.sendMail(mail)]: [false] when the promise
      rejects. *)
  transporter_sendMail : Mail -> bool;
  (** zod's [.email()] test *)
  z_email : string -> bool;
  (** [userSchema.insert.parse(data)]: [None] when it throws. *)
  insertUserSchema_parse : UserInsert -> option UserInsert;
  (** [env.JWT_SECRET_ACCESS_TOKEN] *)
  JWT_SECRET_ACCESS_TOKEN : string
}.

(** An express request, as far as this code reads it. *)
Record Request : Type := mkRequest {
  query_token : JS.jsval;
  cookies_token : JS.jsval;
  headers_authorization : option string;
  req_body : UserInsert
}.

(** ** The state-and-exception monad of service code *)

Inductive Outcome (A : Type) : Type :=
| Returned (a : A)
| Thrown (e : Exn).
Arguments Returned {A} a.
Arguments Thrown {A} e.

Definition Service (A : Type) : Type := World -> Outcome A * World.

Definition ret {A : Type} (a : A) : Service A := fun w => (Returned a, w).

Definition throw {A : Type} (e : Exn) : Service A := fun w => (Thrown e, w).

Definition bind {A B : Type} (m : Service A) (k : A -> Service B) : Service B :=
  fun w =>
    match m w with
    | (Returned a, w') => k a w'
    | (Thrown e, w') => (Thrown e, w')
    end.

Definition gets {A : Type} (f : World -> A) : Service A :=
  fun w => (Returned (f w), w).

Definition modify (f : World -> World) : Service unit :=
  fun w => (Returned tt, f w).

Declare Scope service_scope.
Delimit Scope service_scope with service.
Notation "x <- m ;; k" := (bind m (fun x => k))
  (at level 100, m at next level, right associativity) : service_scope.
Notation "m ;;; k" := (bind m (fun _ => k))
  (at level 100, right associativity) : service_scope.
Local Open Scope service_scope.

(** [try { m } catch (error) { throw h }] *)
Definition try_catch_throw {A : Type} (m : Service A) (h : Exn) : Service A :=
  fun w =>
    match m w with
    | (Returned a, w') => (Returned a, w')
    | (Thrown _, w') => (Thrown h, w')
    end.

(** ** core/send-mail.ts *)

(** [sendEmail(options)]: a rejection of the transport is caught and
    logged, so the promise resolves either way; the mail joins [outbox]
    only when the transport took it. *)
Definition sendEmail (E : Env) (mail : Mail) : Service unit :=
  if transporter_sendMail E mail
  then modify (fun w => mkWorld (userTable w) (user_id_seq w)
                                (userSessionTable w) (userSession_id_seq w)
                                (outbox w ++ [mail]))
  else ret tt.

(** ** config/ms.ts *)

Module Ms.

Definition digit_value (c : ascii) : option Z :=
  let n := Z.of_nat (nat_of_ascii c) in
  if (48 <=? n) && (n <=? 57) then Some (n - 48) else None.

(** The digits [parseInt(s, 10)] reads from the front of [s], most
    significant first, folded into [acc]; [seen] records that one was
    read. *)
Fixpoint parse_digits (s : string) (acc : Z) (seen : bool) : option Z :=
  match s with
  | EmptyString => if seen then Some acc else None
  | String c rest =>
      match digit_value c with
      | Some d => parse_digits rest (10 * acc + d) true
      | None => if seen then Some acc else None
      end
  end.

(** [parseInt(s, 10)] on a string without sign or leading blanks; [None]
    is [NaN]. *)
Definition parseInt (s : string) : option Z := parse_digits s 0 false.

Definition TIME_UNITS (type : string) : option Z :=
  if String.eqb type "s" then Some 1000
  else if String.eqb type "m" then Some (60 * 1000)
  else if String.eqb type "h" then Some (60 * 60 * 1000)
  else if String.eqb type "d" then Some (24 * 60 * 60 * 1000)
  else if String.eqb type "w" then Some (7 * 24 * 60 * 60 * 1000)
  else None.

(** [value.slice(-1)] and [value.slice(0, -1)] *)
Definition last_char (s : string) : string :=
  substring (Nat.pred (String.length s)) 1 s.
Definition but_last (s : string) : string :=
  substring 0 (Nat.pred (String.length s)) s.

Definition ms (value : string) : Exn + Z :=
  match parseInt (but_last value), TIME_UNITS (last_char value) with
  | Some numericValue, Some unit => inr (numericValue * unit)
  | _, _ => inl (MsError "Invalid time format")
  end.

End Ms.

(** ** hooks/useToken.ts *)

Module useToken.

Section WithEnv.
Variable E : Env.

(** [generate({ value, secretKey, expires })]; [ms] cannot fail on an
    [ExpiresType], the error branch only makes the function total. *)
Definition generate (now : Z) (value : JwtPayload) (secretKey : string)
           (expires : ExpiresType) : Exn + DtoGenerateToken :=
  match Ms.ms (ExpiresType_literal expires) with
  | inr tokenExpires =>
      let expiresIn := tokenExpires / 1000 in
      inr (mkGen (jwt_sign E now value secretKey expiresIn) expiresIn)
  | inl e => inl e
  end.

Definition allowedAuthorize : list string := ["Bearer"; "JWT"; "Token"].

(** [extract(req)]: query, then cookie, then header. *)
Definition extract (req : Request) : option string :=
  let authQuery := query_token req in
  let authCookie := cookies_token req in
  let authHeader := headers_authorization req in
  if JS.truthy authQuery then Some (JS.toString authQuery)
  else if JS.truthy authCookie then Some (JS.toString authCookie)
  else
    match authHeader with
    | Some h =>
        if JS.nonempty h then
          match JS.split " " h with
          | [scheme; credentials] =>
              if JS.includes allowedAuthorize scheme
              then Some credentials
              else None
          | _ => None
          end
        else None
    | None => None
    end.

(** [verify({ token, secretKey })]. The [catch] handler tests the
    caught object in the order of the source. *)
Definition verify (now : Z) (token secretKey : string) : DtoVerifyToken :=
  if negb (JS.nonempty token) then mkDto None "unauthorized"
  else
    match jwt_verify E now token secretKey with
    | JwtReturn result => mkDto (Some result) "token is verify"
    | JwtThrow err =>
        if isTokenExpiredError err then
          mkDto None ("jwt expired error" ++ " : " ++ err_message err)
        else if isJsonWebTokenError err then
          mkDto None ("jwt token error" ++ " : " ++ err_message err)
        else if isNotBeforeError err then
          mkDto None ("jwt not before error" ++ " : " ++ err_message err)
        else
          mkDto None ("unknown error: " ++ err_message err)
    end.

End WithEnv.

End useToken.

(** ** Query primitives of the database layer *)

Module Db.

(** [select().from(t).where(p).limit(1)], then [result[0]] *)
Definition select_first {R : Type} (p : R -> bool) (rows : list R) : option R :=
  find p rows.

(** [update(t).set(f).where(p)] *)
Definition update_where {R : Type} (p : R -> bool) (f : R -> R)
           (rows : list R) : list R :=
  map (fun r => if p r then f r else r) rows.

(** [delete(t).where(p).returning()]: the rows kept, and the rows removed *)
Definition delete_where {R : Type} (p : R -> bool) (rows : list R) : list R :=
  filter (fun r => negb (p r)) rows.
Definition deleted_rows {R : Type} (p : R -> bool) (rows : list R) : list R :=
  filter p rows.

(** [insert(userSessionTable).values({ userId, token }).returning()]: the
    id comes from the sequence; the primary key and the foreign key to
    [user.id] are checked. *)
Definition insert_session (userId : Z) (token : string) : Service UserSession :=
  fun w =>
    let newid := userSession_id_seq w + 1 in
    let w1 := mkWorld (userTable w) (user_id_seq w)
                      (userSessionTable w) newid (outbox w) in
    if existsb (fun s => session_id s =? newid) (userSessionTable w)
    then (Thrown UniqueViolation, w1)
    else if negb (existsb (fun u => user_id u =? userId) (userTable w))
    then (Thrown ForeignKeyViolation, w1)
    else
      let row := mkSession newid userId token in
      (Returned row,
       mkWorld (userTable w) (user_id_seq w)
               (userSessionTable w ++ [row]) newid (outbox w)).

(** [insert(userTable).values(userData).returning()]: a column left out
    takes its default; the primary key and [user_email_unique] are
    checked. *)
Definition insert_user (d : UserInsert) : Service User :=
  fun w =>
    let seq' := match ins_id d with
                | Some _ => user_id_seq w
                | None => user_id_seq w + 1
                end in
    let newid := match ins_id d with
                 | Some i => i
                 | None => seq'
                 end in
    let w1 := mkWorld (userTable w) seq' (userSessionTable w)
                      (userSession_id_seq w) (outbox w) in
    if existsb (fun u => user_id u =? newid) (userTable w)
    then (Thrown UniqueViolation, w1)
    else if existsb (fun u => String.eqb (user_email u) (ins_email d))
                    (userTable w)
    then (Thrown UniqueViolation, w1)
    else
      let row := mkUser newid (ins_name d) (ins_email d) (ins_password d)
                        (ins_passwordToken d)
                        (JS.nullish (ins_isActive d) true)
                        (JS.nullish (ins_isEmailVerified d) false)
                        (JS.nullish (ins_isDeleted d) false) in
      (Returned row,
       mkWorld (userTable w ++ [row]) seq' (userSessionTable w)
               (userSession_id_seq w) (outbox w)).

(** A value written to a [varchar(n)] column: kept when it has at most
    [n] characters, cut to [n] when all that exceeds is blanks, refused
    with error 22001 otherwise. *)
Definition all_blank (s : string) : bool :=
  forallb (Ascii.eqb " ") (list_ascii_of_string s).

Definition varchar (n : nat) (s : string) : option string :=
  if (String.length s <=? n)%nat then Some s
  else if all_blank (substring n (String.length s - n) s)
  then Some (substring 0 n s)
  else None.

Definition set_userTable (f : list User -> list User) : Service unit :=
  modify (fun w => mkWorld (f (userTable w)) (user_id_seq w)
                           (userSessionTable w) (userSession_id_seq w)
                           (outbox w)).

Definition set_userSessionTable (f : list UserSession -> list UserSession)
  : Service unit :=
  modify (fun w => mkWorld (userTable w) (user_id_seq w)
                           (f (userSessionTable w)) (userSession_id_seq w)
                           (outbox w)).

End Db.

(** ** app/service/session.service.ts *)

Module SessionService.

Definition getByToken (token : string) : Service (option UserSession) :=
  gets (fun w =>
          Db.select_first (fun s => String.eqb (session_token s) token)
                          (userSessionTable w)).

Definition getByUserId (userId : Z) : Service (option UserSession) :=
  gets (fun w =>
          Db.select_first (fun s => session_userId s =? userId)
                          (userSessionTable w)).

(** Returns the row as it was read when one exists, the inserted row
    otherwise. *)
Definition createOrUpdateSession (userId : Z) (token : string)
  : Service UserSession :=
  session <- gets (fun w =>
                     Db.select_first (fun s => session_userId s =? userId)
                                     (userSessionTable w)) ;;
  match session with
  | Some s =>
      Db.set_userSessionTable
        (Db.update_where (fun r => session_userId r =? userId)
                         (fun r => mkSession (session_id r) userId token)) ;;;
      ret s
  | None =>
      newSession <- Db.insert_session userId token ;;
      ret newSession
  end.

(** What [createOrUpdateSession] does after its [select] has answered
    [session]: the handler has given way to other requests in between. *)
Definition createOrUpdateSession_write (userId : Z) (token : string)
           (session : option UserSession) : Service UserSession :=
  match session with
  | Some s =>
      Db.set_userSessionTable
        (Db.update_where (fun r => session_userId r =? userId)
                         (fun r => mkSession (session_id r) userId token)) ;;;
      ret s
  | None =>
      newSession <- Db.insert_session userId token ;;
      ret newSession
  end.

Definition deleteSession (token : string) : Service (list UserSession) :=
  rows <- gets (fun w =>
                  Db.deleted_rows (fun s => String.eqb (session_token s) token)
                                  (userSessionTable w)) ;;
  Db.set_userSessionTable
    (Db.delete_where (fun s => String.eqb (session_token s) token)) ;;;
  ret rows.

End SessionService.

(** ** app/schema/auth.schema.ts *)

Record LoginValue : Type := mkLogin {
  login_email : string;
  login_password : string
}.

(** [loginSchema.parse({ email, password })]. The [refine] call of the
    source builds a second schema that is dropped, so only the field rules
    apply. Lengths count characters of the embedding's strings. *)
Definition loginSchema_parse (E : Env) (email password : string)
  : option LoginValue :=
  if z_email E email
     && (2 <=? Z.of_nat (String.length email))
     && (6 <=? Z.of_nat (String.length password))
  then Some (mkLogin email password)
  else None.

(** ** app/service/auth.service.ts *)

Module AuthService.

Record LoginResult : Type := mkLoginResult {
  lr_token : string;
  lr_user : string;
  lr_name : string;
  lr_userId : Z;
  lr_expiresIn : Z
}.

Record Message : Type := mkMessage {
  msg_text : string;
  msg_email : option string;
  msg_userId : option Z
}.

Definition newline : string := String (ascii_of_nat 10) EmptyString.

Section WithEnv.
Variable E : Env.

Definition liftE {A : Type} (r : Exn + A) : Service A :=
  match r with
  | inr a => ret a
  | inl e => throw e
  end.

Definition parsed {A : Type} (r : option A) : Service A :=
  match r with
  | Some a => ret a
  | None => throw ZodError
  end.

(** [try { await sendEmail(mail) } catch { throw InternalServer(failure) }] *)
Definition trySendEmail (mail : Mail) (failure : string) : Service unit :=
  try_catch_throw (sendEmail E mail) (InternalServer failure).

Definition generateAuthToken (now : Z) (user : User)
  : Exn + DtoGenerateToken :=
  let tokenValue := [("email", PStr (user_email user));
                     ("userId", PNum (user_id user));
                     ("role", PStr "user")] in
  useToken.generate E now tokenValue (JWT_SECRET_ACCESS_TOKEN E) Exp1d.

Definition userLogin (now : Z) (email password : string)
  : Service LoginResult :=
  value <- parsed (loginSchema_parse E email password) ;;
  getUser <- gets (fun w =>
                     Db.select_first
                       (fun u => String.eqb (user_email u) (login_email value))
                       (userTable w)) ;;
  match getUser with
  | None => throw (NotFound "Account not found or not registered")
  | Some user =>
      if negb (user_isActive user)
      then throw (BadRequest "Your account is not active")
      else
        let matchPassword :=
          hashing_verify E (JS.nullish (user_password user) "")
                         (login_password value) in
        if negb matchPassword
        then throw (BadRequest "Invalid username or password")
        else
          g <- liftE (generateAuthToken now user) ;;
          ret (mkLoginResult (gen_token g) (user_email user) (user_name user)
                             (user_id user) (gen_expiresIn g))
  end.

(** [useToken.verify] hands back an object on every path, so what is
    compared with [null] at the end is always a [JS.Value]. *)
Definition validateResetToken (now : Z) (email token : string)
  : Service bool :=
  user <- gets (fun w =>
                  Db.select_first (fun u => String.eqb (user_email u) email)
                                  (userTable w)) ;;
  match user with
  | None => ret false
  | Some u =>
      if negb (JS.truthy_opt (user_passwordToken u))
         || negb (String.eqb (JS.nullish (user_passwordToken u) "") token)
      then ret false
      else
        let tokenValidation :=
          JS.Value (useToken.verify E now token (JWT_SECRET_ACCESS_TOKEN E)) in
        ret (JS.strict_ne_null tokenValidation)
  end.

Definition sendConfirmationEmail (email : string) : Service unit :=
  trySendEmail
    (mkMail email "Password reset successfully"
            "Your password has been reset successfully. If you did not request this change, please contact us immediately.")
    "Failed to send confirmation email.".

Definition resetPassword (now : Z) (email password token : string)
  : Service Message :=
  isValidToken <- validateResetToken now email token ;;
  if negb isValidToken
  then throw (BadRequest "Invalid or expired token")
  else
    let hashedPassword := hashing_hash E password in
    Db.set_userTable
      (Db.update_where
         (fun u => String.eqb (user_email u) email)
         (fun u => mkUser (user_id u) (user_name u) (user_email u)
                          (Some hashedPassword) None
                          (user_isActive u) true (user_isDeleted u))) ;;;
    sendConfirmationEmail email ;;;
    ret (mkMessage "Password reset successfully" (Some email) None).

Definition getUserByEmail (email : string) : Service (option User) :=
  gets (fun w =>
          Db.select_first
            (fun u => String.eqb (user_email u) email
                      && Bool.eqb (user_isDeleted u) false)
            (userTable w)).

(** [update(userTable).set({ passwordToken: token }).where(email)]; the
    column [password_token] is [varchar(255)]. *)
Definition set_passwordToken (email token : string) : Service unit :=
  match Db.varchar 255 token with
  | Some stored =>
      Db.set_userTable
        (Db.update_where
           (fun u => String.eqb (user_email u) email)
           (fun u => mkUser (user_id u) (user_name u) (user_email u)
                            (user_password u) (Some stored)
                            (user_isActive u) (user_isEmailVerified u)
                            (user_isDeleted u)))
  | None => throw StringDataRightTruncation
  end.

Definition sendVerificationEmail (now : Z) (email : string)
  : Service Message :=
  user <- getUserByEmail email ;;
  match user with
  | None => throw (NotFound "User not found")
  | Some _ =>
      g <- liftE (useToken.generate E now
                    [("email", PStr email);
                     ("type", PStr "email-verification")]
                    (JWT_SECRET_ACCESS_TOKEN E) Exp1d) ;;
      set_passwordToken email (gen_token g) ;;;
      trySendEmail
        (mkMail email "Verify Your Email"
                ("Please verify your email using the following token: "
                   ++ gen_token g ++ newline ++ newline
                   ++ "This token will expire in 24 hours."))
        "Failed to send verification email." ;;;
      ret (mkMessage "Verification email sent" None None)
  end.

Definition createUser (now : Z) (data : UserInsert) : Service Message :=
  validatedData <- parsed (insertUserSchema_parse E data) ;;
  existingUser <- getUserByEmail (ins_email validatedData) ;;
  match existingUser with
  | Some _ => throw (BadRequest "User already exists")
  | None =>
      let password := ins_password data in
      let hashedPassword := hashing_hash E (JS.nullish password "") in
      let userData :=
        mkInsert (ins_id validatedData) (ins_name validatedData)
                 (ins_email validatedData) (Some hashedPassword)
                 (ins_confirmPassword validatedData)
                 (ins_passwordToken validatedData)
                 (ins_isActive validatedData) (Some false)
                 (ins_isDeleted validatedData) in
      newUser <- Db.insert_user userData ;;
      sendVerificationEmail now (ins_email validatedData) ;;;
      ret (mkMessage
             "User registered successfully. Please check your email to verify your account."
             None (Some (user_id newUser)))
  end.

Definition requestPasswordReset (now : Z) (email : string)
  : Service Message :=
  user <- getUserByEmail email ;;
  match user with
  | None => throw (NotFound "Account not found")
  | Some u =>
      g <- liftE (useToken.generate E now
                    [("email", PStr (user_email u));
                     ("type", PStr "password-reset")]
                    (JWT_SECRET_ACCESS_TOKEN E) Exp1h) ;;
      set_passwordToken email (gen_token g) ;;;
      trySendEmail
        (mkMail email "Password Reset Request"
                ("You requested a password reset. Please use the following token to reset your password: "
                   ++ gen_token g ++ newline ++ newline
                   ++ "If you did not request this, please ignore this email."))
        "Failed to send password reset email." ;;;
      ret (mkMessage "Password reset instructions sent to your email"
                     None None)
  end.

End WithEnv.

End AuthService.

(** ** core/modules/response/HttpResponse *)

Module HttpResponse.

(** A property of the data handed in: left out, present but [undefined],
    or present with a value. *)
Inductive field (A : Type) : Type :=
| Absent
| Undef
| Present (a : A).
Arguments Absent {A}.
Arguments Undef {A}.
Arguments Present {A} a.

Record DataResponseEntity (D : Type) : Type := mkData {
  data_message : field string;
  data_code : field Z;
  data_rest : D
}.
Arguments mkData {D} data_message data_code data_rest.
Arguments data_message {D} d.
Arguments data_code {D} d.
Arguments data_rest {D} d.

Record DtoHttpResponse (D : Type) : Type := mkDtoHttp {
  dto_code : Z;
  dto_message : string;
  dto_rest : D
}.
Arguments mkDtoHttp {D} dto_code dto_message dto_rest.
Arguments dto_code {D} d.
Arguments dto_message {D} d.
Arguments dto_rest {D} d.

(** [const { k = d } = obj]: the default applies to a property that is
    left out or [undefined]. *)
Definition destructure {A : Type} (f : field A) (d : A) : A :=
  match f with
  | Present a => a
  | _ => d
  end.

(** [{ k: v, ...obj }]: an own property [k] of [obj] replaces [v], even
    when it is [undefined]. *)
Definition spread_over {A : Type} (v : field A) (f : field A) : field A :=
  match f with
  | Absent => v
  | _ => f
  end.

Definition baseResponse {D : Type} (dataResponse : DataResponseEntity D)
  : DtoHttpResponse D :=
  mkDtoHttp (destructure (data_code dataResponse) 200)
            (destructure (data_message dataResponse) "data has been received")
            (data_rest dataResponse).

Definition get {D : Type} (dataResponse : DataResponseEntity D)
  : DtoHttpResponse D :=
  let message := "data has been received" in
  baseResponse (mkData (spread_over (Present message)
                                    (data_message dataResponse))
                       (data_code dataResponse)
                       (data_rest dataResponse)).

Definition created {D : Type} (dataResponse : DataResponseEntity D)
  : DtoHttpResponse D :=
  let message := "data has been created" in
  baseResponse (mkData (spread_over (Present message)
                                    (data_message dataResponse))
                       (spread_over (Present 201) (data_code dataResponse))
                       (data_rest dataResponse)).

Definition updated {D : Type} (dataResponse : DataResponseEntity D)
  : DtoHttpResponse D :=
  let message := "data has been updated" in
  baseResponse (mkData (spread_over (Present message)
                                    (data_message dataResponse))
                       (data_code dataResponse)
                       (data_rest dataResponse)).

Definition deleted {D : Type} (dataResponse : DataResponseEntity D)
  : DtoHttpResponse D :=
  let message := "data deleted" in
  baseResponse (mkData (spread_over (Present message)
                                    (data_message dataResponse))
                       (data_code dataResponse)
                       (data_rest dataResponse)).

End HttpResponse.

(** ** middleware/authorization.ts *)

(** [res.status(s).json(body)] *)
(** What a body carries besides [code] and [message]: nothing (the
    error bodies), [data: { message }], [data: login], or [userId]. *)
Inductive BodyRest : Type :=
| NoRest
| DataMessage (message : string)
| DataLogin (login : AuthService.LoginResult)
| UserId (userId : option Z).

Record JsonBody : Type := mkBody {
  body_code : Z;
  body_message : string;
  body_rest : BodyRest
}.

Record Response : Type := mkResponse {
  status : Z;
  json : JsonBody
}.

Record ReqState : Type := mkReqState {
  tokenData : Decoded;
  userType : string
}.

(** The middleware either answers itself or calls [next()] with the state
    it attached to the request. *)
Inductive GateResult : Type :=
| Rejected (r : Response)
| Next (st : ReqState).

Module AUTH_ERRORS.
Definition NO_TOKEN : JsonBody :=
  mkBody 401 "Unauthorized, no token provided" NoRest.
Definition INVALID_TOKEN : JsonBody :=
  mkBody 401 "Unauthorized, invalid jwt" NoRest.
Definition NO_SESSION : JsonBody :=
  mkBody 401 "Unauthorized, no valid session" NoRest.
End AUTH_ERRORS.

(** Truthiness of a decoded claim: [!verifiedToken?.data] is its negation
    on a non-null [data]. *)
Definition truthy_decoded (d : Decoded) : bool :=
  match d with
  | DString s => JS.nonempty s
  | DPayload _ => true
  end.

Definition authorization (E : Env) (now : Z) (req : Request)
  : Service GateResult :=
  let token := useToken.extract req in
  if negb (JS.truthy_opt token)
  then ret (Rejected (mkResponse 401 AUTH_ERRORS.NO_TOKEN))
  else
    let token := JS.nullish token "" in
    let verifiedToken :=
      useToken.verify E now token (JWT_SECRET_ACCESS_TOKEN E) in
    match data verifiedToken with
    | None => ret (Rejected (mkResponse 401 AUTH_ERRORS.INVALID_TOKEN))
    | Some d =>
        if negb (truthy_decoded d)
        then ret (Rejected (mkResponse 401 AUTH_ERRORS.INVALID_TOKEN))
        else
          session <- SessionService.getByToken token ;;
          match session with
          | None => ret (Rejected (mkResponse 401 AUTH_ERRORS.NO_SESSION))
          | Some _ => ret (Next (mkReqState d "user"))
          end
    end.

(** ** app/controller/auth.controller.ts *)

Module AuthController.

(** A route answers with a response, or its handler throws and
    [expressAsyncHandler] hands the error to [next]: the [Thrown] outcome. *)
Definition Route : Type := Request -> Service Response.

(** [authHeader && authHeader.split(" ")[1]] *)
Definition header_token (req : Request) : option string :=
  match headers_authorization req with
  | None => None
  | Some authHeader =>
      if JS.nonempty authHeader
      then nth_error (JS.split " " authHeader) 1
      else Some authHeader
  end.

(** The envelope [HttpResponse] builds, as the body sent. *)
Definition json_of (dto : HttpResponse.DtoHttpResponse BodyRest) : JsonBody :=
  mkBody (HttpResponse.dto_code dto) (HttpResponse.dto_message dto)
         (HttpResponse.dto_rest dto).

(** [HttpResponse.get({ data: { message } })] *)
Definition HttpResponse_get (message : string) : JsonBody :=
  json_of (HttpResponse.get
             (HttpResponse.mkData HttpResponse.Absent HttpResponse.Absent
                                  (DataMessage message))).

(** [HttpResponse.get({ data: login })] *)
Definition HttpResponse_get_login (login : AuthService.LoginResult)
  : JsonBody :=
  json_of (HttpResponse.get
             (HttpResponse.mkData HttpResponse.Absent HttpResponse.Absent
                                  (DataLogin login))).

(** [HttpResponse.created(user)], [user] being the [{ message, userId }]
    of [createUser] *)
Definition HttpResponse_created (user : AuthService.Message) : JsonBody :=
  json_of (HttpResponse.created
             (HttpResponse.mkData
                (HttpResponse.Present (AuthService.msg_text user))
                HttpResponse.Absent
                (UserId (AuthService.msg_userId user)))).

Definition logout_handler : Route :=
  fun req =>
    let token := header_token req in
    (if JS.truthy_opt token
     then SessionService.deleteSession (JS.nullish token "") ;;; ret tt
     else ret tt) ;;;
    ret (mkResponse 200 (HttpResponse_get "Logged out successfully")).

Definition logout (E : Env) (now : Z) : Route :=
  fun req =>
    g <- authorization E now req ;;
    match g with
    | Rejected r => ret r
    | Next _ => logout_handler req
    end.

Definition user_registration_handler (E : Env) (now : Z) : Route :=
  fun req =>
    user <- AuthService.createUser E now (req_body req) ;;
    ret (mkResponse 201 (HttpResponse_created user)).

Definition user_registration (E : Env) (now : Z) : Route :=
  fun req =>
    g <- authorization E now req ;;
    match g with
    | Rejected r => ret r
    | Next _ => user_registration_handler E now req
    end.

(** [POST /auth/user-login]: the service call, then the session write. *)
Definition user_login (E : Env) (now : Z) (email password : string)
  : Service Response :=
  login <- AuthService.userLogin E now email password ;;
  SessionService.createOrUpdateSession (AuthService.lr_userId login)
                                       (AuthService.lr_token login) ;;;
  ret (mkResponse 200 (HttpResponse_get_login login)).

End AuthController.

(** ** Sequences of session writes *)

(** What the login and logout routes do to the session table when the
    requests are handled one at a time, each from its first statement to
    its last before the next begins. An error in one does not stop the
    next. *)
Inductive SessionOp : Type :=
| LoginOp (userId : Z) (token : string)
| LogoutOp (token : string).

Definition run_op (op : SessionOp) (w : World) : World :=
  match op with
  | LoginOp userId token =>
      snd (SessionService.createOrUpdateSession userId token w)
  | LogoutOp token => snd (SessionService.deleteSession token w)
  end.

Fixpoint run_ops (ops : list SessionOp) (w : World) : World :=
  match ops with
  | [] => w
  | op :: rest => run_ops rest (run_op op w)
  end.

(** Two logins whose handlers overlap: both have had the answer of their
    [select] before either writes. *)
Definition interleaved_logins (userId1 : Z) (token1 : string)
           (userId2 : Z) (token2 : string) (w : World) : World :=
  let session1 :=
    Db.select_first (fun s => session_userId s =? userId1)
                    (userSessionTable w) in
  let session2 :=
    Db.select_first (fun s => session_userId s =? userId2)
                    (userSessionTable w) in
  let w1 :=
    snd (SessionService.createOrUpdateSession_write userId1 token1 session1
                                                    w) in
  snd (SessionService.createOrUpdateSession_write userId2 token2 session2 w1).

(** ** Predicates the properties are stated with *)

(** At most one session row per user id. *)
Definition one_session_per_user (rows : list UserSession) : Prop :=
  forall userId : Z,
    (List.length (filter (fun s => Z.eqb (session_userId s) userId) rows)
     <= 1)%nat.

(** The rows of one user. *)
Definition by_user (userId : Z) : UserSession -> bool :=
  fun s => Z.eqb (session_userId s) userId.

(** The rows of one address. *)
Definition by_email (email : string) : User -> bool :=
  fun u => String.eqb (user_email u) email.

(** The first row with the address holds a non-empty reset token equal to
    the one presented. *)
Definition stored_token_matches (email token : string) (w : World) : bool :=
  match find (by_email email) (userTable w) with
  | Some u =>
      match user_passwordToken u with
      | Some t => JS.nonempty t && String.eqb t token
      | None => false
      end
  | None => false
  end.

(** The failure classes named for [verify], with the message each one
    produces in the [catch] handler. *)
Inductive FailureKind : Type :=
| expired
| malformed
| not_yet_valid
| unknown.

Definition failure_message (k : FailureKind) (m : string) : string :=
  match k with
  | expired => "jwt expired error : " ++ m
  | malformed => "jwt token error : " ++ m
  | not_yet_valid => "jwt not before error : " ++ m
  | unknown => "unknown error: " ++ m
  end.

Definition decoded_claim (r : DtoVerifyToken) : Prop :=
  exists d, data r = Some d.

Definition typed_failure (r : DtoVerifyToken) : Prop :=
  data r = None /\ exists k m, message r = failure_message k m.

(** The value the header branch of [extract] yields on its own. *)
Definition header_credentials (req : Request) : option string :=
  match headers_authorization req with
  | Some h =>
      if JS.nonempty h then
        match JS.split " " h with
        | [scheme; credentials] =>
            if JS.includes useToken.allowedAuthorize scheme
            then Some credentials
            else None
        | _ => None
        end
      else None
  | None => None
  end.

(** Extraction with the header consulted first, then the cookie, then the
    query parameter: the order to compare [useToken.extract] against. *)
Definition extract_header_first (req : Request) : option string :=
  match header_credentials req with
  | Some t => Some t
  | None =>
      if JS.truthy (cookies_token req)
      then Some (JS.toString (cookies_token req))
      else if JS.truthy (query_token req)
      then Some (JS.toString (query_token req))
      else None
  end.

(** The request gets past [authorization]: a non-empty token is extracted,
    it verifies to a truthy claim, and a session row carries it. *)
Definition gate_passes (E : Env) (now : Z) (req : Request) (w : World) : Prop :=
  exists tok d s,
    useToken.extract req = Some tok
    /\ tok <> ""
    /\ data (useToken.verify E now tok (JWT_SECRET_ACCESS_TOKEN E)) = Some d
    /\ truthy_decoded d = true
    /\ In s (userSessionTable w)
    /\ session_token s = tok.

(** ** A concrete environment and concrete data *)

Module Sample.

Definition secret : string := "s3cret".

Definition claims : JwtPayload :=
  [("email", PStr "alice@example.com"); ("userId", PNum 1);
   ("role", PStr "user")].

(** A stand-in for the token library: the one token ["tok-alice"] verifies
    under [secret] while the clock is below 3600 and is expired from then
    on; anything else is rejected as malformed. *)
Definition verify_stub (now : Z) (token secretKey : string) : JwtOutcome :=
  if String.eqb token "tok-alice" && String.eqb secretKey secret
  then if now <? 3600
       then JwtReturn (DPayload claims)
       else JwtThrow (mkJwtError true true false "jwt expired")
  else JwtThrow (mkJwtError false true false "jwt malformed").

Definition sign_stub (now : Z) (p : JwtPayload) (secretKey : string)
           (expiresIn : Z) : string :=
  "tok-alice".

Definition hash_stub (plain : string) : string := "h:" ++ plain.

Definition hash_verify_stub (hash plain : string) : bool :=
  String.eqb hash ("h:" ++ plain).

Definition insert_parse_stub (d : UserInsert) : option UserInsert :=
  match ins_password d, ins_confirmPassword d with
  | Some p, Some c => if String.eqb p c then Some d else None
  | _, _ => None
  end.

Definition env : Env :=
  mkEnv verify_stub sign_stub hash_stub hash_verify_stub
        (fun _ => true) (fun _ => true) insert_parse_stub secret.

Definition alice : User :=
  mkUser 1 "Alice" "alice@example.com" (Some "h:Passw0rd!")
         (Some "tok-alice") true false false.

(** soft-deleted *)
Definition bob : User :=
  mkUser 2 "Bob" "bob@example.com" (Some "h:Passw0rd!") None true true true.

(** inactive *)
Definition carol : User :=
  mkUser 3 "Carol" "carol@example.com" (Some "h:Passw0rd!") None
         false true false.

(** Three users, nobody logged in. *)
Definition world : World := mkWorld [alice; bob; carol] 3 [] 0 [].

(** Alice logged in. *)
Definition world_logged_in : World :=
  mkWorld [alice; bob; carol] 3 [mkSession 1 1 "tok-alice"] 1 [].

Definition registration (email : string) : UserInsert :=
  mkInsert None "Newcomer" email (Some "Passw0rd!") (Some "Passw0rd!")
           None None None None.

Definition bare_request : Request :=
  mkRequest JS.JUndefined JS.JUndefined None (registration "dave@example.com").

(** Alice's token in the Authorization header. *)
Definition bearer_request : Request :=
  mkRequest JS.JUndefined JS.JUndefined (Some "Bearer tok-alice")
            (registration "dave@example.com").

(** A different token in each of the three places. *)
Definition crowded_request : Request :=
  mkRequest (JS.JString "from-query") (JS.JString "from-cookie")
            (Some "Bearer from-header") (registration "dave@example.com").

End Sample.

(** * Further parts of the code *)

From Stdlib Require DecimalString DecimalNat Permutation.

(** ** config/env.ts *)

Module EnvConfig.

(** A fallback of [_getEnv] is a string or a number; numbers are taken to
    be integers here. *)
Inductive Fallback : Type :=
| FString (s : string)
| FNumber (n : Z).

(** [!fallback] is the negation of this. *)
Definition fallback_truthy (f : option Fallback) : bool :=
  match f with
  | None => false
  | Some (FString s) => JS.nonempty s
  | Some (FNumber n) => negb (n =? 0)
  end.

(** [String(fallback)] *)
Definition fallback_String (f : Fallback) : string :=
  match f with
  | FString s => s
  | FNumber n => DecimalString.NilZero.string_of_int (Z.to_int n)
  end.

Inductive Result : Type :=
| Value (s : string)
| Throws (message : string).

(** [_getEnv(key, fallback)], reading [process.env] through [env]. *)
Definition _getEnv (env : string -> option string) (key : string)
           (fallback : option Fallback) : Result :=
  let value := env key in
  if negb (JS.truthy_opt value) && negb (fallback_truthy fallback)
  then Throws ("Required environment variable " ++ key ++ " is missing")
  else
    match fallback with
    | Some f =>
        if negb (JS.truthy_opt value) then Value (fallback_String f)
        else Value (JS.nullish value "")
    | None => Value (JS.nullish value "")
    end.

End EnvConfig.

(** ** db/index.ts *)

Module DbConnection.

Definition MAX_RETRIES : nat := 3.

(** [checkDbConnection(retries)]. The answers of the database to the
    successive [select 1] probes are [probe 0], [probe 1], ...: [None]
    when the probe succeeds, the error otherwise. [first] is the number of
    the probe about to be made. The result is the error thrown, if any,
    with the number of the next probe; the pause between two probes is
    left out. *)
Fixpoint checkDbConnection (probe : nat -> option string) (first : nat)
         (retries : nat) : option string * nat :=
  match probe first with
  | None => (None, S first)
  | Some error =>
      match retries with
      | O => (Some error, S first)
      | S r => checkDbConnection probe (S first) r
      end
  end.

End DbConnection.

(** ** hooks/useTable.ts *)

Module UseTable.

Record Paging : Type := mkPaging {
  page : nat;
  pageSize : nat
}.

Record Page (T : Type) : Type := mkPage {
  result : list T;
  hasMore : bool
}.
Arguments mkPage {T} result hasMore.
Arguments result {T} p.
Arguments hasMore {T} p.

Definition DEFAULT_PAGE_SIZE : nat := 20.

(** [n || d] on a number that may be absent *)
Definition or_default (n : option nat) (d : nat) : nat :=
  match n with
  | Some (S k) => S k
  | _ => d
  end.

(** [queryMany] with a limit and an offset: [rows] is what the query
    with its criteria and order yields when nothing is cut off. *)
Definition queryMany {T : Type} (rows : list T) (limit offset : option nat)
  : list T :=
  let after := match offset with
               | Some o => skipn o rows
               | None => rows
               end in
  match limit with
  | Some l => firstn l after
  | None => after
  end.

(** [findPage(config)]; a [limit] or [offset] in the config is replaced
    by the computed ones. *)
Definition findPage {T : Type} (rows : list T) (paging : option Paging)
  : Page T :=
  let pageSize := or_default (option_map pageSize paging) DEFAULT_PAGE_SIZE in
  let currentPage := (or_default (option_map page paging) 1 - 1)%nat in
  let limit := (pageSize + 1)%nat in
  let offset := (currentPage * pageSize)%nat in
  let rawResult := queryMany rows (Some limit) (Some offset) in
  let hasMore := (pageSize <? List.length rawResult)%nat in
  let result := if hasMore then removelast rawResult else rawResult in
  mkPage result hasMore.

(** The pages [1 .. k], one after the other. *)
Fixpoint pages_upto {T : Type} (rows : list T) (size : nat) (k : nat)
  : list T :=
  match k with
  | O => []
  | S k' =>
      (pages_upto rows size k'
         ++ result (findPage rows (Some (mkPaging (S k') size))))%list
  end.

End UseTable.

(** ** utils/generateARandomPassword.ts *)

Module RandomPassword.

Definition upperChars : string := "ABCDEFGHIJKLMNOPQRSTUVWXYZ".
Definition lowerChars : string := "abcdefghijklmnopqrstuvwxyz".
Definition numbers : string := "0123456789".
Definition specialChars : string := "!@#$%^&*()_+-=[]{}|;:,.<>?".
Definition allChars : string :=
  upperChars ++ lowerChars ++ numbers ++ specialChars.

(** [chars[Math.floor(Math.random() * chars.length)]]: the random number
    is given as a natural [r], of which only [r mod chars.length]
    matters. *)
Definition pick (chars : string) (r : nat) : string :=
  match String.get (r mod String.length chars) chars with
  | Some c => String c EmptyString
  | None => "undefined"
  end.

(** The loop [for (i = password.length; i < length; i++)], [count] turns
    of it, drawing from [draws i] on. *)
Fixpoint fill (draws : nat -> nat) (i count : nat) (password : string)
  : string :=
  match count with
  | O => password
  | S c => fill draws (S i) c (password ++ pick allChars (draws i))
  end.

(** [generateRandomPassword(length)]. [draws] are the random numbers of
    the picks in order; [shuffle] is what
    [.sort(() => Math.random() - 0.5)] does to the characters. *)
Definition generateRandomPassword (draws : nat -> nat)
           (shuffle : list ascii -> list ascii) (length : nat) : string :=
  let password := "" in
  let password := password ++ pick upperChars (draws 0%nat) in
  let password := password ++ pick lowerChars (draws 1%nat) in
  let password := password ++ pick numbers (draws 2%nat) in
  let password := password ++ pick specialChars (draws 3%nat) in
  let password :=
    fill draws (String.length password)
         (length - String.length password) password in
  string_of_list_ascii (shuffle (list_ascii_of_string password)).

Definition is_upper (c : ascii) : bool :=
  let n := nat_of_ascii c in (65 <=? n)%nat && (n <=? 90)%nat.
Definition is_lower (c : ascii) : bool :=
  let n := nat_of_ascii c in (97 <=? n)%nat && (n <=? 122)%nat.
Definition is_digit (c : ascii) : bool :=
  let n := nat_of_ascii c in (48 <=? n)%nat && (n <=? 57)%nat.
Definition is_special (c : ascii) : bool :=
  existsb (Ascii.eqb c) (list_ascii_of_string specialChars).

End RandomPassword.

(** ** middleware/expressErrorDrizzle.ts and expressErrorResponse.ts *)

Module ErrorMiddleware.

Record ValidationError : Type := mkValidationError {
  ve_field : string;
  ve_message : string
}.

(** [err.message]: a string, or a plain object of the shape
    [DtoErrorResponse] (what [_.isObject] is there for). *)
Inductive ErrMessage : Type :=
| MsgString (s : string)
| MsgObject (code : Z) (message : string).

(** What an error middleware is handed, as far as these two read it. *)
Record Thrown : Type := mkThrown {
  instanceof_Error : bool;
  instanceof_MulterError : bool;
  instanceof_BaseResponse : bool;
  err_statusCode : Z;
  (** [Some c] when [typeof err.code === "string"] *)
  err_code : option string;
  err_msg : ErrMessage;
  (** [Some ds] when [Array.isArray(err.details)] *)
  err_details : option (list ValidationError);
  err_name : string
}.

Record Body : Type := mkErrBody {
  b_code : Z;
  b_message : string;
  b_errors : option (list ValidationError)
}.

(** A middleware answers, calls [next(err)], or throws itself. *)
Inductive Handled : Type :=
| Responds (status : Z) (body : Body)
| CallsNext
| TypeError.

(** The codes of [pg-error-enum] the switch names. *)
Definition UNIQUE_VIOLATION : string := "23505".
Definition FOREIGN_KEY_VIOLATION : string := "23503".

(** [s.includes(sub)] *)
Definition includes (s sub : string) : bool :=
  match String.index 0 sub s with
  | Some _ => true
  | None => false
  end.

Definition formatErrorMessage (message : string) : string :=
  "Error: " ++ message.

Definition isPostgresError (err : Thrown) : option string :=
  match err_code err, err_msg err with
  | Some c, MsgString _ => Some c
  | _, _ => None
  end.

Definition isValidationError (err : Thrown) : bool :=
  match err_details err with
  | Some _ => true
  | None => false
  end.

Definition after_switch (err : Thrown) : Handled :=
  match err_msg err with
  | MsgObject _ _ => TypeError
  | MsgString m =>
      if includes m "validation failed" || isValidationError err
      then Responds 400 (mkErrBody 400 (formatErrorMessage "Validation failed")
                                   (Some (JS.nullish (err_details err) [])))
      else if String.eqb (err_name err) "DrizzleError"
      then Responds 400 (mkErrBody 400 (formatErrorMessage m) None)
      else CallsNext
  end.

(** [expressErrorDrizzle(err, req, res, next)]. With a message that is
    an object, [err.message.includes] is not a function and the call
    throws. *)
Definition expressErrorDrizzle (err : Thrown) : Handled :=
  if instanceof_Error err then
    match isPostgresError err with
    | Some c =>
        if String.eqb c UNIQUE_VIOLATION
        then Responds 409 (mkErrBody 409 (formatErrorMessage
                                            "Duplicate entry detected") None)
        else if String.eqb c FOREIGN_KEY_VIOLATION
        then Responds 400 (mkErrBody 400 (formatErrorMessage
                                            "Invalid reference to a related resource")
                                     None)
        else after_switch err
    | None => after_switch err
    end
  else CallsNext.

Definition generateErrorResponse (err : Thrown) (code : Z) : Body :=
  match err_msg err with
  | MsgObject c m => mkErrBody c m None
  | MsgString m => mkErrBody code m None
  end.

Definition expressErrorResponse (err : Thrown) : Handled :=
  if instanceof_MulterError err
  then Responds 400 (generateErrorResponse err 400)
  else if instanceof_BaseResponse err
  then Responds (err_statusCode err)
                (generateErrorResponse err (err_statusCode err))
  else CallsNext.

(** The two in the order [App.create] installs them. *)
Definition drizzle_then_response (err : Thrown) : Handled :=
  match expressErrorDrizzle err with
  | CallsNext => expressErrorResponse err
  | handled => handled
  end.

End ErrorMiddleware.

(** ** hooks/useToken-enhanced.ts *)

Module useTokenEnhanced.

(** What is caught from [jwt.verify] here: the three [instanceof] tests,
    the message, [new Date(err.expiredAt).toISOString()] and
    [_.get(err, "date", "unknown date")] as text. *)
Record VerifyError : Type := mkVerifyError {
  isTokenExpiredError : bool;
  isJsonWebTokenError : bool;
  isNotBeforeError : bool;
  error_message : string;
  expiredAt_iso : string;
  date_text : string
}.

Inductive VerifyOutcome : Type :=
| Verified (d : Decoded)
| Raised (e : VerifyError).

Record VerificationResult : Type := mkResult {
  result_data : option Decoded;
  result_message : string;
  result_code : Z
}.

(** What this hook imports. *)
Record Lib : Type := mkLib {
  (** [jwt.verify(token, publicKey, verifyOptions)] at a clock reading *)
  lib_verify : Z -> string -> string -> VerifyOutcome;
  (** [JSON.parse(Buffer.from(part, "base64url").toString())] does not
      throw *)
  lib_is_json_part : string -> bool
}.

Definition allowedAuthorize : list string := ["Bearer"; "JWT"].

(** [extract(req)]: cookie, then header, then query. *)
Definition extract (req : Request) : option string :=
  let authCookie := cookies_token req in
  if JS.truthy authCookie then Some (JS.toString authCookie)
  else
    let from_header :=
      match headers_authorization req with
      | Some authHeader =>
          if JS.nonempty authHeader then
            match JS.split " " authHeader with
            | [scheme; credentials] =>
                if JS.includes allowedAuthorize scheme
                then Some credentials
                else None
            | _ => None
            end
          else None
      | None => None
      end in
    match from_header with
    | Some t => Some t
    | None =>
        let authQuery := query_token req in
        if JS.truthy authQuery then Some (JS.toString authQuery) else None
    end.

Definition validateTokenFormat (L : Lib) (token : string) : bool :=
  match JS.split "." token with
  | [header; payload; signature] =>
      lib_is_json_part L header && lib_is_json_part L payload
  | _ => false
  end.

(** [claim in payload] *)
Definition has_claim (claim : string) (p : JwtPayload) : bool :=
  existsb (fun kv => String.eqb (fst kv) claim) p.

Definition validateTokenPayload (payload : Decoded) : bool :=
  match payload with
  | DString _ => false
  | DPayload p => forallb (fun claim => has_claim claim p) ["iat"; "exp"]
  end.

Definition handleVerificationError (error : VerifyError)
  : VerificationResult :=
  if isTokenExpiredError error then
    mkResult None ("Token expired on " ++ expiredAt_iso error) 401
  else if isJsonWebTokenError error then
    mkResult None ("Invalid token: " ++ error_message error) 401
  else if isNotBeforeError error then
    mkResult None ("Token not valid until " ++ date_text error) 401
  else mkResult None "Authentication failed" 401.

Definition verify (L : Lib) (now : Z) (token publicKey : string)
  : VerificationResult :=
  if negb (JS.nonempty token) then mkResult None "Token is missing" 401
  else if negb (validateTokenFormat L token)
  then mkResult None "Malformed token" 401
  else
    match lib_verify L now token publicKey with
    | Verified result =>
        if negb (validateTokenPayload result)
        then mkResult None "Invalid token payload" 401
        else mkResult (Some result) "Token is valid" 200
    | Raised error => handleVerificationError error
    end.

End useTokenEnhanced.

(** ** app/schema: the password rule *)

Module PasswordRule.

(** The pattern
    [/^(?=.*[a-z])(?=.*[A-Z])(?=.*\d)[a-zA-Z\d\W]{8,}$/] on a string of
    ASCII characters. Each look-ahead [.*x] searches the first line
    only, [.] not matching a line break; the class [[a-zA-Z\d\W]] is
    every character but the underscore. *)
Definition is_line_break (c : ascii) : bool :=
  Ascii.eqb c (ascii_of_nat 10) || Ascii.eqb c (ascii_of_nat 13).

Fixpoint first_line (s : list ascii) : list ascii :=
  match s with
  | [] => []
  | c :: rest => if is_line_break c then [] else c :: first_line rest
  end.

Definition in_class (c : ascii) : bool := negb (Ascii.eqb c "_").

Definition matches (password : string) : bool :=
  let chars := list_ascii_of_string password in
  existsb RandomPassword.is_lower (first_line chars)
  && existsb RandomPassword.is_upper (first_line chars)
  && existsb RandomPassword.is_digit (first_line chars)
  && forallb in_class chars
  && (8 <=? List.length chars)%nat.

End PasswordRule.

(** ** docs/openapi/api-docs.ts *)

Module ApiDocs.

Record Server : Type := mkServer {
  url : string;
  description : string
}.

(** [apiSpec.servers] as the module starts out *)
Definition initial_servers : list Server :=
  [mkServer "/api/v1" "Development Server";
   mkServer "/api/v1" "Production Server"].

(** [req.protocol] and [req.get("host")] *)
Record HostInfo : Type := mkHostInfo {
  protocol : string;
  host : option string
}.

(** [getOpenAPISpec(req)]: the one [apiSpec] object of the module is
    written and handed back, so the state after the call and the value
    returned are the same list. *)
Definition getOpenAPISpec (req : option HostInfo) (servers : list Server)
  : list Server :=
  match req with
  | Some r =>
      [mkServer (protocol r ++ "://" ++ JS.nullish (host r) "undefined"
                   ++ "/api/v1")
                "Current Server"]
  | None => servers
  end.

(** The servers of [apiSpec] after a series of calls. *)
Definition after_calls (calls : list (option HostInfo))
           (servers : list Server) : list Server :=
  fold_left (fun st req => getOpenAPISpec req st) calls servers.

(** The last call of a series that came with a request. *)
Fixpoint last_request (calls : list (option HostInfo)) : option HostInfo :=
  match calls with
  | [] => None
  | c :: rest =>
      match last_request rest with
      | Some r => Some r
      | None => c
      end
  end.

End ApiDocs.

(** ** Values the further properties are stated with *)

(** The token [requestPasswordReset] signs: one hour of life. *)
Definition reset_token (E : Env) (now : Z) (email : string) : string :=
  jwt_sign E now [("email", PStr email); ("type", PStr "password-reset")]
           (JWT_SECRET_ACCESS_TOKEN E) 3600.

(** The token [sendVerificationEmail] signs: one day of life. *)
Definition verification_token (E : Env) (now : Z) (email : string) : string :=
  jwt_sign E now [("email", PStr email); ("type", PStr "email-verification")]
           (JWT_SECRET_ACCESS_TOKEN E) 86400.

(** The token [userLogin] signs for a row: one day of life. *)
Definition auth_token (E : Env) (now : Z) (user : User) : string :=
  jwt_sign E now [("email", PStr (user_email user));
                  ("userId", PNum (user_id user));
                  ("role", PStr "user")]
           (JWT_SECRET_ACCESS_TOKEN E) 86400.

(** The row [createUser] inserts for an accepted payload [v] of raw data
    [data], before the verification token is written on it. *)
Definition registered_row (E : Env) (newid : Z) (data v : UserInsert) : User :=
  mkUser newid (ins_name v) (ins_email v)
         (Some (hashing_hash E (JS.nullish (ins_password data) "")))
         (ins_passwordToken v)
         (JS.nullish (ins_isActive v) true) false
         (JS.nullish (ins_isDeleted v) false).

(** The id the insert takes: the one supplied, else the next of the
    sequence. *)
Definition next_user_id (v : UserInsert) (w : World) : Z :=
  match ins_id v with
  | Some i => i
  | None => user_id_seq w + 1
  end.

(** A row with its reset token replaced. *)
Definition with_passwordToken (token : option string) (u : User) : User :=
  mkUser (user_id u) (user_name u) (user_email u) (user_password u) token
         (user_isActive u) (user_isEmailVerified u) (user_isDeleted u).

(** A row after [resetPassword] wrote to it. *)
Definition reset_row (hashedPassword : string) (u : User) : User :=
  mkUser (user_id u) (user_name u) (user_email u) (Some hashedPassword) None
         (user_isActive u) true (user_isDeleted u).

(** A request whose only token is in the Authorization header. *)
Definition bearer (token : string) (b : UserInsert) : Request :=
  mkRequest JS.JUndefined JS.JUndefined (Some ("Bearer " ++ token)) b.

(** No blank in a string. *)
Fixpoint no_space (s : string) : bool :=
  match s with
  | EmptyString => true
  | String c rest => negb (Ascii.eqb c " ") && no_space rest
  end.

(** ** Further concrete data *)

Module Scenario.

(** The sample environment with the mail transport down. *)
Definition env_mail_down : Env :=
  mkEnv Sample.verify_stub Sample.sign_stub Sample.hash_stub
        Sample.hash_verify_stub (fun _ => false) (fun _ => true)
        Sample.insert_parse_stub Sample.secret.

(** The sample environment with a signer whose tokens have 256
    characters, one more than [password_token] holds. *)
Definition long_token : string :=
  String.concat "" (List.repeat "eyJhbGci" 32).

Definition env_long_tokens : Env :=
  mkEnv Sample.verify_stub (fun _ _ _ _ => long_token) Sample.hash_stub
        Sample.hash_verify_stub (fun _ => true) (fun _ => true)
        Sample.insert_parse_stub Sample.secret.

(** A registration that asks for a soft-deleted row. *)
Definition ghost_registration : UserInsert :=
  mkInsert None "Ghost" "ghost@example.com" (Some "Passw0rd!")
           (Some "Passw0rd!") None None None (Some true).

(** Alice's token in the query string only. *)
Definition query_request : Request :=
  mkRequest (JS.JString "tok-alice") JS.JUndefined None
            (Sample.registration "dave@example.com").

End Scenario.

(** * Properties *)

(** ** Token extraction *)

Lemma truthy_opt_Some (o : option string) :
  JS.truthy_opt o = true -> exists t, o = Some t /\ t <> "".
Proof.
  destruct o as [t|]; simpl; [|discriminate].
  unfold JS.nonempty. intro H. exists t. split; [reflexivity|].
  intro Heq. subst t. discriminate H.
Qed.

Lemma nonempty_true (t : string) : t <> "" -> JS.nonempty t = true.
Proof.
  intro H. unfold JS.nonempty.
  destruct (String.eqb_spec t ""); [contradiction|reflexivity].
Qed.

Lemma nonempty_false (t : string) : JS.nonempty t = false -> t = "".
Proof.
  unfold JS.nonempty.
  destruct (String.eqb_spec t ""); [trivial|discriminate].
Qed.

(** The header branch is what is left of [extract] once query and cookie
    are out of the way. *)
Lemma extract_falls_to_header (req : Request) :
  JS.truthy (query_token req) = false ->
  JS.truthy (cookies_token req) = false ->
  useToken.extract req = header_credentials req.
Proof.
  intros Hq Hc. unfold useToken.extract, header_credentials.
  rewrite Hq, Hc. reflexivity.
Qed.

(** C2, as the code has it: the query parameter wins whenever it is
    present; the cookie is used only when the query parameter yields no
    token; the Authorization header is used only when both the query
    parameter and the cookie yield none. *)
Theorem extract_precedence (req : Request) :
  (JS.truthy (query_token req) = true ->
   useToken.extract req = Some (JS.toString (query_token req)))
  /\ (JS.truthy (query_token req) = false ->
      JS.truthy (cookies_token req) = true ->
      useToken.extract req = Some (JS.toString (cookies_token req)))
  /\ (JS.truthy (query_token req) = false ->
      JS.truthy (cookies_token req) = false ->
      useToken.extract req = header_credentials req).
Proof.
  repeat split.
  - intro Hq. unfold useToken.extract. rewrite Hq. reflexivity.
  - intros Hq Hc. unfold useToken.extract. rewrite Hq, Hc. reflexivity.
  - apply extract_falls_to_header.
Qed.

Lemma extract_precedence_witness :
  useToken.extract Sample.crowded_request = Some "from-query".
Proof.
  apply (proj1 (extract_precedence Sample.crowded_request)).
  reflexivity.
Defined.

(** C2 as stated fails: with a token in all three places the header value
    is ["from-header"], yet [extract] answers the query parameter's. *)
Lemma extract_not_header_first :
  header_credentials Sample.crowded_request = Some "from-header"
  /\ extract_header_first Sample.crowded_request = Some "from-header"
  /\ useToken.extract Sample.crowded_request = Some "from-query"
  /\ useToken.extract Sample.crowded_request
     <> extract_header_first Sample.crowded_request.
Proof.
  repeat split; try reflexivity.
  vm_compute. discriminate.
Qed.

(** ** Token verification *)

(** [verify] hands back a claim exactly when the library returns one for a
    non-empty token. *)
Lemma verify_data_Some (E : Env) (now : Z) (token secretKey : string)
      (d : Decoded) :
  data (useToken.verify E now token secretKey) = Some d
  <-> token <> "" /\ jwt_verify E now token secretKey = JwtReturn d.
Proof.
  unfold useToken.verify, JS.nonempty.
  destruct (String.eqb_spec token "") as [He|Hne]; simpl.
  - split; [discriminate|]. intros [Hc _]. contradiction.
  - destruct (jwt_verify E now token secretKey) as [r|err]; simpl.
    + split.
      * intro H. inversion H. split; [assumption|reflexivity].
      * intros [_ H]. inversion H. reflexivity.
    + split.
      * destruct (isTokenExpiredError err), (isJsonWebTokenError err),
          (isNotBeforeError err); simpl; discriminate.
      * intros [_ H]. discriminate H.
Qed.

Lemma verify_data_None_of_throw (E : Env) (now : Z) (token secretKey : string)
      (err : JwtError) :
  jwt_verify E now token secretKey = JwtThrow err ->
  data (useToken.verify E now token secretKey) = None.
Proof.
  intro H. unfold useToken.verify.
  destruct (negb (JS.nonempty token)); [reflexivity|].
  rewrite H.
  destruct (isTokenExpiredError err), (isJsonWebTokenError err),
    (isNotBeforeError err); reflexivity.
Qed.

Lemma failure_message_not_unauthorized (k : FailureKind) (m : string) :
  "unauthorized" <> failure_message k m.
Proof.
  destruct k; simpl; discriminate.
Qed.

(** C8, as the code has it: [verify] is a total function of the token, the
    secret and the library's answer, with no database argument. It returns
    the decoded claim when the library returns one for a non-empty token;
    otherwise [data] is null and the message is ["unauthorized"] for an
    empty token, or one of the four classes expired, malformed,
    not-yet-valid, unknown applied to the caught error's message. *)
Theorem verify_total_cases (E : Env) (now : Z) (token secretKey : string) :
  let r := useToken.verify E now token secretKey in
  (token = "" /\ r = mkDto None "unauthorized")
  \/ (token <> ""
      /\ exists d, jwt_verify E now token secretKey = JwtReturn d
                   /\ r = mkDto (Some d) "token is verify")
  \/ (token <> ""
      /\ exists err k, jwt_verify E now token secretKey = JwtThrow err
                       /\ r = mkDto None (failure_message k (err_message err))).
Proof.
  unfold useToken.verify, JS.nonempty.
  destruct (String.eqb_spec token "") as [He|Hne]; simpl.
  - left. split; [assumption|reflexivity].
  - right. destruct (jwt_verify E now token secretKey) as [d|err].
    + left. split; [assumption|]. exists d. split; reflexivity.
    + right. split; [assumption|]. exists err.
      destruct (isTokenExpiredError err).
      { exists expired. split; reflexivity. }
      destruct (isJsonWebTokenError err).
      { exists malformed. split; reflexivity. }
      destruct (isNotBeforeError err).
      { exists not_yet_valid. split; reflexivity. }
      exists unknown. split; reflexivity.
Qed.

(** C8 as stated fails on the empty token: the result is neither a decoded
    claim nor a failure of one of the four named classes. *)
Lemma verify_empty_token_unclassified :
  let r := useToken.verify Sample.env 0 "" Sample.secret in
  r = mkDto None "unauthorized"
  /\ ~ (decoded_claim r \/ typed_failure r).
Proof.
  split; [reflexivity|].
  intros [[d Hd]|[_ [k [m Hm]]]].
  - discriminate Hd.
  - exact (failure_message_not_unauthorized k m Hm).
Qed.

(** ** The session table *)

Section SessionTable.

Implicit Types (rows : list UserSession) (userId : Z) (token : string).

Lemma filter_map_same_user (f : UserSession -> UserSession) rows userId :
  (forall r, session_userId (f r) = session_userId r) ->
  List.length (filter (by_user userId) (map f rows))
  = List.length (filter (by_user userId) rows).
Proof.
  intro Hf. induction rows as [|r rows IH]; simpl; [reflexivity|].
  assert (Hb : by_user userId (f r) = by_user userId r)
    by (unfold by_user; rewrite Hf; reflexivity).
  rewrite Hb. destruct (by_user userId r); simpl; rewrite IH; reflexivity.
Qed.

Lemma filter_filter_le {A : Type} (p q : A -> bool) (l : list A) :
  (List.length (filter p (filter q l)) <= List.length (filter p l))%nat.
Proof.
  induction l as [|a l IH]; simpl; [lia|].
  destruct (q a); simpl; destruct (p a); simpl; lia.
Qed.

Lemma find_none_filter_nil {A : Type} (p : A -> bool) (l : list A) :
  find p l = None -> filter p l = [].
Proof.
  induction l as [|a l IH]; simpl; [reflexivity|].
  destruct (p a); [discriminate|exact IH].
Qed.

Lemma find_some_filter_cons {A : Type} (p : A -> bool) (l : list A) (a : A) :
  find p l = Some a -> exists rest, filter p l = a :: rest.
Proof.
  induction l as [|b l IH]; simpl; [discriminate|].
  destruct (p b) eqn:Hb.
  - intro H. inversion H. subst. eexists. reflexivity.
  - exact IH.
Qed.

(** The table after [createOrUpdateSession], case by case. *)
Lemma createOrUpdateSession_table userId token (w : World) :
  let rows := userSessionTable w in
  let rows' :=
    userSessionTable
      (snd (SessionService.createOrUpdateSession userId token w)) in
  match find (by_user userId) rows with
  | Some _ =>
      rows' = map (fun r => if by_user userId r
                            then mkSession (session_id r) userId token
                            else r) rows
  | None =>
      rows' = rows
      \/ rows' = (rows ++ [mkSession (userSession_id_seq w + 1) userId token])%list
  end.
Proof.
  unfold SessionService.createOrUpdateSession, bind, gets, Db.select_first.
  simpl. fold (by_user userId).
  destruct (find (by_user userId) (userSessionTable w)) as [s|] eqn:Hfind.
  - reflexivity.
  - unfold Db.insert_session.
    destruct (existsb _ (userSessionTable w)); [left; reflexivity|].
    destruct (negb _); [left; reflexivity|].
    right. reflexivity.
Qed.

(** The insert goes through when the user exists and the sequence is
    ahead of every id in the table. *)
Lemma createOrUpdateSession_inserts userId token (w : World) :
  find (by_user userId) (userSessionTable w) = None ->
  (exists u, In u (userTable w) /\ user_id u = userId) ->
  (forall s, In s (userSessionTable w) ->
             session_id s <= userSession_id_seq w) ->
  userSessionTable (snd (SessionService.createOrUpdateSession userId token w))
  = (userSessionTable w
       ++ [mkSession (userSession_id_seq w + 1) userId token])%list.
Proof.
  intros Hfind [u [Hin Hu]] Hseq.
  unfold SessionService.createOrUpdateSession, bind, gets, Db.select_first.
  simpl. fold (by_user userId). rewrite Hfind.
  unfold Db.insert_session.
  destruct (existsb _ (userSessionTable w)) eqn:Hpk.
  - exfalso. apply existsb_exists in Hpk. destruct Hpk as [s [Hs Hid]].
    apply Z.eqb_eq in Hid. specialize (Hseq s Hs). lia.
  - assert (Hfk : existsb (fun u0 => user_id u0 =? userId) (userTable w)
                  = true).
    { apply existsb_exists. exists u. split; [exact Hin|].
      apply Z.eqb_eq. exact Hu. }
    rewrite Hfk. reflexivity.
Qed.

Lemma createOrUpdateSession_preserves userId token (w : World) :
  one_session_per_user (userSessionTable w) ->
  one_session_per_user
    (userSessionTable
       (snd (SessionService.createOrUpdateSession userId token w))).
Proof.
  intros Hinv v.
  pose proof (createOrUpdateSession_table userId token w) as Ht.
  cbv zeta in Ht.
  destruct (find (by_user userId) (userSessionTable w)) as [s|] eqn:Hfind.
  - rewrite Ht. fold (by_user v).
    rewrite filter_map_same_user; [apply Hinv|].
    intro r. unfold by_user.
    destruct (Z.eqb_spec (session_userId r) userId) as [Heq|Hne]; simpl; auto.
  - destruct Ht as [Ht|Ht]; rewrite Ht; [apply Hinv|].
    rewrite filter_app, length_app. simpl.
    destruct (Z.eqb_spec userId v) as [Heq|Hne]; simpl.
    + subst v. fold (by_user userId).
      rewrite (find_none_filter_nil _ _ Hfind). simpl. lia.
    + specialize (Hinv v). lia.
Qed.

Lemma deleteSession_table token (w : World) :
  userSessionTable (snd (SessionService.deleteSession token w))
  = filter (fun s => negb (String.eqb (session_token s) token))
           (userSessionTable w).
Proof. reflexivity. Qed.

Lemma deleteSession_preserves token (w : World) :
  one_session_per_user (userSessionTable w) ->
  one_session_per_user
    (userSessionTable (snd (SessionService.deleteSession token w))).
Proof.
  intros Hinv v. rewrite deleteSession_table.
  eapply Nat.le_trans; [apply filter_filter_le|apply Hinv].
Qed.

Lemma run_ops_preserves (ops : list SessionOp) (w : World) :
  one_session_per_user (userSessionTable w) ->
  one_session_per_user (userSessionTable (run_ops ops w)).
Proof.
  revert w. induction ops as [|op ops IH]; intros w Hinv; simpl; [exact Hinv|].
  apply IH. destruct op as [userId token|token]; simpl.
  - apply createOrUpdateSession_preserves, Hinv.
  - apply deleteSession_preserves, Hinv.
Qed.

(** C6, as the code has it: when the requests are handled one at a time,
    each login's [createOrUpdateSession] running from its [select] to its
    write before the next request begins, every sequence of login writes
    and logout deletes ([deleteSession]) leads from a table with at most
    one session row per user to such a table again. A login write for a user
    who has a row keeps the number of rows and leaves that user's row
    carrying the new token; for a user without a row it appends one row
    with the user and the token, which the database accepts whenever the
    user exists and the id sequence is ahead of the ids in use (a refused
    insert leaves the table as it was). A logout delete removes exactly
    the rows carrying the token. *)
Theorem session_invariant_preserved (w : World) :
  one_session_per_user (userSessionTable w) ->
  (forall ops, one_session_per_user (userSessionTable (run_ops ops w)))
  /\ (forall userId token,
         let rows := userSessionTable w in
         let rows' := userSessionTable (run_op (LoginOp userId token) w) in
         match find (fun s => Z.eqb (session_userId s) userId) rows with
         | Some s =>
             List.length rows' = List.length rows
             /\ (forall r, In r rows' -> session_userId r = userId ->
                           session_token r = token
                           /\ session_id r = session_id s)
             /\ (forall r, session_userId r <> userId ->
                           In r rows' <-> In r rows)
         | None =>
             let row := mkSession (userSession_id_seq w + 1) userId token in
             (rows' = rows \/ rows' = (rows ++ [row])%list)
             /\ ((exists u, In u (userTable w) /\ user_id u = userId) ->
                 (forall r, In r rows ->
                            session_id r <= userSession_id_seq w) ->
                 rows' = (rows ++ [row])%list)
         end)
  /\ (forall token r,
         In r (userSessionTable (run_op (LogoutOp token) w))
         <-> In r (userSessionTable w) /\ session_token r <> token).
Proof.
  intro Hinv. split; [|split].
  - intro ops. apply run_ops_preserves, Hinv.
  - intros userId token. cbv zeta. unfold run_op.
    pose proof (createOrUpdateSession_table userId token w) as Ht.
    cbv zeta in Ht. fold (by_user userId).
    destruct (find (by_user userId) (userSessionTable w)) as [s|] eqn:Hfind.
    + rewrite Ht. split; [apply length_map|]. split.
      * intros r Hin Hu. apply in_map_iff in Hin.
        destruct Hin as [r0 [Hr0 Hin0]].
        destruct (by_user userId r0) eqn:Hb.
        -- subst r. simpl. split; [reflexivity|].
           destruct (find_some_filter_cons _ _ _ Hfind) as [rest Hrest].
           assert (Hin1 : In r0 (filter (by_user userId) (userSessionTable w)))
             by (apply filter_In; split; assumption).
           specialize (Hinv userId). fold (by_user userId) in Hinv.
           rewrite Hrest in Hin1, Hinv. simpl in Hinv.
           destruct rest as [|x rest]; [|simpl in Hinv; lia].
           destruct Hin1 as [Heq|[]]. subst r0. reflexivity.
        -- subst r0. unfold by_user in Hb.
           apply Z.eqb_neq in Hb. contradiction.
      * intros r Hne. rewrite in_map_iff. split.
        -- intros [r0 [Hr0 Hin0]].
           destruct (by_user userId r0) eqn:Hb.
           ++ subst r. simpl in Hne. contradiction.
           ++ subst r0. exact Hin0.
        -- intro Hin. exists r. split; [|exact Hin].
           unfold by_user. destruct (Z.eqb_spec (session_userId r) userId);
             [contradiction|reflexivity].
    + split; [exact Ht|].
      intros Huser Hseq.
      apply (createOrUpdateSession_inserts userId token w Hfind Huser Hseq).
  - intros token r. unfold run_op. rewrite deleteSession_table.
    rewrite filter_In. split.
    + intros [Hin Hb]. split; [exact Hin|].
      intro Heq. rewrite Heq, String.eqb_refl in Hb. discriminate.
    + intros [Hin Hne]. split; [exact Hin|].
      destruct (String.eqb_spec (session_token r) token);
        [contradiction|reflexivity].
Qed.

End SessionTable.

(** The same at the level of the routes: the login route writes the
    session table only through [createOrUpdateSession], the logout route
    only through [deleteSession]. *)
Lemma userLogin_reads_only (E : Env) (now : Z) (email password : string)
      (w : World) :
  snd (AuthService.userLogin E now email password w) = w.
Proof.
  unfold AuthService.userLogin, bind, gets, AuthService.parsed.
  destruct (loginSchema_parse E email password) as [v|]; [|reflexivity].
  simpl. destruct (Db.select_first _ (userTable w)) as [user|];
    [|reflexivity].
  destruct (user_isActive user); [|reflexivity]. simpl.
  destruct (hashing_verify E _ _); [|reflexivity]. simpl.
  destruct (AuthService.generateAuthToken E now user); reflexivity.
Qed.

Lemma user_login_preserves (E : Env) (now : Z) (email password : string)
      (w : World) :
  one_session_per_user (userSessionTable w) ->
  one_session_per_user
    (userSessionTable
       (snd (AuthController.user_login E now email password w))).
Proof.
  intro Hinv. unfold AuthController.user_login, bind.
  pose proof (userLogin_reads_only E now email password w) as Hw.
  destruct (AuthService.userLogin E now email password w) as [[login|e] w1];
    simpl in Hw; subst w1; [|exact Hinv].
  pose proof (createOrUpdateSession_preserves
                (AuthService.lr_userId login) (AuthService.lr_token login)
                w Hinv) as Hc.
  destruct (SessionService.createOrUpdateSession _ _ w) as [[s|e] w2];
    exact Hc.
Qed.

Lemma session_invariant_preserved_witness :
  one_session_per_user
    (userSessionTable
       (run_ops [LoginOp 1 "t1"; LoginOp 1 "t2"; LogoutOp "t9"; LoginOp 3 "t3"]
                Sample.world_logged_in)).
Proof.
  refine (proj1 (session_invariant_preserved Sample.world_logged_in _) _).
  intro u. simpl.
  match goal with |- context [if ?b then _ else _] => destruct b end;
    simpl; lia.
Defined.

(** Run without interruption, [createOrUpdateSession] is its [select]
    followed by the write on what the [select] answered. *)
Lemma createOrUpdateSession_split (userId : Z) (token : string) (w : World) :
  SessionService.createOrUpdateSession userId token w
  = SessionService.createOrUpdateSession_write
      userId token
      (Db.select_first (fun s => session_userId s =? userId)
                       (userSessionTable w))
      w.
Proof.
  reflexivity.
Qed.

(** C6 as stated fails. Alice has no session row and two of her logins
    overlap: each has read that she has none before the other has written,
    so each inserts, and nothing in the table refuses a second row for a
    user id. The table goes from no row, which meets the invariant, to two
    rows of user 1. The same two logins one after the other leave one
    row. *)
Lemma interleaved_logins_leave_two_rows :
  let w' := interleaved_logins 1 "tok-a" 1 "tok-b" Sample.world in
  one_session_per_user (userSessionTable Sample.world)
  /\ userSessionTable w' = [mkSession 1 1 "tok-a"; mkSession 2 1 "tok-b"]
  /\ ~ one_session_per_user (userSessionTable w')
  /\ userSessionTable
       (run_ops [LoginOp 1 "tok-a"; LoginOp 1 "tok-b"] Sample.world)
     = [mkSession 1 1 "tok-b"].
Proof.
  cbv zeta. split; [|split; [|split]].
  - intro userId. simpl. lia.
  - reflexivity.
  - intro H. specialize (H 1). vm_compute in H. lia.
  - reflexivity.
Qed.

(** ** Password reset *)

Section ResetPassword.

Variable E : Env.

(** Nothing in the verdict of [validateResetToken] depends on what
    [useToken.verify] answered. *)
Lemma validateResetToken_eq (now : Z) (email token : string) (w : World) :
  AuthService.validateResetToken E now email token w
  = (Returned (stored_token_matches email token w), w).
Proof.
  unfold AuthService.validateResetToken, stored_token_matches, bind, gets,
    Db.select_first.
  fold (by_email email).
  destruct (find (by_email email) (userTable w)) as [u|]; [|reflexivity].
  destruct (user_passwordToken u) as [t|]; simpl; [|reflexivity].
  destruct (JS.nonempty t); simpl; [|reflexivity].
  destruct (String.eqb t token); reflexivity.
Qed.

Lemma resetPassword_rejects (now : Z) (email password token : string)
      (w : World) :
  stored_token_matches email token w = false ->
  AuthService.resetPassword E now email password token w
  = (Thrown (BadRequest "Invalid or expired token"), w).
Proof.
  intro H. unfold AuthService.resetPassword, bind.
  rewrite validateResetToken_eq, H. reflexivity.
Qed.

(** A byte-matching stored token is all it takes: the call returns
    whatever the library made of the token. *)
Lemma resetPassword_ignores_verification (now : Z)
      (email password token : string) (w : World) :
  stored_token_matches email token w = true ->
  fst (AuthService.resetPassword E now email password token w)
  = Returned (AuthService.mkMessage "Password reset successfully"
                                    (Some email) None).
Proof.
  intro H. unfold AuthService.resetPassword, bind.
  rewrite validateResetToken_eq, H. simpl.
  unfold AuthService.sendConfirmationEmail, AuthService.trySendEmail,
    try_catch_throw, sendEmail.
  destruct (transporter_sendMail E _); reflexivity.
Qed.

Lemma resetPassword_success_inv (now : Z) (email password token : string)
      (w w' : World) (r : AuthService.Message) :
  AuthService.resetPassword E now email password token w = (Returned r, w') ->
  stored_token_matches email token w = true
  /\ userTable w'
     = Db.update_where
         (by_email email)
         (fun u => mkUser (user_id u) (user_name u) (user_email u)
                          (Some (hashing_hash E password)) None
                          (user_isActive u) true (user_isDeleted u))
         (userTable w).
Proof.
  unfold AuthService.resetPassword, bind.
  rewrite validateResetToken_eq.
  destruct (stored_token_matches email token w); simpl; [|discriminate].
  unfold AuthService.sendConfirmationEmail, AuthService.trySendEmail,
    try_catch_throw, sendEmail.
  destruct (transporter_sendMail E _); simpl;
    intro H; inversion H; split; reflexivity.
Qed.

Lemma find_update_where {R : Type} (p : R -> bool) (f : R -> R)
      (rows : list R) :
  (forall r, p r = true -> p (f r) = true) ->
  find p (Db.update_where p f rows) = option_map f (find p rows).
Proof.
  intro Hp. unfold Db.update_where.
  induction rows as [|r rows IH]; simpl; [reflexivity|].
  destruct (p r) eqn:Hr.
  - rewrite (Hp r Hr). reflexivity.
  - rewrite Hr. exact IH.
Qed.

(** C7: once [resetPassword] has returned, the user's row is still there:
    a row with that address that held the token now holds, under the same
    id, name, address and active and soft-deleted flags, the hash of the
    new password, a null reset token and the email-verified flag set. The
    table is, up to the order of its rows, the old one with every row of
    that address so rewritten and every other row as it was. A second
    [resetPassword] for the same address with the same token, whatever the
    new password and whenever it is made, throws the invalid-or-expired
    error and changes nothing. *)
Theorem resetPassword_clears_token (now : Z) (email password token : string)
        (w w' : World) (r : AuthService.Message) :
  AuthService.resetPassword E now email password token w = (Returned r, w') ->
  (exists u,
      In u (userTable w)
      /\ user_email u = email
      /\ user_passwordToken u = Some token
      /\ In (reset_row (hashing_hash E password) u) (userTable w'))
  /\ Permutation.Permutation
       (userTable w')
       (map (fun u => if by_email email u
                      then reset_row (hashing_hash E password) u
                      else u)
            (userTable w))
  /\ (forall u, In u (userTable w') -> user_email u = email ->
                user_passwordToken u = None /\ user_isEmailVerified u = true)
  /\ (forall u, user_email u <> email ->
                In u (userTable w') <-> In u (userTable w))
  /\ (forall now' password',
         AuthService.resetPassword E now' email password' token w'
         = (Thrown (BadRequest "Invalid or expired token"), w')).
Proof.
  intro H. apply resetPassword_success_inv in H. destruct H as [Hm Hrows].
  split; [|split; [|split; [|split]]].
  - unfold stored_token_matches in Hm.
    destruct (find (by_email email) (userTable w)) as [u|] eqn:Hf;
      [|discriminate].
    apply find_some in Hf. destruct Hf as [Hin Hb].
    exists u. split; [exact Hin|]. split; [|split].
    + unfold by_email in Hb. apply String.eqb_eq in Hb. exact Hb.
    + destruct (user_passwordToken u) as [t|]; [|discriminate].
      apply andb_true_iff in Hm. destruct Hm as [_ Hm].
      apply String.eqb_eq in Hm. rewrite Hm. reflexivity.
    + rewrite Hrows. unfold Db.update_where. apply in_map_iff.
      exists u. rewrite Hb. split; [reflexivity|exact Hin].
  - rewrite Hrows. apply Permutation.Permutation_refl.
  - intros u Hin Hemail. rewrite Hrows in Hin.
    unfold Db.update_where in Hin. apply in_map_iff in Hin.
    destruct Hin as [u0 [Hu0 _]].
    destruct (by_email email u0) eqn:Hb.
    + subst u. simpl. split; reflexivity.
    + subst u0. unfold by_email in Hb. rewrite Hemail, String.eqb_refl in Hb.
      discriminate.
  - intros u Hne. rewrite Hrows. unfold Db.update_where.
    rewrite in_map_iff. split.
    + intros [u0 [Hu0 Hin0]]. destruct (by_email email u0) eqn:Hb.
      * subst u. unfold by_email in Hb. apply String.eqb_eq in Hb.
        simpl in Hne. contradiction.
      * subst u0. exact Hin0.
    + intro Hin. exists u. split; [|exact Hin].
      unfold by_email. destruct (String.eqb_spec (user_email u) email);
        [contradiction|reflexivity].
  - intros now' password'. apply resetPassword_rejects.
    unfold stored_token_matches. rewrite Hrows, find_update_where.
    + destruct (find (by_email email) (userTable w)); reflexivity.
    + intros u Hu. exact Hu.
Qed.

End ResetPassword.

Lemma resetPassword_clears_token_witness :
  let first :=
    AuthService.resetPassword Sample.env 0 "alice@example.com" "N3wPassw0rd"
                              "tok-alice" Sample.world in
  fst first
  = Returned (AuthService.mkMessage "Password reset successfully"
                                    (Some "alice@example.com") None)
  /\ In (mkUser 1 "Alice" "alice@example.com" (Some "h:N3wPassw0rd") None
                true true false)
        (userTable (snd first))
  /\ AuthService.resetPassword Sample.env 60 "alice@example.com"
                               "An0therPass" "tok-alice" (snd first)
     = (Thrown (BadRequest "Invalid or expired token"), snd first).
Proof.
  intro first. split; [reflexivity|].
  pose proof (resetPassword_clears_token
                Sample.env 0 "alice@example.com" "N3wPassw0rd" "tok-alice"
                Sample.world (snd first)
                (AuthService.mkMessage "Password reset successfully"
                                       (Some "alice@example.com") None)
                eq_refl) as H.
  split.
  - apply (Permutation.Permutation_in
             _ (Permutation.Permutation_sym (proj1 (proj2 H)))).
    left. reflexivity.
  - exact (proj2 (proj2 (proj2 (proj2 H))) 60 "An0therPass").
Defined.

(** C1, where the code departs from it: the reset token stored for Alice
    has expired at clock 7200, so [useToken.verify] answers with null
    data, and [resetPassword] still returns and stores the new password
    hash. *)
Theorem resetPassword_accepts_expired_token :
  let attempt :=
    AuthService.resetPassword Sample.env 7200 "alice@example.com"
                              "N3wPassw0rd" "tok-alice" Sample.world in
  data (useToken.verify Sample.env 7200 "tok-alice" Sample.secret) = None
  /\ fst attempt
     = Returned (AuthService.mkMessage "Password reset successfully"
                                       (Some "alice@example.com") None)
  /\ find (by_email "alice@example.com") (userTable (snd attempt))
     = Some (mkUser 1 "Alice" "alice@example.com" (Some "h:N3wPassw0rd")
                    None true true false).
Proof.
  repeat split; reflexivity.
Qed.

(** ** Login *)

Section Login.

Variable E : Env.

Lemma loginSchema_parse_Some (email password : string) (v : LoginValue) :
  loginSchema_parse E email password = Some v -> v = mkLogin email password.
Proof.
  unfold loginSchema_parse.
  destruct (_ && _ && _); [|discriminate].
  intro H. inversion H. reflexivity.
Qed.

(** C5, as the code has it. An input the login schema refuses fails with
    the schema's error before any lookup. For an input it accepts:
    not-found when no row has the address; otherwise bad-request "Your
    account is not active" when the row is inactive, whatever the
    password; otherwise bad-request "Invalid username or password" when
    the password does not match, a constant that carries neither the
    address nor anything of the row. The database is left as it was in
    each case. *)
Theorem userLogin_failure_order (now : Z) (email password : string)
        (w : World) :
  (loginSchema_parse E email password = None ->
   AuthService.userLogin E now email password w = (Thrown ZodError, w))
  /\ (loginSchema_parse E email password <> None ->
      match find (by_email email) (userTable w) with
      | None =>
          AuthService.userLogin E now email password w
          = (Thrown (NotFound "Account not found or not registered"), w)
      | Some user =>
          (user_isActive user = false ->
           AuthService.userLogin E now email password w
           = (Thrown (BadRequest "Your account is not active"), w))
          /\ (user_isActive user = true ->
              hashing_verify E (JS.nullish (user_password user) "") password
              = false ->
              AuthService.userLogin E now email password w
              = (Thrown (BadRequest "Invalid username or password"), w))
      end).
Proof.
  unfold AuthService.userLogin, bind, gets, Db.select_first. split.
  - intro H. rewrite H. reflexivity.
  - intro H.
    destruct (loginSchema_parse E email password) as [v|] eqn:Hp;
      [|contradiction].
    apply loginSchema_parse_Some in Hp. subst v. simpl.
    fold (by_email email).
    destruct (find (by_email email) (userTable w)) as [user|];
      [|reflexivity].
    split.
    + intro Ha. rewrite Ha. reflexivity.
    + intros Ha Hv. rewrite Ha, Hv. reflexivity.
Qed.

End Login.

Lemma userLogin_failure_order_witness :
  AuthService.userLogin Sample.env 0 "alice@example.com" "wrongpass"
                        Sample.world
  = (Thrown (BadRequest "Invalid username or password"), Sample.world).
Proof.
  refine (proj2 (proj2 (userLogin_failure_order Sample.env 0
                          "alice@example.com" "wrongpass" Sample.world) _)
                _ _).
  - discriminate.
  - reflexivity.
  - reflexivity.
Defined.

(** C5 as stated fails on an inactive account: the error is bad-request,
    not forbidden. It also fails on an address nobody has when the
    password is shorter than the login schema allows: the schema's error
    comes before the lookup, not not-found. *)
Lemma userLogin_inactive_not_forbidden :
  let out := AuthService.userLogin Sample.env 0 "carol@example.com"
                                   "Passw0rd!" Sample.world in
  let out' := AuthService.userLogin Sample.env 0 "nobody@example.com"
                                    "abc" Sample.world in
  out = (Thrown (BadRequest "Your account is not active"), Sample.world)
  /\ (forall m, fst out <> Thrown (Forbidden m))
  /\ find (by_email "nobody@example.com") (userTable Sample.world) = None
  /\ out' = (Thrown ZodError, Sample.world).
Proof.
  split; [reflexivity|]. split; [|split; reflexivity].
  intro m. simpl. discriminate.
Qed.

(** ** Registration *)

Section Registration.

Variable E : Env.

Lemma find_is_Some {A : Type} (p : A -> bool) (l : list A) (a : A) :
  In a l -> p a = true -> exists b, find p l = Some b.
Proof.
  intros Hin Hp. destruct (find p l) as [b|] eqn:Hf.
  - exists b. reflexivity.
  - rewrite (find_none _ _ Hf a Hin) in Hp. discriminate.
Qed.

Lemma insert_user_duplicate_email (d : UserInsert) (w : World) :
  (exists u, In u (userTable w) /\ user_email u = ins_email d) ->
  fst (Db.insert_user d w) = Thrown UniqueViolation
  /\ userTable (snd (Db.insert_user d w)) = userTable w.
Proof.
  intros [u [Hin He]]. unfold Db.insert_user.
  destruct (existsb _ (userTable w)); [split; reflexivity|].
  assert (Hex : existsb (fun u0 => String.eqb (user_email u0) (ins_email d))
                        (userTable w) = true).
  { apply existsb_exists. exists u. split; [exact Hin|].
    rewrite He. apply String.eqb_refl. }
  rewrite Hex. split; reflexivity.
Qed.

(** C4, as the code has it. For a payload the insert schema accepts whose
    address is already in the user table, [createUser] throws and the user
    table keeps exactly its rows. When a row with the address is not
    soft-deleted the error is bad-request "User already exists" and nothing
    at all is written. When every row with the address is soft-deleted the
    lookup finds none, the insert is attempted, and the error is the
    unique violation of the database. *)
Theorem createUser_existing_email (now : Z) (data v : UserInsert)
        (w : World) :
  insertUserSchema_parse E data = Some v ->
  (exists u, In u (userTable w) /\ user_email u = ins_email v) ->
  let out := AuthService.createUser E now data w in
  userTable (snd out) = userTable w
  /\ (fst out = Thrown (BadRequest "User already exists")
      \/ fst out = Thrown UniqueViolation)
  /\ ((exists u, In u (userTable w) /\ user_email u = ins_email v
                 /\ user_isDeleted u = false) ->
      out = (Thrown (BadRequest "User already exists"), w))
  /\ ((forall u, In u (userTable w) -> user_email u = ins_email v ->
                 user_isDeleted u = true) ->
      fst out = Thrown UniqueViolation).
Proof.
  intros Hparse Hex. cbv zeta.
  unfold AuthService.createUser, AuthService.getUserByEmail, bind, gets,
    Db.select_first.
  rewrite Hparse. simpl.
  set (live := fun u : User =>
                 (String.eqb (user_email u) (ins_email v)
                  && Bool.eqb (user_isDeleted u) false)%bool).
  set (d := mkInsert _ _ _ _ _ _ _ _ _).
  assert (Hd : exists u, In u (userTable w) /\ user_email u = ins_email d)
    by exact Hex.
  destruct (insert_user_duplicate_email d w Hd) as [Hfst Hsnd].
  destruct (find live (userTable w)) as [u0|] eqn:Hfind.
  - simpl. split; [reflexivity|]. split; [left; reflexivity|].
    split; [reflexivity|].
    intro Hall. apply find_some in Hfind. destruct Hfind as [Hin Hlive].
    unfold live in Hlive. apply andb_true_iff in Hlive.
    destruct Hlive as [He Hdel]. apply String.eqb_eq in He.
    rewrite (Hall u0 Hin He) in Hdel. discriminate.
  - destruct (Db.insert_user d w) as [[newUser|e] w1] eqn:Hins;
      simpl in Hfst, Hsnd; [discriminate|].
    inversion Hfst. subst e. simpl.
    split; [exact Hsnd|]. split; [right; reflexivity|].
    split; [|reflexivity].
    intros [u [Hin [He Hdel]]].
    assert (Hlive : live u = true).
    { unfold live. rewrite He, String.eqb_refl, Hdel. reflexivity. }
    rewrite (find_none _ _ Hfind u Hin) in Hlive. discriminate.
Qed.

End Registration.

Lemma createUser_existing_email_witness :
  AuthService.createUser Sample.env 0
                         (Sample.registration "alice@example.com")
                         Sample.world
  = (Thrown (BadRequest "User already exists"), Sample.world).
Proof.
  refine (proj1 (proj2 (proj2 (createUser_existing_email
                                 Sample.env 0
                                 (Sample.registration "alice@example.com")
                                 (Sample.registration "alice@example.com")
                                 Sample.world _ _))) _).
  - reflexivity.
  - exists Sample.alice. split; [left; reflexivity|reflexivity].
  - exists Sample.alice. split; [left; reflexivity|split; reflexivity].
Defined.

(** C4 as stated fails when the address belongs to a soft-deleted user:
    the lookup skips the row, and the failure is the unique violation of
    the insert, not bad-request. *)
Lemma createUser_soft_deleted_not_bad_request :
  let out := AuthService.createUser Sample.env 0
                                    (Sample.registration "bob@example.com")
                                    Sample.world in
  In Sample.bob (userTable Sample.world)
  /\ user_isDeleted Sample.bob = true
  /\ fst out = Thrown UniqueViolation
  /\ (forall m, fst out <> Thrown (BadRequest m))
  /\ userTable (snd out) = userTable Sample.world.
Proof.
  repeat split.
  - right. left. reflexivity.
  - intro m. simpl. discriminate.
Qed.

(** ** The authorization gate and the routes behind it *)

Section Gate.

Variable E : Env.

Let by_token (token : string) : UserSession -> bool :=
  fun s => String.eqb (session_token s) token.

Lemma no_row_find_None (token : string) (w : World) :
  (forall s, In s (userSessionTable w) -> session_token s <> token) ->
  find (by_token token) (userSessionTable w) = None.
Proof.
  intro H. destruct (find (by_token token) (userSessionTable w)) as [s|] eqn:Hf;
    [|reflexivity].
  apply find_some in Hf. destruct Hf as [Hin Hb].
  unfold by_token in Hb. apply String.eqb_eq in Hb.
  exfalso. exact (H s Hin Hb).
Qed.

Lemma authorization_no_token (now : Z) (req : Request) (w : World) :
  JS.truthy_opt (useToken.extract req) = false ->
  authorization E now req w
  = (Returned (Rejected (mkResponse 401 AUTH_ERRORS.NO_TOKEN)), w).
Proof.
  intro H. unfold authorization. rewrite H. reflexivity.
Qed.

Lemma authorization_invalid_token (now : Z) (req : Request) (w : World)
      (tok : string) :
  useToken.extract req = Some tok ->
  tok <> "" ->
  (forall d, data (useToken.verify E now tok (JWT_SECRET_ACCESS_TOKEN E))
             = Some d -> truthy_decoded d = false) ->
  authorization E now req w
  = (Returned (Rejected (mkResponse 401 AUTH_ERRORS.INVALID_TOKEN)), w).
Proof.
  intros Hex Hne Hd. unfold authorization. rewrite Hex. simpl.
  rewrite (nonempty_true tok Hne). simpl.
  destruct (data (useToken.verify E now tok (JWT_SECRET_ACCESS_TOKEN E)))
    as [d|]; [|reflexivity].
  rewrite (Hd d eq_refl). reflexivity.
Qed.

Lemma authorization_no_session (now : Z) (req : Request) (w : World)
      (tok : string) (d : Decoded) :
  useToken.extract req = Some tok ->
  tok <> "" ->
  data (useToken.verify E now tok (JWT_SECRET_ACCESS_TOKEN E)) = Some d ->
  truthy_decoded d = true ->
  (forall s, In s (userSessionTable w) -> session_token s <> tok) ->
  authorization E now req w
  = (Returned (Rejected (mkResponse 401 AUTH_ERRORS.NO_SESSION)), w).
Proof.
  intros Hex Hne Hd Ht Hrows. unfold authorization. rewrite Hex. simpl.
  rewrite (nonempty_true tok Hne). simpl. rewrite Hd, Ht. simpl.
  unfold bind, SessionService.getByToken, gets, Db.select_first.
  fold (by_token tok). rewrite (no_row_find_None tok w Hrows). reflexivity.
Qed.

(** The gate never writes; it lets a request through exactly when
    [gate_passes] holds, and answers 401 otherwise. *)
Lemma authorization_cases (now : Z) (req : Request) (w : World) :
  (gate_passes E now req w
   /\ exists d, authorization E now req w
                = (Returned (Next (mkReqState d "user")), w))
  \/ (~ gate_passes E now req w
      /\ exists body, authorization E now req w
                      = (Returned (Rejected (mkResponse 401 body)), w)).
Proof.
  destruct (JS.truthy_opt (useToken.extract req)) eqn:Htok.
  - apply truthy_opt_Some in Htok. destruct Htok as [tok [Hex Hne]].
    destruct (data (useToken.verify E now tok (JWT_SECRET_ACCESS_TOKEN E)))
      as [d|] eqn:Hd.
    + destruct (truthy_decoded d) eqn:Ht.
      * destruct (find (by_token tok) (userSessionTable w)) as [s|] eqn:Hf.
        -- left. split.
           ++ apply find_some in Hf. destruct Hf as [Hin Hb].
              unfold by_token in Hb. apply String.eqb_eq in Hb.
              exists tok, d, s. repeat split; assumption.
           ++ exists d. unfold authorization. rewrite Hex. simpl.
              rewrite (nonempty_true tok Hne). simpl. rewrite Hd, Ht. simpl.
              unfold bind, SessionService.getByToken, gets, Db.select_first.
              fold (by_token tok). rewrite Hf. reflexivity.
        -- right. split.
           ++ intros [tok' [d' [s' [Hex' [_ [_ [_ [Hin Hs]]]]]]]].
              rewrite Hex in Hex'. injection Hex' as Heq. rewrite <- Heq in *. clear Heq.
              pose proof (find_none _ _ Hf s' Hin) as Hb.
              unfold by_token in Hb. rewrite Hs, String.eqb_refl in Hb.
              discriminate.
           ++ eexists. apply (authorization_no_session now req w tok d);
                try assumption.
              intros s Hin Hs. pose proof (find_none _ _ Hf s Hin) as Hb.
              unfold by_token in Hb. rewrite Hs, String.eqb_refl in Hb.
              discriminate.
      * right. split.
        -- intros [tok' [d' [s' [Hex' [_ [Hd' [Ht' _]]]]]]].
           rewrite Hex in Hex'. injection Hex' as Heq. rewrite <- Heq in *. clear Heq.
           rewrite Hd in Hd'. inversion Hd'. subst d'.
           rewrite Ht in Ht'. discriminate.
        -- eexists. apply (authorization_invalid_token now req w tok);
             try assumption.
           intros d' Hd'. rewrite Hd in Hd'. inversion Hd'. subst d'.
           exact Ht.
    + right. split.
      * intros [tok' [d' [s' [Hex' [_ [Hd' _]]]]]].
        rewrite Hex in Hex'. injection Hex' as Heq. rewrite <- Heq in *. clear Heq.
        rewrite Hd in Hd'. discriminate.
      * eexists. apply (authorization_invalid_token now req w tok);
          try assumption.
        intros d' Hd'. rewrite Hd in Hd'. discriminate.
  - right. split.
    + intros [tok' [d' [s' [Hex' [Hne' _]]]]].
      rewrite Hex' in Htok. simpl in Htok.
      rewrite (nonempty_true tok' Hne') in Htok. discriminate.
    + eexists. apply authorization_no_token. exact Htok.
Qed.

Lemma delete_where_absent {R : Type} (p : R -> bool) (rows : list R) :
  (forall r, In r rows -> p r = false) ->
  Db.delete_where p rows = rows /\ Db.deleted_rows p rows = [].
Proof.
  unfold Db.delete_where, Db.deleted_rows.
  induction rows as [|r rows IH]; intro H; [split; reflexivity|].
  simpl. rewrite (H r (or_introl eq_refl)). simpl.
  destruct IH as [IH1 IH2].
  - intros r' Hin. apply H. right. exact Hin.
  - rewrite IH1, IH2. split; reflexivity.
Qed.

Lemma deleteSession_absent (token : string) (w : World) :
  (forall s, In s (userSessionTable w) -> session_token s <> token) ->
  SessionService.deleteSession token w = (Returned [], w).
Proof.
  intro H.
  assert (Hp : forall s, In s (userSessionTable w) ->
                         String.eqb (session_token s) token = false).
  { intros s Hin. apply String.eqb_neq. exact (H s Hin). }
  destruct (delete_where_absent _ _ Hp) as [Hkeep Hgone].
  unfold SessionService.deleteSession, bind, gets, Db.set_userSessionTable,
    modify, ret.
  rewrite Hkeep, Hgone. destruct w. reflexivity.
Qed.

(** C3, as the code has it. When no session row carries the token the
    request presents, the logout route answers 401 and writes nothing: the
    gate stops the request before the handler runs, with the body
    "Unauthorized, no valid session" when the token itself verifies.
    [deleteSession] on a token no row carries returns no rows and leaves
    the database as it was. *)
Theorem logout_without_session_row (now : Z) (req : Request) (w : World) :
  (forall tok, useToken.extract req = Some tok ->
               forall s, In s (userSessionTable w) -> session_token s <> tok) ->
  (exists body,
      AuthController.logout E now req w
      = (Returned (mkResponse 401 body), w))
  /\ (forall tok d,
         useToken.extract req = Some tok ->
         tok <> "" ->
         data (useToken.verify E now tok (JWT_SECRET_ACCESS_TOKEN E)) = Some d ->
         truthy_decoded d = true ->
         AuthController.logout E now req w
         = (Returned (mkResponse 401 AUTH_ERRORS.NO_SESSION), w))
  /\ (forall token,
         (forall s, In s (userSessionTable w) -> session_token s <> token) ->
         SessionService.deleteSession token w = (Returned [], w)).
Proof.
  intro Hrows. split; [|split].
  - destruct (authorization_cases now req w) as [[Hpass _]|[_ [body Hrej]]].
    + exfalso. destruct Hpass as [tok [d [s [Hex [_ [_ [_ [Hin Hs]]]]]]]].
      exact (Hrows tok Hex s Hin Hs).
    + exists body. unfold AuthController.logout, bind. rewrite Hrej.
      reflexivity.
  - intros tok d Hex Hne Hd Ht. unfold AuthController.logout, bind.
    rewrite (authorization_no_session now req w tok d Hex Hne Hd Ht
               (Hrows tok Hex)).
    reflexivity.
  - intros token H. apply deleteSession_absent, H.
Qed.

(** C10: the registration route runs [createUser] only behind the gate. A
    request without a token, with a token that does not verify to a claim,
    or with a token no session row carries is answered 401 with the
    matching body and the database is left as it was; whenever the route
    changes the user table, the request had passed the gate. *)
Theorem registration_requires_session (now : Z) (req : Request) (w : World) :
  (JS.truthy_opt (useToken.extract req) = false ->
   AuthController.user_registration E now req w
   = (Returned (mkResponse 401 AUTH_ERRORS.NO_TOKEN), w))
  /\ (forall tok,
         useToken.extract req = Some tok ->
         tok <> "" ->
         (forall d, data (useToken.verify E now tok (JWT_SECRET_ACCESS_TOKEN E))
                    = Some d -> truthy_decoded d = false) ->
         AuthController.user_registration E now req w
         = (Returned (mkResponse 401 AUTH_ERRORS.INVALID_TOKEN), w))
  /\ (forall tok d,
         useToken.extract req = Some tok ->
         tok <> "" ->
         data (useToken.verify E now tok (JWT_SECRET_ACCESS_TOKEN E)) = Some d ->
         truthy_decoded d = true ->
         (forall s, In s (userSessionTable w) -> session_token s <> tok) ->
         AuthController.user_registration E now req w
         = (Returned (mkResponse 401 AUTH_ERRORS.NO_SESSION), w))
  /\ (~ gate_passes E now req w ->
      exists body,
        AuthController.user_registration E now req w
        = (Returned (mkResponse 401 body), w))
  /\ (userTable (snd (AuthController.user_registration E now req w))
      <> userTable w ->
      gate_passes E now req w).
Proof.
  assert (Hclosed : ~ gate_passes E now req w ->
                    exists body,
                      AuthController.user_registration E now req w
                      = (Returned (mkResponse 401 body), w)).
  { intro Hno.
    destruct (authorization_cases now req w) as [[Hpass _]|[_ [body Hrej]]];
      [contradiction|].
    exists body. unfold AuthController.user_registration, bind.
    rewrite Hrej. reflexivity. }
  split; [|split; [|split; [|split]]].
  - intro H. unfold AuthController.user_registration, bind.
    rewrite (authorization_no_token now req w H). reflexivity.
  - intros tok Hex Hne Hd. unfold AuthController.user_registration, bind.
    rewrite (authorization_invalid_token now req w tok Hex Hne Hd).
    reflexivity.
  - intros tok d Hex Hne Hd Ht Hrows.
    unfold AuthController.user_registration, bind.
    rewrite (authorization_no_session now req w tok d Hex Hne Hd Ht Hrows).
    reflexivity.
  - exact Hclosed.
  - intro Hchanged.
    destruct (authorization_cases now req w) as [[Hpass _]|[Hno _]];
      [exact Hpass|].
    exfalso. destruct (Hclosed Hno) as [body Hrej].
    rewrite Hrej in Hchanged. apply Hchanged. reflexivity.
Qed.

(** The logout route keeps the one-row-per-user invariant: it writes the
    session table only through [deleteSession], and only past the gate. *)
Lemma logout_preserves (now : Z) (req : Request) (w : World) :
  one_session_per_user (userSessionTable w) ->
  one_session_per_user
    (userSessionTable (snd (AuthController.logout E now req w))).
Proof.
  intro Hinv. unfold AuthController.logout, bind.
  destruct (authorization_cases now req w) as [[_ [d Hgo]]|[_ [body Hrej]]].
  - rewrite Hgo. unfold AuthController.logout_handler, bind.
    destruct (JS.truthy_opt (AuthController.header_token req)).
    + pose proof (deleteSession_preserves
                    (JS.nullish (AuthController.header_token req) "")
                    w Hinv) as Hd.
      destruct (SessionService.deleteSession _ w) as [[rows|e] w1]; exact Hd.
    + exact Hinv.
  - rewrite Hrej. exact Hinv.
Qed.

End Gate.

Lemma logout_without_session_row_witness :
  AuthController.logout Sample.env 0 Sample.bearer_request Sample.world
  = (Returned (mkResponse 401 AUTH_ERRORS.NO_SESSION), Sample.world).
Proof.
  refine (proj1 (proj2 (logout_without_session_row
                          Sample.env 0 Sample.bearer_request Sample.world _))
                "tok-alice" (DPayload Sample.claims) _ _ _ _).
  - intros tok _ s Hin. destruct Hin.
  - reflexivity.
  - discriminate.
  - reflexivity.
  - reflexivity.
Defined.

(** C3 as stated fails. Alice logs out with her valid token: 200, and her
    session row is gone. She calls logout again with the same token, which
    still verifies: the answer is 401, not 200. *)
Lemma logout_twice_is_401 :
  let first := AuthController.logout Sample.env 0 Sample.bearer_request
                                     Sample.world_logged_in in
  let second := AuthController.logout Sample.env 0 Sample.bearer_request
                                      (snd first) in
  fst first
  = Returned (mkResponse 200 (AuthController.HttpResponse_get
                                "Logged out successfully"))
  /\ userSessionTable (snd first) = []
  /\ data (useToken.verify Sample.env 0 "tok-alice" Sample.secret)
     = Some (DPayload Sample.claims)
  /\ fst second = Returned (mkResponse 401 AUTH_ERRORS.NO_SESSION)
  /\ (forall body, fst second <> Returned (mkResponse 200 body)).
Proof.
  repeat split.
  intro body. simpl. discriminate.
Qed.

Lemma registration_requires_session_witness :
  AuthController.user_registration Sample.env 0 Sample.bare_request
                                   Sample.world
  = (Returned (mkResponse 401 AUTH_ERRORS.NO_TOKEN), Sample.world).
Proof.
  refine (proj1 (registration_requires_session
                   Sample.env 0 Sample.bare_request Sample.world) _).
  reflexivity.
Defined.

(** ** Token generation *)

Example ms_one_hour : Ms.ms "1h" = inr 3600000.
Proof. reflexivity. Qed.

Example ms_one_day : Ms.ms "1d" = inr 86400000.
Proof. reflexivity. Qed.

Example ms_rejects_unit : Ms.ms "5x" = inl (MsError "Invalid time format").
Proof. reflexivity. Qed.

(** [ms] accepts every [ExpiresType], so [generate] always signs, with a
    lifetime of whole seconds between one hour and seven days. *)
Lemma generate_total (E : Env) (now : Z) (value : JwtPayload)
      (secretKey : string) (expires : ExpiresType) :
  exists expiresIn,
    useToken.generate E now value secretKey expires
    = inr (mkGen (jwt_sign E now value secretKey expiresIn) expiresIn)
    /\ 3600 <= expiresIn <= 604800.
Proof.
  destruct expires; eexists;
    (split; [reflexivity|vm_compute; split; discriminate]).
Qed.

Example split_bearer :
  JS.split " " "Bearer abc.def" = ["Bearer"; "abc.def"].
Proof. reflexivity. Qed.

Example split_double_space :
  JS.split " " "Bearer  abc" = ["Bearer"; ""; "abc"].
Proof. reflexivity. Qed.

(** * Further properties of the code *)

(** ** Lists and strings *)

Lemma find_all_false {A : Type} (p : A -> bool) (l : list A) :
  (forall a, In a l -> p a = false) -> find p l = None.
Proof.
  induction l as [|a l IH]; intro H; simpl; [reflexivity|].
  rewrite (H a (or_introl eq_refl)). apply IH.
  intros b Hb. apply H. right. exact Hb.
Qed.

Lemma existsb_all_false {A : Type} (p : A -> bool) (l : list A) :
  (forall a, In a l -> p a = false) -> existsb p l = false.
Proof.
  induction l as [|a l IH]; intro H; simpl; [reflexivity|].
  rewrite (H a (or_introl eq_refl)). apply IH.
  intros b Hb. apply H. right. exact Hb.
Qed.

Lemma find_app_miss {A : Type} (p : A -> bool) (l : list A) (a : A) :
  find p l = None -> p a = true -> find p (l ++ [a]) = Some a.
Proof.
  induction l as [|b l IH]; simpl; intros Hl Ha.
  - rewrite Ha. reflexivity.
  - destruct (p b); [discriminate|]. apply IH; assumption.
Qed.

Lemma find_delete_where_same {A : Type} (p : A -> bool) (l : list A) :
  find p (Db.delete_where p l) = None.
Proof.
  apply find_all_false. intros a Ha. unfold Db.delete_where in Ha.
  apply filter_In in Ha. destruct Ha as [_ Hn].
  destruct (p a); [discriminate|reflexivity].
Qed.

Lemma find_delete_where_other {A : Type} (p q : A -> bool) (l : list A) :
  (forall a, q a = true -> p a = false) ->
  find q (Db.delete_where p l) = find q l.
Proof.
  intro H. unfold Db.delete_where.
  induction l as [|a l IH]; simpl; [reflexivity|].
  destruct (q a) eqn:Hq.
  - rewrite (H a Hq). simpl. rewrite Hq. reflexivity.
  - destruct (p a); simpl; [|rewrite Hq]; exact IH.
Qed.

(** ** Session lookups after a write *)

Section SessionLookups.

Implicit Types (userId : Z) (token : string) (w : World).

(** The row a returned [createOrUpdateSession] leaves for the user. *)
Lemma createOrUpdateSession_stores userId token w (s : UserSession) :
  fst (SessionService.createOrUpdateSession userId token w) = Returned s ->
  let w' := snd (SessionService.createOrUpdateSession userId token w) in
  exists r, In r (userSessionTable w')
            /\ find (by_user userId) (userSessionTable w') = Some r
            /\ session_userId r = userId
            /\ session_token r = token.
Proof.
  intros Hret w'. subst w'. revert Hret.
  unfold SessionService.createOrUpdateSession, bind, gets, Db.select_first.
  simpl. fold (by_user userId).
  destruct (find (by_user userId) (userSessionTable w)) as [s0|] eqn:Hfind.
  - intros _. simpl.
    rewrite find_update_where.
    + rewrite Hfind. simpl.
      exists (mkSession (session_id s0) userId token).
      split; [|split; [reflexivity|split; reflexivity]].
      apply in_map_iff. exists s0. apply find_some in Hfind.
      destruct Hfind as [Hin Hb]. rewrite Hb. split; [reflexivity|exact Hin].
    + intros r _. unfold by_user. simpl. apply Z.eqb_refl.
  - unfold Db.insert_session.
    destruct (existsb _ (userSessionTable w)); [discriminate|].
    destruct (negb _); [discriminate|].
    intros _. simpl.
    exists (mkSession (userSession_id_seq w + 1) userId token).
    split; [|split; [|split; reflexivity]].
    + apply in_or_app. right. left. reflexivity.
    + apply find_app_miss; [exact Hfind|].
      unfold by_user. simpl. apply Z.eqb_refl.
Qed.

(** X1: After [createOrUpdateSession userId token] has returned, looking the
    user up finds a row of that user carrying [token], and looking the
    token up finds a row carrying it. *)
Theorem createOrUpdateSession_then_lookup userId token w (s : UserSession) :
  fst (SessionService.createOrUpdateSession userId token w) = Returned s ->
  let w' := snd (SessionService.createOrUpdateSession userId token w) in
  (exists r, SessionService.getByUserId userId w' = (Returned (Some r), w')
             /\ session_userId r = userId /\ session_token r = token)
  /\ (exists r, SessionService.getByToken token w' = (Returned (Some r), w')
                /\ session_token r = token).
Proof.
  intros Hret w'.
  destruct (createOrUpdateSession_stores userId token w s Hret)
    as [r [Hin [Hfind [Hu Ht]]]].
  fold w' in Hin, Hfind. split.
  - exists r. split; [|split; assumption].
    unfold SessionService.getByUserId, gets, Db.select_first.
    fold (by_user userId). rewrite Hfind. reflexivity.
  - destruct (find_is_Some (fun s0 => String.eqb (session_token s0) token)
                           (userSessionTable w') r Hin) as [r' Hr'].
    + rewrite Ht. apply String.eqb_refl.
    + exists r'. split.
      * unfold SessionService.getByToken, gets, Db.select_first.
        rewrite Hr'. reflexivity.
      * apply find_some in Hr'. destruct Hr' as [_ Hb].
        apply String.eqb_eq. exact Hb.
Qed.

(** X2: [createOrUpdateSession] answers with the row as it was read before the
    write: for a user who already has a session, the row returned still
    carries the old token, while the row stored carries the new one. *)
Theorem createOrUpdateSession_returns_stale_row userId token w
        (old : UserSession) :
  SessionService.getByUserId userId w = (Returned (Some old), w) ->
  fst (SessionService.createOrUpdateSession userId token w) = Returned old
  /\ SessionService.getByUserId
       userId (snd (SessionService.createOrUpdateSession userId token w))
     = (Returned (Some (mkSession (session_id old) userId token)),
        snd (SessionService.createOrUpdateSession userId token w)).
Proof.
  intro H. unfold SessionService.getByUserId, gets, Db.select_first in H.
  injection H as Hfind. fold (by_user userId) in Hfind.
  unfold SessionService.getByUserId, SessionService.createOrUpdateSession,
    bind, gets, Db.select_first.
  cbn beta iota. fold (by_user userId). rewrite Hfind.
  cbn [fst snd Db.set_userSessionTable modify ret userSessionTable].
  split; [reflexivity|].
  rewrite find_update_where.
  - rewrite Hfind. reflexivity.
  - intros r _. unfold by_user. simpl. apply Z.eqb_refl.
Qed.

(** X3: After [deleteSession token] no lookup finds [token] any more, the
    rows handed back are exactly those that carried it, and the lookup of
    every other token answers as before. *)
Theorem deleteSession_then_lookup token w :
  let out := SessionService.deleteSession token w in
  SessionService.getByToken token (snd out) = (Returned None, snd out)
  /\ (exists rows, fst out = Returned rows
                   /\ forall r, In r rows
                                <-> In r (userSessionTable w)
                                    /\ session_token r = token)
  /\ (forall other, other <> token ->
                    fst (SessionService.getByToken other (snd out))
                    = fst (SessionService.getByToken other w)).
Proof.
  cbv zeta. unfold SessionService.deleteSession, SessionService.getByToken,
    bind, gets, Db.select_first, Db.set_userSessionTable, modify, ret.
  simpl. split; [|split].
  - rewrite find_delete_where_same. reflexivity.
  - eexists. split; [reflexivity|]. intro r. unfold Db.deleted_rows.
    rewrite filter_In. rewrite String.eqb_eq. reflexivity.
  - intros other Hne. rewrite find_delete_where_other; [reflexivity|].
    intros a Ha. apply String.eqb_eq in Ha. apply String.eqb_neq.
    rewrite Ha. exact Hne.
Qed.

End SessionLookups.

Lemma createOrUpdateSession_then_lookup_witness :
  exists r,
    SessionService.getByUserId
      3 (snd (SessionService.createOrUpdateSession 3 "tok-carol" Sample.world))
    = (Returned (Some r),
       snd (SessionService.createOrUpdateSession 3 "tok-carol" Sample.world))
    /\ session_userId r = 3 /\ session_token r = "tok-carol".
Proof.
  refine (proj1 (createOrUpdateSession_then_lookup
                   3 "tok-carol" Sample.world (mkSession 1 3 "tok-carol") _)).
  reflexivity.
Defined.

Lemma createOrUpdateSession_returns_stale_row_witness :
  fst (SessionService.createOrUpdateSession 1 "tok-new" Sample.world_logged_in)
  = Returned (mkSession 1 1 "tok-alice").
Proof.
  refine (proj1 (createOrUpdateSession_returns_stale_row
                   1 "tok-new" Sample.world_logged_in
                   (mkSession 1 1 "tok-alice") _)).
  reflexivity.
Defined.

Lemma deleteSession_then_lookup_witness :
  fst (SessionService.getByToken
         "tok-other"
         (snd (SessionService.deleteSession "tok-alice"
                                            Sample.world_logged_in)))
  = fst (SessionService.getByToken "tok-other" Sample.world_logged_in).
Proof.
  refine (proj2 (proj2 (deleteSession_then_lookup
                          "tok-alice" Sample.world_logged_in))
                "tok-other" _).
  discriminate.
Defined.

(** ** The auth service beyond its failures *)

Section AuthFlows.

Variable E : Env.

Lemma generate_Exp1h (now : Z) (value : JwtPayload) (secretKey : string) :
  useToken.generate E now value secretKey Exp1h
  = inr (mkGen (jwt_sign E now value secretKey 3600) 3600).
Proof. reflexivity. Qed.

Lemma generate_Exp1d (now : Z) (value : JwtPayload) (secretKey : string) :
  useToken.generate E now value secretKey Exp1d
  = inr (mkGen (jwt_sign E now value secretKey 86400) 86400).
Proof. reflexivity. Qed.

(** The catch around [sendEmail] has nothing to catch. *)
Lemma trySendEmail_returns (mail : Mail) (failure : string) (w : World) :
  fst (AuthService.trySendEmail E mail failure w) = Returned tt
  /\ userTable (snd (AuthService.trySendEmail E mail failure w)) = userTable w
  /\ user_id_seq (snd (AuthService.trySendEmail E mail failure w))
     = user_id_seq w
  /\ userSessionTable (snd (AuthService.trySendEmail E mail failure w))
     = userSessionTable w
  /\ outbox (snd (AuthService.trySendEmail E mail failure w))
     = if transporter_sendMail E mail then (outbox w ++ [mail])%list
       else outbox w.
Proof.
  unfold AuthService.trySendEmail, try_catch_throw, sendEmail.
  destruct (transporter_sendMail E mail); simpl; repeat split; reflexivity.
Qed.

Lemma update_where_none {R : Type} (p : R -> bool) (f : R -> R)
      (rows : list R) :
  (forall r, In r rows -> p r = false) -> Db.update_where p f rows = rows.
Proof.
  unfold Db.update_where. induction rows as [|r rows IH]; intro H; simpl;
    [reflexivity|].
  rewrite (H r (or_introl eq_refl)). f_equal. apply IH.
  intros r' Hr'. apply H. right. exact Hr'.
Qed.

Lemma live_row_found (email : string) (w : World) :
  (exists u, In u (userTable w) /\ user_email u = email
             /\ user_isDeleted u = false) ->
  exists u0, AuthService.getUserByEmail email w = (Returned (Some u0), w)
             /\ In u0 (userTable w) /\ user_email u0 = email
             /\ user_isDeleted u0 = false.
Proof.
  intros [u [Hin [He Hd]]].
  unfold AuthService.getUserByEmail, gets, Db.select_first.
  destruct (find_is_Some
              (fun u0 => (String.eqb (user_email u0) email
                          && Bool.eqb (user_isDeleted u0) false)%bool)
              (userTable w) u Hin) as [u0 Hu0].
  - rewrite He, String.eqb_refl, Hd. reflexivity.
  - exists u0. rewrite Hu0. split; [reflexivity|].
    apply find_some in Hu0. destruct Hu0 as [Hin0 Hb].
    apply andb_true_iff in Hb. destruct Hb as [Hb1 Hb2].
    apply String.eqb_eq in Hb1. apply Bool.eqb_prop in Hb2.
    repeat split; assumption.
Qed.

Lemma no_live_row_found (email : string) (w : World) :
  (forall u, In u (userTable w) -> user_email u = email ->
             user_isDeleted u = true) ->
  AuthService.getUserByEmail email w = (Returned None, w).
Proof.
  intro H. unfold AuthService.getUserByEmail, gets, Db.select_first.
  rewrite find_all_false; [reflexivity|].
  intros u Hin. destruct (String.eqb_spec (user_email u) email) as [He|Hne];
    [|reflexivity].
  rewrite (H u Hin He). reflexivity.
Qed.

(** A value no longer than the column is stored as it is. *)
Lemma varchar_fits (n : nat) (s : string) :
  (String.length s <= n)%nat -> Db.varchar n s = Some s.
Proof.
  intro H. unfold Db.varchar.
  destruct (Nat.leb_spec (String.length s) n) as [_|Hgt]; [reflexivity|lia].
Qed.

Lemma set_passwordToken_fits (email token : string) (w : World) :
  (String.length token <= 255)%nat ->
  AuthService.set_passwordToken email token w
  = (Returned tt,
     mkWorld (Db.update_where (fun u => String.eqb (user_email u) email)
                              (with_passwordToken (Some token))
                              (userTable w))
             (user_id_seq w) (userSessionTable w) (userSession_id_seq w)
             (outbox w)).
Proof.
  intro H. unfold AuthService.set_passwordToken.
  rewrite (varchar_fits 255 token H). reflexivity.
Qed.

(** A token the column refuses: the statement throws and writes nothing. *)
Lemma set_passwordToken_too_long (email token : string) (w : World) :
  Db.varchar 255 token = None ->
  AuthService.set_passwordToken email token w
  = (Thrown StringDataRightTruncation, w).
Proof.
  intro H. unfold AuthService.set_passwordToken. rewrite H. reflexivity.
Qed.

(** What [requestPasswordReset] leaves behind for an address in use, the
    token fitting its column. *)
Lemma requestPasswordReset_live (now : Z) (email : string) (w : World) :
  (exists u, In u (userTable w) /\ user_email u = email
             /\ user_isDeleted u = false) ->
  (String.length (reset_token E now email) <= 255)%nat ->
  let out := AuthService.requestPasswordReset E now email w in
  fst out = Returned (AuthService.mkMessage
                        "Password reset instructions sent to your email"
                        None None)
  /\ userTable (snd out)
     = Db.update_where (by_email email)
                       (with_passwordToken (Some (reset_token E now email)))
                       (userTable w)
  /\ userSessionTable (snd out) = userSessionTable w
  /\ outbox (snd out)
     = let mail :=
         mkMail email "Password Reset Request"
                ("You requested a password reset. Please use the following token to reset your password: "
                   ++ reset_token E now email ++ AuthService.newline
                   ++ AuthService.newline
                   ++ "If you did not request this, please ignore this email.")
       in if transporter_sendMail E mail then (outbox w ++ [mail])%list
          else outbox w.
Proof.
  intros Hlive Hfit.
  destruct (live_row_found email w Hlive) as [u0 [Hget [_ [He _]]]].
  cbv zeta. unfold AuthService.requestPasswordReset, bind.
  rewrite Hget, generate_Exp1h. rewrite He.
  unfold AuthService.liftE, ret. cbn [gen_token].
  fold (reset_token E now email).
  rewrite (set_passwordToken_fits email _ _ Hfit).
  fold (by_email email).
  match goal with
  | |- context [AuthService.trySendEmail E ?m ?f ?w0] =>
      destruct (trySendEmail_returns m f w0) as [H1 [H2 [_ [H4 H5]]]];
      destruct (AuthService.trySendEmail E m f w0) as [[[]|e] w1]
  end; simpl in H1, H2, H4, H5; [|discriminate].
  simpl. repeat split; assumption.
Qed.

(** X4: [requestPasswordReset] on an address that no row has, or that only
    soft-deleted rows have, throws not-found and writes nothing. *)
Theorem requestPasswordReset_unknown (now : Z) (email : string) (w : World) :
  (forall u, In u (userTable w) -> user_email u = email ->
             user_isDeleted u = true) ->
  AuthService.requestPasswordReset E now email w
  = (Thrown (NotFound "Account not found"), w).
Proof.
  intro H. unfold AuthService.requestPasswordReset, bind.
  rewrite (no_live_row_found email w H). reflexivity.
Qed.

(** X5: [requestPasswordReset] on an address in use, when the freshly
    signed one-hour token has at most the 255 characters of its column,
    stores that token on every row with that address and touches no
    session; with that token, when it is not the empty string,
    [resetPassword] returns for any new password at any later clock
    reading. *)
Theorem requestPasswordReset_then_reset (now : Z) (email : string)
        (w : World) :
  (exists u, In u (userTable w) /\ user_email u = email
             /\ user_isDeleted u = false) ->
  (String.length (reset_token E now email) <= 255)%nat ->
  let token := reset_token E now email in
  let out := AuthService.requestPasswordReset E now email w in
  fst out = Returned (AuthService.mkMessage
                        "Password reset instructions sent to your email"
                        None None)
  /\ (forall u, In u (userTable (snd out)) -> user_email u = email ->
                user_passwordToken u = Some token)
  /\ (forall u, user_email u <> email ->
                In u (userTable (snd out)) <-> In u (userTable w))
  /\ userSessionTable (snd out) = userSessionTable w
  /\ (token <> "" ->
      forall now' password,
        fst (AuthService.resetPassword E now' email password token (snd out))
        = Returned (AuthService.mkMessage "Password reset successfully"
                                          (Some email) None)).
Proof.
  intros Hlive Hfit token out.
  destruct (requestPasswordReset_live now email w Hlive Hfit)
    as [Hret [Hrows [Hsess _]]].
  fold out in Hret, Hrows, Hsess. fold token in Hrows.
  split; [exact Hret|]. split; [|split; [|split; [exact Hsess|]]].
  - intros u Hin He. rewrite Hrows in Hin. unfold Db.update_where in Hin.
    apply in_map_iff in Hin. destruct Hin as [u0 [Hu0 _]].
    destruct (by_email email u0) eqn:Hb.
    + subst u. reflexivity.
    + subst u0. unfold by_email in Hb. rewrite He, String.eqb_refl in Hb.
      discriminate.
  - intros u Hne. rewrite Hrows. unfold Db.update_where.
    rewrite in_map_iff. split.
    + intros [u0 [Hu0 Hin0]]. destruct (by_email email u0) eqn:Hb.
      * subst u. unfold by_email in Hb. apply String.eqb_eq in Hb.
        simpl in Hne. contradiction.
      * subst u0. exact Hin0.
    + intro Hin. exists u. split; [|exact Hin].
      unfold by_email. destruct (String.eqb_spec (user_email u) email);
        [contradiction|reflexivity].
  - intros Htok now' password. apply resetPassword_ignores_verification.
    unfold stored_token_matches. rewrite Hrows, find_update_where.
    + destruct Hlive as [u [Hin [He _]]].
      destruct (find_is_Some (by_email email) (userTable w) u Hin)
        as [u0 Hu0].
      * unfold by_email. rewrite He. apply String.eqb_refl.
      * rewrite Hu0. simpl. rewrite (nonempty_true token Htok).
        rewrite String.eqb_refl. reflexivity.
    + intros r Hr. exact Hr.
Qed.

(** X6: A mail transport that rejects every message does not fail
    [requestPasswordReset]: for an address in use and a token of at most
    the 255 characters of its column, the call still answers that
    instructions were sent and still stores the token, while no mail has
    left. *)
Theorem requestPasswordReset_mail_down (now : Z) (email : string)
        (w : World) :
  (forall mail, transporter_sendMail E mail = false) ->
  (exists u, In u (userTable w) /\ user_email u = email
             /\ user_isDeleted u = false) ->
  (String.length (reset_token E now email) <= 255)%nat ->
  let out := AuthService.requestPasswordReset E now email w in
  fst out = Returned (AuthService.mkMessage
                        "Password reset instructions sent to your email"
                        None None)
  /\ outbox (snd out) = outbox w
  /\ stored_token_matches email (reset_token E now email) (snd out)
     = JS.nonempty (reset_token E now email).
Proof.
  intros Hdown Hlive Hfit out.
  destruct (requestPasswordReset_live now email w Hlive Hfit)
    as [Hret [Hrows [_ Hout]]].
  fold out in Hret, Hrows, Hout. split; [exact Hret|]. split.
  - rewrite Hout. cbv zeta. rewrite Hdown. reflexivity.
  - unfold stored_token_matches. rewrite Hrows, find_update_where.
    + destruct Hlive as [u [Hin [He _]]].
      destruct (find_is_Some (by_email email) (userTable w) u Hin)
        as [u0 Hu0].
      * unfold by_email. rewrite He. apply String.eqb_refl.
      * rewrite Hu0. simpl. rewrite String.eqb_refl.
        apply andb_true_r.
    + intros r Hr. exact Hr.
Qed.

(** A token the column refuses: [requestPasswordReset] throws the database
    error before any mail is sent, and has written nothing. *)
Lemma requestPasswordReset_token_too_long (now : Z) (email : string)
      (w : World) :
  (exists u, In u (userTable w) /\ user_email u = email
             /\ user_isDeleted u = false) ->
  Db.varchar 255 (reset_token E now email) = None ->
  AuthService.requestPasswordReset E now email w
  = (Thrown StringDataRightTruncation, w).
Proof.
  intros Hlive Hlong.
  destruct (live_row_found email w Hlive) as [u0 [Hget [_ [He _]]]].
  unfold AuthService.requestPasswordReset, bind.
  rewrite Hget, generate_Exp1h. rewrite He.
  unfold AuthService.liftE, ret. cbn [gen_token].
  fold (reset_token E now email).
  rewrite (set_passwordToken_too_long email _ _ Hlong). reflexivity.
Qed.

End AuthFlows.

Lemma requestPasswordReset_unknown_witness :
  AuthService.requestPasswordReset Sample.env 0 "bob@example.com"
                                   Sample.world
  = (Thrown (NotFound "Account not found"), Sample.world).
Proof.
  apply (requestPasswordReset_unknown Sample.env 0 "bob@example.com"
                                      Sample.world).
  intros u Hin He.
  destruct Hin as [H|[H|[H|[]]]]; subst u; try reflexivity;
    simpl in He; discriminate.
Defined.

Lemma requestPasswordReset_then_reset_witness :
  fst (AuthService.resetPassword
         Sample.env 7200 "carol@example.com" "N3wPassw0rd" "tok-alice"
         (snd (AuthService.requestPasswordReset
                 Sample.env 0 "carol@example.com" Sample.world)))
  = Returned (AuthService.mkMessage "Password reset successfully"
                                    (Some "carol@example.com") None).
Proof.
  refine (proj2 (proj2 (proj2 (proj2
            (requestPasswordReset_then_reset
               Sample.env 0 "carol@example.com" Sample.world _ _)))) _
            7200 "N3wPassw0rd").
  - exists Sample.carol. split; [right; right; left; reflexivity|].
    split; reflexivity.
  - vm_compute. lia.
  - discriminate.
Defined.

Lemma requestPasswordReset_mail_down_witness :
  outbox (snd (AuthService.requestPasswordReset
                 Scenario.env_mail_down 0 "alice@example.com" Sample.world))
  = [].
Proof.
  refine (proj1 (proj2 (requestPasswordReset_mail_down
                          Scenario.env_mail_down 0 "alice@example.com"
                          Sample.world _ _ _))).
  - intro mail. reflexivity.
  - exists Sample.alice. split; [left; reflexivity|split; reflexivity].
  - vm_compute. lia.
Defined.

(** ** Registration and login when they go through *)

Section RegisterLogin.

Variable E : Env.

Lemma insert_user_fresh (d : UserInsert) (w : World) :
  (forall u, In u (userTable w) -> user_id u <> next_user_id d w) ->
  (forall u, In u (userTable w) -> user_email u <> ins_email d) ->
  exists w1,
    Db.insert_user d w
    = (Returned (mkUser (next_user_id d w) (ins_name d) (ins_email d)
                        (ins_password d) (ins_passwordToken d)
                        (JS.nullish (ins_isActive d) true)
                        (JS.nullish (ins_isEmailVerified d) false)
                        (JS.nullish (ins_isDeleted d) false)), w1)
    /\ userTable w1
       = (userTable w
            ++ [mkUser (next_user_id d w) (ins_name d) (ins_email d)
                       (ins_password d) (ins_passwordToken d)
                       (JS.nullish (ins_isActive d) true)
                       (JS.nullish (ins_isEmailVerified d) false)
                       (JS.nullish (ins_isDeleted d) false)])%list
    /\ userSessionTable w1 = userSessionTable w
    /\ outbox w1 = outbox w.
Proof.
  intros Hid Hmail. unfold Db.insert_user, next_user_id in *.
  assert (H1 : existsb (fun u => user_id u
                                 =? match ins_id d with
                                    | Some i => i
                                    | None =>
                                        match ins_id d with
                                        | Some _ => user_id_seq w
                                        | None => user_id_seq w + 1
                                        end
                                    end) (userTable w) = false).
  { apply existsb_all_false. intros u Hin. apply Z.eqb_neq.
    intro Heq. apply (Hid u Hin). rewrite Heq.
    destruct (ins_id d); reflexivity. }
  assert (H2 : existsb (fun u => String.eqb (user_email u) (ins_email d))
                       (userTable w) = false).
  { apply existsb_all_false. intros u Hin. apply String.eqb_neq.
    exact (Hmail u Hin). }
  exists (snd (Db.insert_user d w)). unfold Db.insert_user.
  rewrite H1, H2. destruct (ins_id d); repeat split; reflexivity.
Qed.

(** The user table after [createUser] took a payload for a fresh
    address: the row is appended; the verification token is written to
    it when the row is not soft-deleted and the token fits its column. *)
Lemma createUser_fresh_table (now : Z) (data v : UserInsert) (w : World) :
  insertUserSchema_parse E data = Some v ->
  (forall u, In u (userTable w) -> user_email u <> ins_email v) ->
  (forall u, In u (userTable w) -> user_id u <> next_user_id v w) ->
  let out := AuthService.createUser E now data w in
  let row := registered_row E (next_user_id v w) data v in
  if user_isDeleted row
  then fst out = Thrown (NotFound "User not found")
       /\ userTable (snd out) = (userTable w ++ [row])%list
  else match Db.varchar 255 (verification_token E now (ins_email v)) with
       | Some stored =>
           fst out
           = Returned (AuthService.mkMessage
                         "User registered successfully. Please check your email to verify your account."
                         None (Some (next_user_id v w)))
           /\ userTable (snd out)
              = (userTable w ++ [with_passwordToken (Some stored) row])%list
       | None =>
           fst out = Thrown StringDataRightTruncation
           /\ userTable (snd out) = (userTable w ++ [row])%list
       end.
Proof.
  intros Hparse Hmail Hid. cbv zeta.
  unfold AuthService.createUser, bind. rewrite Hparse.
  unfold AuthService.parsed, ret.
  rewrite no_live_row_found
    by (intros u Hin He; exfalso; exact (Hmail u Hin He)).
  set (d := mkInsert (ins_id v) _ _ _ _ _ _ _ _).
  destruct (insert_user_fresh d w Hid Hmail) as [w1 [Hins [Hrows _]]].
  rewrite Hins.
  change (mkUser (next_user_id d w) (ins_name d) (ins_email d)
                 (ins_password d) (ins_passwordToken d)
                 (JS.nullish (ins_isActive d) true)
                 (JS.nullish (ins_isEmailVerified d) false)
                 (JS.nullish (ins_isDeleted d) false))
    with (registered_row E (next_user_id v w) data v) in *.
  set (row := registered_row E (next_user_id v w) data v) in *.
  assert (Hrow_mail : user_email row = ins_email v) by reflexivity.
  unfold AuthService.sendVerificationEmail, bind.
  unfold AuthService.getUserByEmail, gets, Db.select_first.
  rewrite Hrows.
  destruct (user_isDeleted row) eqn:Hdel.
  - rewrite find_all_false.
    + simpl. split; [reflexivity|exact Hrows].
    + intros u Hin. apply in_app_or in Hin. destruct Hin as [Hin|[Hin|[]]].
      * destruct (String.eqb_spec (user_email u) (ins_email v)) as [He|Hne];
          [exfalso; exact (Hmail u Hin He)|reflexivity].
      * subst u. rewrite Hdel. apply andb_false_r.
  - rewrite find_app_miss.
    + rewrite generate_Exp1d. unfold AuthService.liftE, ret.
      cbn [gen_token]. fold (verification_token E now (ins_email v)).
      unfold AuthService.set_passwordToken.
      destruct (Db.varchar 255 (verification_token E now (ins_email v)))
        as [stored|]; [|simpl; split; [reflexivity|exact Hrows]].
      unfold Db.set_userTable, modify.
      fold (by_email (ins_email v)).
      match goal with
      | |- context [AuthService.trySendEmail E ?m ?f ?w0] =>
          destruct (trySendEmail_returns E m f w0) as [H1 [H2 _]];
          destruct (AuthService.trySendEmail E m f w0) as [[[]|e] w2]
      end; simpl in H1, H2; [|discriminate].
      simpl. split; [reflexivity|].
      rewrite H2, Hrows. unfold Db.update_where. rewrite map_app.
      f_equal.
      * apply (update_where_none (by_email (ins_email v))).
        intros u Hin. unfold by_email. apply String.eqb_neq.
        exact (Hmail u Hin).
      * simpl. unfold by_email. rewrite Hrow_mail, String.eqb_refl.
        reflexivity.
    + apply find_all_false. intros u Hin.
      destruct (String.eqb_spec (user_email u) (ins_email v)) as [He|Hne];
        [exfalso; exact (Hmail u Hin He)|reflexivity].
    + rewrite Hrow_mail, String.eqb_refl, Hdel. reflexivity.
Qed.

(** X7: For an accepted payload with a fresh address and a free id that does
    not ask for a soft-deleted row, whose name, address and password hash
    fit their columns and whose one-day verification token has at most
    the 255 characters of [password_token], [createUser] returns the id
    of the one row it appends; that row holds the hash of the raw
    password, is never email-verified whatever the payload asked for, and
    carries the verification token where the reset token lives. The rows
    that were there are untouched. *)
Theorem createUser_fresh (now : Z) (data v : UserInsert) (w : World) :
  insertUserSchema_parse E data = Some v ->
  (forall u, In u (userTable w) -> user_email u <> ins_email v) ->
  (forall u, In u (userTable w) -> user_id u <> next_user_id v w) ->
  ins_isDeleted v <> Some true ->
  (String.length (ins_name v) <= 100)%nat ->
  (String.length (ins_email v) <= 100)%nat ->
  (String.length (hashing_hash E (JS.nullish (ins_password data) ""))
   <= 255)%nat ->
  (String.length (verification_token E now (ins_email v)) <= 255)%nat ->
  let out := AuthService.createUser E now data w in
  fst out
  = Returned (AuthService.mkMessage
                "User registered successfully. Please check your email to verify your account."
                None (Some (next_user_id v w)))
  /\ userTable (snd out)
     = (userTable w
          ++ [mkUser (next_user_id v w) (ins_name v) (ins_email v)
                     (Some (hashing_hash E (JS.nullish (ins_password data) "")))
                     (Some (verification_token E now (ins_email v)))
                     (JS.nullish (ins_isActive v) true) false false])%list.
Proof.
  intros Hparse Hmail Hid Hdel _ _ _ Hfit.
  pose proof (createUser_fresh_table now data v w Hparse Hmail Hid) as H.
  cbv zeta in H. cbv zeta.
  assert (Hd : user_isDeleted (registered_row E (next_user_id v w) data v)
               = false).
  { unfold registered_row. simpl.
    destruct (ins_isDeleted v) as [[|]|]; [contradiction| |]; reflexivity. }
  rewrite Hd, (varchar_fits 255 _ Hfit) in H.
  destruct H as [H1 H2]. split; [exact H1|].
  rewrite H2. unfold with_passwordToken, registered_row. simpl.
  unfold registered_row in Hd. simpl in Hd. rewrite Hd. reflexivity.
Qed.

(** X8: A payload that asks for a soft-deleted row is inserted all the same,
    and the call then throws not-found, because the lookup that precedes
    the verification mail skips soft-deleted rows: the caller sees a
    failure while the row exists. *)
Theorem createUser_soft_deleted_payload (now : Z) (data v : UserInsert)
        (w : World) :
  insertUserSchema_parse E data = Some v ->
  (forall u, In u (userTable w) -> user_email u <> ins_email v) ->
  (forall u, In u (userTable w) -> user_id u <> next_user_id v w) ->
  ins_isDeleted v = Some true ->
  let out := AuthService.createUser E now data w in
  fst out = Thrown (NotFound "User not found")
  /\ userTable (snd out)
     = (userTable w ++ [registered_row E (next_user_id v w) data v])%list
  /\ user_isDeleted (registered_row E (next_user_id v w) data v) = true.
Proof.
  intros Hparse Hmail Hid Hdel.
  pose proof (createUser_fresh_table now data v w Hparse Hmail Hid) as H.
  cbv zeta in H. cbv zeta.
  assert (Hd : user_isDeleted (registered_row E (next_user_id v w) data v)
               = true).
  { unfold registered_row. simpl. rewrite Hdel. reflexivity. }
  rewrite Hd in H. destruct H as [H1 H2].
  split; [exact H1|]. split; [exact H2|exact Hd].
Qed.

Lemma userLogin_returns (now : Z) (email password : string) (w : World)
      (user : User) :
  loginSchema_parse E email password <> None ->
  find (by_email email) (userTable w) = Some user ->
  user_isActive user = true ->
  hashing_verify E (JS.nullish (user_password user) "") password = true ->
  fst (AuthService.userLogin E now email password w)
  = Returned (AuthService.mkLoginResult (auth_token E now user)
                                        (user_email user) (user_name user)
                                        (user_id user) 86400).
Proof.
  intros Hp Hfind Ha Hv.
  unfold AuthService.userLogin, bind, gets, Db.select_first.
  destruct (loginSchema_parse E email password) as [v|] eqn:Hpe;
    [|contradiction].
  apply loginSchema_parse_Some in Hpe. subst v.
  cbn [AuthService.parsed ret login_email login_password].
  fold (by_email email). rewrite Hfind, Ha. cbn [negb]. rewrite Hv.
  cbn [negb]. unfold AuthService.generateAuthToken. rewrite generate_Exp1d.
  reflexivity.
Qed.

(** X9: [userLogin] returns exactly when the login schema accepts the input,
    the first row with the address is active and its hash verifies
    against the password; it then hands back the one-day token signed
    for that row, with the row's address, name and id, and has written
    nothing. *)
Theorem userLogin_returns_iff (now : Z) (email password : string)
        (w : World) (r : AuthService.LoginResult) :
  fst (AuthService.userLogin E now email password w) = Returned r
  <-> loginSchema_parse E email password <> None
      /\ exists user,
          find (by_email email) (userTable w) = Some user
          /\ user_isActive user = true
          /\ hashing_verify E (JS.nullish (user_password user) "") password
             = true
          /\ r = AuthService.mkLoginResult (auth_token E now user)
                                           (user_email user) (user_name user)
                                           (user_id user) 86400.
Proof.
  unfold AuthService.userLogin, bind, gets, Db.select_first,
    AuthService.generateAuthToken.
  destruct (loginSchema_parse E email password) as [v|] eqn:Hp.
  - apply loginSchema_parse_Some in Hp. subst v.
    cbn [AuthService.parsed ret login_email login_password].
    fold (by_email email).
    destruct (find (by_email email) (userTable w)) as [user|].
    + destruct (user_isActive user) eqn:Ha; cbn [negb].
      * destruct (hashing_verify E _ password) eqn:Hv; cbn [negb].
        -- unfold AuthService.generateAuthToken. rewrite generate_Exp1d.
           cbn [AuthService.liftE ret fst gen_token gen_expiresIn].
           fold (auth_token E now user).
           split.
           ++ intro H. inversion H. split; [discriminate|].
              exists user. repeat split; assumption.
           ++ intros [_ [u [Hu [_ [_ Hr]]]]]. inversion Hu. subst u r.
              reflexivity.
        -- split; [discriminate|].
           intros [_ [u [Hu [_ [Hv' _]]]]]. inversion Hu. subst u.
           rewrite Hv in Hv'. discriminate.
      * split; [discriminate|].
        intros [_ [u [Hu [Ha' _]]]]. inversion Hu. subst u.
        rewrite Ha in Ha'. discriminate.
    + simpl. split; [discriminate|].
      intros [_ [u [Hu _]]]. discriminate.
  - simpl. split; [discriminate|]. intros [H _]. contradiction.
Qed.

(** X10: Register, then log in: after [createUser] has taken a payload for a
    fresh address, [userLogin] with the same address and password returns
    a token for the new row, provided the hasher verifies what it hashed,
    the login schema accepts the input and the payload did not ask for an
    inactive or soft-deleted row. *)
Theorem createUser_then_userLogin (now now' : Z) (data v : UserInsert)
        (password : string) (w : World) :
  insertUserSchema_parse E data = Some v ->
  (forall u, In u (userTable w) -> user_email u <> ins_email v) ->
  (forall u, In u (userTable w) -> user_id u <> next_user_id v w) ->
  ins_isDeleted v <> Some true ->
  ins_isActive v <> Some false ->
  ins_password data = Some password ->
  hashing_verify E (hashing_hash E password) password = true ->
  loginSchema_parse E (ins_email v) password <> None ->
  exists r,
    fst (AuthService.userLogin E now' (ins_email v) password
                               (snd (AuthService.createUser E now data w)))
    = Returned r
    /\ AuthService.lr_userId r = next_user_id v w
    /\ AuthService.lr_user r = ins_email v.
Proof.
  intros Hparse Hmail Hid Hdel Hact Hpw Hhash Hlogin.
  pose proof (createUser_fresh_table now data v w Hparse Hmail Hid) as Hrows.
  cbv zeta in Hrows.
  assert (Hd : user_isDeleted (registered_row E (next_user_id v w) data v)
               = false).
  { unfold registered_row. simpl.
    destruct (ins_isDeleted v) as [[|]|]; [contradiction| |]; reflexivity. }
  rewrite Hd in Hrows.
  assert (Hex : exists tok,
             userTable (snd (AuthService.createUser E now data w))
             = (userTable w
                  ++ [with_passwordToken
                        tok (registered_row E (next_user_id v w) data v)])%list).
  { destruct (Db.varchar 255 (verification_token E now (ins_email v)))
      as [stored|]; destruct Hrows as [_ Hrows].
    - exists (Some stored). exact Hrows.
    - exists (user_passwordToken
                (registered_row E (next_user_id v w) data v)).
      rewrite Hrows. reflexivity. }
  clear Hrows. destruct Hex as [tok Hrows].
  set (row := with_passwordToken
                tok (registered_row E (next_user_id v w) data v)) in *.
  exists (AuthService.mkLoginResult (auth_token E now' row) (user_email row)
                                    (user_name row) (user_id row) 86400).
  split; [|split; reflexivity].
  apply userLogin_returns; [exact Hlogin| | |].
  - rewrite Hrows. apply find_app_miss.
    + apply find_all_false. intros u Hin. unfold by_email.
      apply String.eqb_neq. exact (Hmail u Hin).
    + unfold by_email. simpl. apply String.eqb_refl.
  - simpl. destruct (ins_isActive v) as [[|]|]; [reflexivity|contradiction|
      reflexivity].
  - simpl. rewrite Hpw. simpl. exact Hhash.
Qed.

End RegisterLogin.

Lemma createUser_fresh_witness :
  fst (AuthService.createUser Sample.env 0
                              (Sample.registration "dave@example.com")
                              Sample.world)
  = Returned (AuthService.mkMessage
                "User registered successfully. Please check your email to verify your account."
                None (Some 4)).
Proof.
  refine (proj1 (createUser_fresh
                   Sample.env 0 (Sample.registration "dave@example.com")
                   (Sample.registration "dave@example.com") Sample.world
                   _ _ _ _ _ _ _ _)).
  - reflexivity.
  - intros u Hin. destruct Hin as [H|[H|[H|[]]]]; subst u; discriminate.
  - intros u Hin. destruct Hin as [H|[H|[H|[]]]]; subst u; discriminate.
  - discriminate.
  - vm_compute. lia.
  - vm_compute. lia.
  - vm_compute. lia.
  - vm_compute. lia.
Defined.

(** A signer whose tokens are one character too long: the reset request
    of Alice fails at the update and leaves nothing behind; the
    registration of Dave fails after the insert, so the caller sees the
    database error while the row is there, without a verification
    token. *)
Example requestPasswordReset_long_token :
  AuthService.requestPasswordReset Scenario.env_long_tokens 0
                                   "alice@example.com" Sample.world
  = (Thrown StringDataRightTruncation, Sample.world).
Proof.
  apply requestPasswordReset_token_too_long.
  - exists Sample.alice. split; [left; reflexivity|split; reflexivity].
  - reflexivity.
Qed.

Example createUser_long_token :
  let out := AuthService.createUser Scenario.env_long_tokens 0
                                    (Sample.registration "dave@example.com")
                                    Sample.world in
  fst out = Thrown StringDataRightTruncation
  /\ userTable (snd out)
     = [Sample.alice; Sample.bob; Sample.carol;
        mkUser 4 "Newcomer" "dave@example.com" (Some "h:Passw0rd!") None
               true false false]
  /\ outbox (snd out) = [].
Proof.
  cbv zeta. split; [|split]; vm_compute; reflexivity.
Qed.

Lemma createUser_soft_deleted_payload_witness :
  fst (AuthService.createUser Sample.env 0 Scenario.ghost_registration
                              Sample.world)
  = Thrown (NotFound "User not found").
Proof.
  refine (proj1 (createUser_soft_deleted_payload
                   Sample.env 0 Scenario.ghost_registration
                   Scenario.ghost_registration Sample.world _ _ _ _)).
  - reflexivity.
  - intros u Hin. destruct Hin as [H|[H|[H|[]]]]; subst u; discriminate.
  - intros u Hin. destruct Hin as [H|[H|[H|[]]]]; subst u; discriminate.
  - reflexivity.
Defined.

Lemma userLogin_returns_iff_witness :
  fst (AuthService.userLogin Sample.env 0 "alice@example.com" "Passw0rd!"
                             Sample.world)
  = Returned (AuthService.mkLoginResult "tok-alice" "alice@example.com"
                                        "Alice" 1 86400).
Proof.
  apply (proj2 (userLogin_returns_iff Sample.env 0 "alice@example.com"
                                      "Passw0rd!" Sample.world _)).
  split; [discriminate|].
  exists Sample.alice. repeat split; reflexivity.
Defined.

Lemma createUser_then_userLogin_witness :
  exists r,
    fst (AuthService.userLogin
           Sample.env 60 "dave@example.com" "Passw0rd!"
           (snd (AuthService.createUser
                   Sample.env 0 (Sample.registration "dave@example.com")
                   Sample.world)))
    = Returned r
    /\ AuthService.lr_userId r = 4
    /\ AuthService.lr_user r = "dave@example.com".
Proof.
  refine (createUser_then_userLogin
            Sample.env 0 60 (Sample.registration "dave@example.com")
            (Sample.registration "dave@example.com") "Passw0rd!" Sample.world
            _ _ _ _ _ _ _ _).
  - reflexivity.
  - intros u Hin. destruct Hin as [H|[H|[H|[]]]]; subst u; discriminate.
  - intros u Hin. destruct Hin as [H|[H|[H|[]]]]; subst u; discriminate.
  - discriminate.
  - discriminate.
  - reflexivity.
  - reflexivity.
  - discriminate.
Defined.

(** ** The Authorization header *)

Lemma split_nonempty (sep : ascii) (s : string) : JS.split sep s <> [].
Proof.
  destruct s as [|c rest]; simpl; [discriminate|].
  destruct (Ascii.eqb c sep); [discriminate|].
  destruct (JS.split sep rest); discriminate.
Qed.

Lemma split_no_space (s : string) :
  no_space s = true -> JS.split " " s = [s].
Proof.
  induction s as [|c rest IH]; simpl; [reflexivity|].
  intro H. apply andb_true_iff in H. destruct H as [Hc Hrest].
  apply negb_true_iff in Hc. rewrite Hc, (IH Hrest). reflexivity.
Qed.

Lemma split_one (s b : string) :
  JS.split " " s = [b] -> s = b /\ no_space b = true.
Proof.
  revert b. induction s as [|c rest IH]; simpl; intros b H.
  - inversion H. split; reflexivity.
  - destruct (Ascii.eqb c " ") eqn:Hc.
    + inversion H as [[Hb Hnil]]. exfalso. exact (split_nonempty _ _ Hnil).
    + destruct (JS.split " " rest) as [|h t] eqn:Hs;
        [exfalso; exact (split_nonempty _ _ Hs)|].
      inversion H. subst t. destruct (IH h eq_refl) as [Hr Hn]. subst h.
      split; [reflexivity|]. simpl. rewrite Hc, Hn. reflexivity.
Qed.

Lemma split_two (h a b : string) :
  JS.split " " h = [a; b] ->
  h = a ++ " " ++ b /\ no_space a = true /\ no_space b = true.
Proof.
  revert a. induction h as [|c rest IH]; simpl; intros a H; [discriminate|].
  destruct (Ascii.eqb c " ") eqn:Hc.
  - inversion H as [[Ha Hrest]]. apply Ascii.eqb_eq in Hc. subst c.
    destruct (split_one rest b Hrest) as [Hr Hn]. subst rest a.
    split; [reflexivity|]. split; [reflexivity|exact Hn].
  - destruct (JS.split " " rest) as [|x t] eqn:Hs;
      [exfalso; exact (split_nonempty _ _ Hs)|].
    inversion H. subst t a.
    destruct (IH x eq_refl) as [Hr [Hx Hb]]. subst rest.
    split; [reflexivity|]. split; [|exact Hb].
    simpl. rewrite Hc, Hx. reflexivity.
Qed.

Lemma split_scheme_credentials (a b : string) :
  no_space a = true -> no_space b = true ->
  JS.split " " (a ++ " " ++ b) = [a; b].
Proof.
  intros Ha Hb. induction a as [|c rest IH].
  - simpl. rewrite (split_no_space b Hb). reflexivity.
  - simpl in Ha. apply andb_true_iff in Ha. destruct Ha as [Hc Hrest].
    apply negb_true_iff in Hc. specialize (IH Hrest).
    change ((String c rest) ++ " " ++ b) with (String c (rest ++ " " ++ b)).
    cbn [JS.split]. rewrite Hc, IH. reflexivity.
Qed.

Lemma header_credentials_iff (req : Request) (t : string) :
  header_credentials req = Some t
  <-> exists scheme,
      headers_authorization req = Some (scheme ++ " " ++ t)
      /\ In scheme ["Bearer"; "JWT"; "Token"]
      /\ no_space t = true.
Proof.
  unfold header_credentials. split.
  - destruct (headers_authorization req) as [h|]; [|discriminate].
    destruct (JS.nonempty h); [|discriminate].
    destruct (JS.split " " h) as [|a [|b [|c l]]] eqn:Hs; try discriminate.
    destruct (JS.includes useToken.allowedAuthorize a) eqn:Hin;
      [|discriminate].
    intro H. inversion H. subst b.
    destruct (split_two h a t Hs) as [Hh [_ Ht]].
    exists a. split; [rewrite Hh; reflexivity|]. split; [|exact Ht].
    unfold JS.includes, useToken.allowedAuthorize in Hin.
    apply existsb_exists in Hin. destruct Hin as [x [Hx Heq]].
    apply String.eqb_eq in Heq. subst x. exact Hx.
  - intros [scheme [Hh [Hin Ht]]]. rewrite Hh.
    assert (Hscheme : no_space scheme = true).
    { destruct Hin as [H|[H|[H|[]]]]; subst scheme; reflexivity. }
    assert (Hne : JS.nonempty (scheme ++ " " ++ t) = true).
    { destruct Hin as [H|[H|[H|[]]]]; subst scheme; reflexivity. }
    rewrite Hne, (split_scheme_credentials scheme t Hscheme Ht).
    assert (Hinc : JS.includes useToken.allowedAuthorize scheme = true).
    { destruct Hin as [H|[H|[H|[]]]]; subst scheme; reflexivity. }
    rewrite Hinc. reflexivity.
Qed.

(** X11: With no token in the query string and none in the cookie, [extract]
    answers [t] exactly when the Authorization header is one of the words
    Bearer, JWT, Token (spelled so), one blank, and [t] without any
    blank. The credentials may be empty: ["Bearer "] extracts the empty
    string, which the gate then answers as a missing token. *)
Theorem extract_header_iff (req : Request) (t : string) :
  JS.truthy (query_token req) = false ->
  JS.truthy (cookies_token req) = false ->
  (useToken.extract req = Some t
   <-> exists scheme,
       headers_authorization req = Some (scheme ++ " " ++ t)
       /\ In scheme ["Bearer"; "JWT"; "Token"]
       /\ no_space t = true)
  /\ (forall E now w,
         t = "" -> useToken.extract req = Some t ->
         authorization E now req w
         = (Returned (Rejected (mkResponse 401 AUTH_ERRORS.NO_TOKEN)), w)).
Proof.
  intros Hq Hc. rewrite (extract_falls_to_header req Hq Hc). split.
  - apply header_credentials_iff.
  - intros E now w Ht Hex. subst t. apply authorization_no_token.
    rewrite (extract_falls_to_header req Hq Hc), Hex. reflexivity.
Qed.

Lemma extract_header_iff_witness :
  useToken.extract Sample.bearer_request = Some "tok-alice".
Proof.
  apply (proj2 (proj1 (extract_header_iff Sample.bearer_request "tok-alice"
                                          eq_refl eq_refl))).
  exists "Bearer". split; [reflexivity|]. split; [left; reflexivity|].
  reflexivity.
Defined.

Example extract_lowercase_scheme :
  useToken.extract
    (mkRequest JS.JUndefined JS.JUndefined (Some "bearer tok-alice")
               (Sample.registration "dave@example.com"))
  = None.
Proof. reflexivity. Qed.

(** ** Through the gate *)

Section GateFlows.

Variable E : Env.

Lemma gate_passes_next (now : Z) (req : Request) (w : World) :
  gate_passes E now req w ->
  exists d, authorization E now req w
            = (Returned (Next (mkReqState d "user")), w).
Proof.
  intro Hpass.
  destruct (authorization_cases E now req w) as [[_ H]|[Hno _]];
    [exact H|contradiction].
Qed.

(** X12: The gate calls [next] exactly when a non-empty token is extracted, it
    verifies to a truthy claim and some session row carries it; the claim
    is what it attaches to the request, with user type ["user"]. It never
    throws and never writes. *)
Theorem authorization_next_iff (now : Z) (req : Request) (w w' : World)
        (st : ReqState) :
  (authorization E now req w = (Returned (Next st), w')
   <-> w' = w
       /\ userType st = "user"
       /\ exists tok s,
           useToken.extract req = Some tok
           /\ tok <> ""
           /\ data (useToken.verify E now tok (JWT_SECRET_ACCESS_TOKEN E))
              = Some (tokenData st)
           /\ truthy_decoded (tokenData st) = true
           /\ In s (userSessionTable w)
           /\ session_token s = tok)
  /\ snd (authorization E now req w) = w
  /\ (forall e, fst (authorization E now req w) <> Thrown e).
Proof.
  unfold authorization.
  destruct (useToken.extract req) as [tok|] eqn:Hex; simpl.
  - unfold JS.nonempty.
    destruct (String.eqb_spec tok "") as [Hemp|Hne]; simpl.
    + split; [|split; [reflexivity|discriminate]].
      split; [discriminate|].
      intros [_ [_ [tok' [s [Hex' [Hne' _]]]]]]. injection Hex' as Heq. rewrite <- Heq in *. clear Heq.
      contradiction.
    + destruct (data (useToken.verify E now tok (JWT_SECRET_ACCESS_TOKEN E)))
        as [d|] eqn:Hd.
      * destruct (truthy_decoded d) eqn:Ht; simpl.
        -- unfold bind, SessionService.getByToken, gets, Db.select_first.
           destruct (find _ (userSessionTable w)) as [s|] eqn:Hf; simpl.
           ++ split; [|split; [reflexivity|discriminate]].
              split.
              ** intro H. inversion H. subst st w'. simpl.
                 split; [reflexivity|]. split; [reflexivity|].
                 apply find_some in Hf. destruct Hf as [Hin Hb].
                 apply String.eqb_eq in Hb.
                 exists tok, s. repeat split; assumption.
              ** intros [Hw [Hu [tok' [s' [Hex' [_ [Hd' _]]]]]]].
                 injection Hex' as Heq. rewrite <- Heq in *. clear Heq. subst w'.
                 rewrite Hd in Hd'. inversion Hd' as [Hdd].
                 destruct st as [td ut]. simpl in *. subst td ut.
                 reflexivity.
           ++ split; [|split; [reflexivity|discriminate]].
              split; [discriminate|].
              intros [_ [_ [tok' [s' [Hex' [_ [_ [_ [Hin Hs]]]]]]]]].
              injection Hex' as Heq. rewrite <- Heq in *. clear Heq.
              pose proof (find_none _ _ Hf s' Hin) as Hb. simpl in Hb.
              rewrite Hs, String.eqb_refl in Hb. discriminate.
        -- split; [|split; [reflexivity|discriminate]].
           split; [discriminate|].
           intros [_ [_ [tok' [s' [Hex' [_ [Hd' [Ht' _]]]]]]]].
           injection Hex' as Heq. rewrite <- Heq in *. clear Heq. rewrite Hd in Hd'.
           inversion Hd' as [Hdd]. rewrite <- Hdd in Ht'.
           rewrite Ht in Ht'. discriminate.
      * simpl. split; [|split; [reflexivity|discriminate]].
        split; [discriminate|].
        intros [_ [_ [tok' [s' [Hex' [_ [Hd' _]]]]]]].
        injection Hex' as Heq. rewrite <- Heq in *. clear Heq. rewrite Hd in Hd'. discriminate.
  - split; [|split; [reflexivity|discriminate]].
    split; [discriminate|].
    intros [_ [_ [tok' [s' [Hex' _]]]]]. discriminate.
Qed.

(** The logout handler on its own. *)
Lemma logout_handler_table (req : Request) (w : World) :
  fst (AuthController.logout_handler req w)
  = Returned (mkResponse 200 (AuthController.HttpResponse_get
                                "Logged out successfully"))
  /\ userTable (snd (AuthController.logout_handler req w)) = userTable w
  /\ userSessionTable (snd (AuthController.logout_handler req w))
     = match AuthController.header_token req with
       | Some t =>
           if JS.nonempty t
           then Db.delete_where (fun s => String.eqb (session_token s) t)
                                (userSessionTable w)
           else userSessionTable w
       | None => userSessionTable w
       end.
Proof.
  unfold AuthController.logout_handler, bind.
  destruct (AuthController.header_token req) as [t|]; simpl.
  - destruct (JS.nonempty t); simpl; repeat split; reflexivity.
  - repeat split; reflexivity.
Qed.

(** X13: Past the gate, logout deletes the sessions that carry the second word
    of the Authorization header, whichever token the gate accepted, and
    answers 200 with the body [{ code: 200, message: "data has been
    received", data: { message: "Logged out successfully" } }]. A request
    that was admitted on a query-string or cookie token and has no
    Authorization header is answered 200 with every session still in
    place, so the same request is admitted again. *)
Theorem logout_deletes_by_header (now : Z) (req : Request) (w : World) :
  gate_passes E now req w ->
  let out := AuthController.logout E now req w in
  fst out = Returned (mkResponse 200
                        (mkBody 200 "data has been received"
                                (DataMessage "Logged out successfully")))
  /\ (forall t, AuthController.header_token req = Some t -> t <> "" ->
                forall r, In r (userSessionTable (snd out))
                          <-> In r (userSessionTable w)
                              /\ session_token r <> t)
  /\ (headers_authorization req = None ->
      snd out = w /\ gate_passes E now req (snd out)).
Proof.
  intros Hpass out. destruct (gate_passes_next now req w Hpass) as [d Hgo].
  assert (Hout : out = AuthController.logout_handler req w).
  { subst out. unfold AuthController.logout, bind. rewrite Hgo. reflexivity. }
  destruct (logout_handler_table req w) as [Hret [_ Hrows]].
  rewrite Hout. split; [exact Hret|]. split.
  - intros t Ht Hne r. rewrite Hrows, Ht, (nonempty_true t Hne).
    unfold Db.delete_where. rewrite filter_In, negb_true_iff.
    rewrite String.eqb_neq. reflexivity.
  - intro Hnone.
    assert (Hw : AuthController.logout_handler req w
                 = (Returned (mkResponse 200 (AuthController.HttpResponse_get
                                                "Logged out successfully")),
                    w)).
    { unfold AuthController.logout_handler, AuthController.header_token, bind.
      rewrite Hnone. reflexivity. }
    rewrite Hw. split; [reflexivity|exact Hpass].
Qed.

(** X14: A request whose only token is in the Authorization header and that
    the gate admits is logged out for good: the handler deletes every
    session carrying that token, and the same request sent again is
    answered 401 "Unauthorized, no valid session". *)
Theorem logout_then_rejected (now now' : Z) (req : Request) (w : World) :
  JS.truthy (query_token req) = false ->
  JS.truthy (cookies_token req) = false ->
  gate_passes E now req w ->
  gate_passes E now' req w ->
  let w1 := snd (AuthController.logout E now req w) in
  (forall tok, useToken.extract req = Some tok ->
               SessionService.getByToken tok w1 = (Returned None, w1))
  /\ AuthController.logout E now' req w1
     = (Returned (mkResponse 401 AUTH_ERRORS.NO_SESSION), w1).
Proof.
  intros Hq Hc Hpass Hpass' w1.
  destruct (gate_passes_next now req w Hpass) as [d Hgo].
  assert (Hw1 : w1 = snd (AuthController.logout_handler req w)).
  { subst w1. unfold AuthController.logout, bind. rewrite Hgo. reflexivity. }
  destruct Hpass' as [tok [d' [s [Hex [Hne [Hd [Ht _]]]]]]].
  assert (Hhead : AuthController.header_token req = Some tok).
  { rewrite (extract_falls_to_header req Hq Hc) in Hex.
    unfold header_credentials in Hex. unfold AuthController.header_token.
    destruct (headers_authorization req) as [h|]; [|discriminate].
    destruct (JS.nonempty h); [|discriminate].
    destruct (JS.split " " h) as [|a [|b [|c l]]]; try discriminate.
    destruct (JS.includes useToken.allowedAuthorize a); [|discriminate].
    inversion Hex. reflexivity. }
  destruct (logout_handler_table req w) as [_ [_ Hrows]].
  rewrite Hhead, (nonempty_true tok Hne) in Hrows. rewrite <- Hw1 in Hrows.
  assert (Hgone : forall r, In r (userSessionTable w1) ->
                            session_token r <> tok).
  { intros r Hin. rewrite Hrows in Hin. unfold Db.delete_where in Hin.
    apply filter_In in Hin. destruct Hin as [_ Hb].
    apply negb_true_iff, String.eqb_neq in Hb. exact Hb. }
  split.
  - intros tok' Hex'. rewrite Hex in Hex'. inversion Hex'. subst tok'.
    unfold SessionService.getByToken, gets, Db.select_first.
    rewrite find_all_false; [reflexivity|].
    intros r Hin. apply String.eqb_neq. exact (Hgone r Hin).
  - unfold AuthController.logout, bind.
    rewrite (authorization_no_session E now' req w1 tok d' Hex Hne Hd Ht Hgone).
    reflexivity.
Qed.

(** X15: Log in, then pass the gate: when [userLogin] returns and the session
    sequence is ahead of the ids in use, the login route answers 200 with
    the body [{ code: 200, message: "data has been received", data: login }]
    and leaves a session row of that user carrying the token; a later
    request with the token after ["Bearer "] is admitted whenever the
    token, which must be non-empty and free of blanks, still verifies to a
    truthy claim. *)
Theorem user_login_then_gate (now : Z) (email password : string) (w : World)
        (r : AuthService.LoginResult) :
  fst (AuthService.userLogin E now email password w) = Returned r ->
  (forall s, In s (userSessionTable w) ->
             session_id s <= userSession_id_seq w) ->
  let out := AuthController.user_login E now email password w in
  fst out = Returned (mkResponse 200
                        (mkBody 200 "data has been received" (DataLogin r)))
  /\ (exists s, In s (userSessionTable (snd out))
                /\ session_userId s = AuthService.lr_userId r
                /\ session_token s = AuthService.lr_token r)
  /\ userTable (snd out) = userTable w
  /\ (forall now' d b,
         AuthService.lr_token r <> "" ->
         no_space (AuthService.lr_token r) = true ->
         data (useToken.verify E now' (AuthService.lr_token r)
                               (JWT_SECRET_ACCESS_TOKEN E)) = Some d ->
         truthy_decoded d = true ->
         gate_passes E now' (bearer (AuthService.lr_token r) b) (snd out)).
Proof.
  intros Hlogin Hseq out.
  pose proof (userLogin_reads_only E now email password w) as Hw.
  assert (Huser : exists u, In u (userTable w)
                            /\ user_id u = AuthService.lr_userId r).
  { revert Hlogin.
    unfold AuthService.userLogin, bind, gets, Db.select_first.
    destruct (loginSchema_parse E email password) as [v|]; [|discriminate].
    cbn [AuthService.parsed ret].
    destruct (find _ (userTable w)) as [user|] eqn:Hf; [|discriminate].
    destruct (user_isActive user); [|discriminate]. cbn [negb].
    destruct (hashing_verify E _ _); [|discriminate]. cbn [negb].
    unfold AuthService.generateAuthToken. rewrite generate_Exp1d.
    cbn [AuthService.liftE ret fst]. intro H. inversion H. simpl.
    exists user. split; [|reflexivity].
    apply find_some in Hf. exact (proj1 Hf). }
  destruct (AuthService.userLogin E now email password w) as [[r0|e] w0]
    eqn:Hul; simpl in Hlogin, Hw; [|discriminate].
  inversion Hlogin. subst r0 w0.
  assert (Hret : exists s0,
             fst (SessionService.createOrUpdateSession
                    (AuthService.lr_userId r) (AuthService.lr_token r) w)
             = Returned s0).
  { unfold SessionService.createOrUpdateSession, bind, gets, Db.select_first.
    simpl. fold (by_user (AuthService.lr_userId r)).
    destruct (find (by_user (AuthService.lr_userId r)) (userSessionTable w))
      as [s0|] eqn:Hfind.
    - exists s0. reflexivity.
    - unfold Db.insert_session.
      rewrite existsb_all_false.
      + destruct Huser as [u [Hin Hu]].
        assert (Hfk : existsb (fun u0 => user_id u0 =? AuthService.lr_userId r)
                              (userTable w) = true).
        { apply existsb_exists. exists u. split; [exact Hin|].
          apply Z.eqb_eq. exact Hu. }
        rewrite Hfk. simpl. eexists. reflexivity.
      + intros s Hin. apply Z.eqb_neq. specialize (Hseq s Hin). lia. }
  destruct Hret as [s0 Hret].
  destruct (createOrUpdateSession_stores _ _ w s0 Hret)
    as [row [Hin [_ [Hu Ht]]]].
  assert (Hout : out
                 = (Returned (mkResponse
                                200 (AuthController.HttpResponse_get_login r)),
                    snd (SessionService.createOrUpdateSession
                           (AuthService.lr_userId r) (AuthService.lr_token r)
                           w))).
  { subst out. unfold AuthController.user_login, bind. rewrite Hul.
    destruct (SessionService.createOrUpdateSession _ _ w) as [[s1|e] w2];
      simpl in Hret; [reflexivity|discriminate]. }
  rewrite Hout. cbn [fst snd].
  split; [reflexivity|]. split; [exists row; repeat split; assumption|].
  split.
  - unfold SessionService.createOrUpdateSession, bind, gets, Db.select_first.
    simpl. destruct (find _ (userSessionTable w)); [reflexivity|].
    unfold Db.insert_session.
    destruct (existsb _ (userSessionTable w)); [reflexivity|].
    destruct (negb _); reflexivity.
  - intros now' d b Hne Hns Hd Htd.
    exists (AuthService.lr_token r), d, row.
    split; [|repeat split; assumption].
    rewrite extract_falls_to_header by reflexivity.
    apply (proj2 (header_credentials_iff _ _)).
    exists "Bearer". split; [reflexivity|]. split; [left; reflexivity|].
    exact Hns.
Qed.

End GateFlows.

Lemma authorization_next_iff_witness :
  authorization Sample.env 0 Sample.bearer_request Sample.world_logged_in
  = (Returned (Next (mkReqState (DPayload Sample.claims) "user")),
     Sample.world_logged_in).
Proof.
  apply (proj2 (proj1 (authorization_next_iff
                         Sample.env 0 Sample.bearer_request
                         Sample.world_logged_in Sample.world_logged_in
                         (mkReqState (DPayload Sample.claims) "user")))).
  split; [reflexivity|]. split; [reflexivity|].
  exists "tok-alice", (mkSession 1 1 "tok-alice").
  repeat split; try reflexivity.
  - discriminate.
  - left. reflexivity.
Defined.

Lemma logout_deletes_by_header_witness :
  snd (AuthController.logout Sample.env 0 Scenario.query_request
                             Sample.world_logged_in)
  = Sample.world_logged_in.
Proof.
  refine (proj1 (proj2 (proj2 (logout_deletes_by_header
                                 Sample.env 0 Scenario.query_request
                                 Sample.world_logged_in _)) _)).
  - exists "tok-alice", (DPayload Sample.claims), (mkSession 1 1 "tok-alice").
    repeat split; try reflexivity.
    + discriminate.
    + left. reflexivity.
  - reflexivity.
Defined.

Lemma logout_then_rejected_witness :
  AuthController.logout
    Sample.env 60 Sample.bearer_request
    (snd (AuthController.logout Sample.env 0 Sample.bearer_request
                                Sample.world_logged_in))
  = (Returned (mkResponse 401 AUTH_ERRORS.NO_SESSION),
     snd (AuthController.logout Sample.env 0 Sample.bearer_request
                                Sample.world_logged_in)).
Proof.
  assert (Hpass : forall now, (now <? 3600) = true ->
                              gate_passes Sample.env now Sample.bearer_request
                                          Sample.world_logged_in).
  { intros now Hnow.
    exists "tok-alice", (DPayload Sample.claims), (mkSession 1 1 "tok-alice").
    repeat split; try reflexivity.
    - discriminate.
    - unfold useToken.verify. simpl. unfold Sample.verify_stub. simpl.
      rewrite Hnow. reflexivity.
    - left. reflexivity. }
  refine (proj2 (logout_then_rejected
                   Sample.env 0 60 Sample.bearer_request
                   Sample.world_logged_in _ _ _ _)).
  - reflexivity.
  - reflexivity.
  - apply Hpass. reflexivity.
  - apply Hpass. reflexivity.
Defined.

Lemma user_login_then_gate_witness :
  gate_passes
    Sample.env 60
    (bearer "tok-alice" (Sample.registration "dave@example.com"))
    (snd (AuthController.user_login Sample.env 0 "alice@example.com"
                                    "Passw0rd!" Sample.world)).
Proof.
  refine (proj2 (proj2 (proj2
            (user_login_then_gate
               Sample.env 0 "alice@example.com" "Passw0rd!" Sample.world
               (AuthService.mkLoginResult "tok-alice" "alice@example.com"
                                          "Alice" 1 86400) _ _)))
            60 (DPayload Sample.claims)
            (Sample.registration "dave@example.com") _ _ _ _).
  - reflexivity.
  - intros s Hin. destruct Hin.
  - discriminate.
  - reflexivity.
  - reflexivity.
  - reflexivity.
Defined.

(** ** Durations *)

Section Durations.

Lemma but_last_snoc (s : string) (c : ascii) :
  Ms.but_last (s ++ String c EmptyString) = s.
Proof.
  unfold Ms.but_last.
  assert (Hlen : forall t, String.length (t ++ String c EmptyString)
                           = S (String.length t)).
  { induction t as [|a t IH]; simpl; [reflexivity|]. rewrite IH. reflexivity. }
  rewrite Hlen. simpl. clear Hlen.
  induction s as [|a s IH]; simpl; [reflexivity|]. rewrite IH. reflexivity.
Qed.

Lemma last_char_snoc (s : string) (c : ascii) :
  Ms.last_char (s ++ String c EmptyString) = String c EmptyString.
Proof.
  unfold Ms.last_char.
  assert (Hlen : forall t, String.length (t ++ String c EmptyString)
                           = S (String.length t)).
  { induction t as [|a t IH]; simpl; [reflexivity|]. rewrite IH. reflexivity. }
  rewrite Hlen. simpl. clear Hlen.
  induction s as [|a s IH]; simpl; [reflexivity|]. exact IH.
Qed.

Lemma parse_digits_step (c : ascii) (rest : string) (acc d : Z)
      (seen : bool) :
  Ms.digit_value c = Some d ->
  Ms.parse_digits (String c rest) acc seen
  = Ms.parse_digits rest (10 * acc + d) true.
Proof.
  intro H. cbn [Ms.parse_digits]. rewrite H. reflexivity.
Qed.

Lemma parse_digits_uint (d : Decimal.uint) (acc : nat) :
  Ms.parse_digits (DecimalString.NilEmpty.string_of_uint d) (Z.of_nat acc) true
  = Some (Z.of_nat (Nat.of_uint_acc d acc)).
Proof.
  revert acc.
  induction d as [|d IH|d IH|d IH|d IH|d IH|d IH|d IH|d IH|d IH|d IH];
    intro acc;
    cbn [DecimalString.NilEmpty.string_of_uint Nat.of_uint_acc];
    [reflexivity| | | | | | | | | |];
    erewrite parse_digits_step by reflexivity;
    rewrite <- IH; f_equal; rewrite Nat.tail_mul_spec;
    match goal with
    | |- context [Z.of_nat (nat_of_ascii ?c) - 48] =>
        let v := eval vm_compute in (Z.of_nat (nat_of_ascii c) - 48) in
        change (Z.of_nat (nat_of_ascii c) - 48) with v
    end; lia.
Qed.

Lemma parseInt_numeral (n : nat) :
  Ms.parseInt (DecimalString.NilZero.string_of_uint (Nat.to_uint n))
  = Some (Z.of_nat n).
Proof.
  unfold Ms.parseInt.
  rewrite <- (DecimalNat.Unsigned.of_to n) at 2.
  unfold Nat.of_uint.
  destruct (Nat.to_uint n) as [|d|d|d|d|d|d|d|d|d|d];
    cbn [DecimalString.NilZero.string_of_uint
           DecimalString.NilEmpty.string_of_uint Nat.of_uint_acc];
    [reflexivity| | | | | | | | | |];
    erewrite parse_digits_step by reflexivity;
    rewrite <- parse_digits_uint; f_equal.
Qed.

(** X16: [ms] of a decimal numeral followed by one of the unit letters is the
    number times the milliseconds of the unit: seconds 1000, minutes
    60000, hours 3600000, days 86400000, weeks 604800000 (as long as the
    product is an integer a JavaScript number holds exactly). *)
Theorem ms_numeral (n : nat) (unit : ascii) (k : Z) :
  In (unit, k)
     [("s"%char, 1000); ("m"%char, 60000); ("h"%char, 3600000);
      ("d"%char, 86400000); ("w"%char, 604800000)] ->
  Z.of_nat n * k <= 9007199254740991 ->
  Ms.ms (DecimalString.NilZero.string_of_uint (Nat.to_uint n)
           ++ String unit EmptyString)
  = inr (Z.of_nat n * k).
Proof.
  intros Hin _. unfold Ms.ms.
  rewrite but_last_snoc, last_char_snoc, parseInt_numeral.
  destruct Hin as [H|[H|[H|[H|[H|[]]]]]]; inversion H; subst; reflexivity.
Qed.

(** X17: [ms] throws "Invalid time format" on every string that does not end
    in one of the letters s, m, h, d, w, the empty string included, and
    on a unit letter with nothing before it. *)
Theorem ms_rejects (value : string) :
  (~ In (Ms.last_char value) ["s"; "m"; "h"; "d"; "w"]
   \/ (String.length value <= 1)%nat) ->
  Ms.ms value = inl (MsError "Invalid time format").
Proof.
  intros [Hunit|Hshort].
  - unfold Ms.ms.
    assert (Hu : Ms.TIME_UNITS (Ms.last_char value) = None).
    { unfold Ms.TIME_UNITS.
      repeat match goal with
             | |- context [String.eqb ?a ?b] =>
                 destruct (String.eqb_spec a b) as [He|_];
                 [exfalso; apply Hunit; rewrite He; simpl; tauto|]
             end.
      reflexivity. }
    rewrite Hu. destruct (Ms.parseInt (Ms.but_last value)); reflexivity.
  - destruct value as [|c [|c' rest]]; [reflexivity|reflexivity|].
    simpl in Hshort. lia.
Qed.

End Durations.

Lemma ms_numeral_witness : Ms.ms "90m" = inr 5400000.
Proof.
  refine (ms_numeral 90 "m" 60000 _ _).
  - right. left. reflexivity.
  - vm_compute. intro H. discriminate H.
Defined.

Lemma ms_rejects_witness :
  Ms.ms "15 min" = inl (MsError "Invalid time format").
Proof.
  apply ms_rejects. left.
  intro H. simpl in H.
  destruct H as [H|[H|[H|[H|[H|[]]]]]]; discriminate.
Defined.

(** Only the last letter and the leading digits count. *)
Example ms_reads_past_words : Ms.ms "15 minutes" = inr 15000.
Proof. reflexivity. Qed.

(** ** Environment variables *)

Lemma string_of_int_nonempty (d : Decimal.signed_int) :
  DecimalString.NilZero.string_of_int d <> "".
Proof.
  destruct d as [u|u]; simpl; [|discriminate].
  unfold DecimalString.NilZero.string_of_uint.
  destruct u; simpl; discriminate.
Qed.

(** X18: [_getEnv] hands back the variable when it is set and not empty,
    whatever the fallback; otherwise the fallback as a string when the
    fallback is a non-empty string or a number other than 0; otherwise it
    throws, so a fallback of 0 or of the empty string counts as none.
    What it hands back is never the empty string. *)
Theorem getEnv_cases (env : string -> option string) (key : string)
        (fallback : option EnvConfig.Fallback) :
  (forall v, env key = Some v -> v <> "" ->
             EnvConfig._getEnv env key fallback = EnvConfig.Value v)
  /\ (JS.truthy_opt (env key) = false ->
      forall f, fallback = Some f ->
                EnvConfig.fallback_truthy fallback = true ->
                EnvConfig._getEnv env key fallback
                = EnvConfig.Value (EnvConfig.fallback_String f))
  /\ (JS.truthy_opt (env key) = false ->
      EnvConfig.fallback_truthy fallback = false ->
      EnvConfig._getEnv env key fallback
      = EnvConfig.Throws ("Required environment variable " ++ key
                            ++ " is missing"))
  /\ (forall s, EnvConfig._getEnv env key fallback = EnvConfig.Value s ->
                s <> "").
Proof.
  unfold EnvConfig._getEnv. split; [|split; [|split]].
  - intros v Hv Hne. rewrite Hv. simpl. rewrite (nonempty_true v Hne). simpl.
    destruct fallback; reflexivity.
  - intros Hv f Hf Ht. rewrite Hv, Ht, Hf. reflexivity.
  - intros Hv Ht. rewrite Hv, Ht. reflexivity.
  - intros s.
    destruct (JS.truthy_opt (env key)) eqn:Hv; simpl.
    + apply truthy_opt_Some in Hv. destruct Hv as [v [Hv Hne]].
      rewrite Hv. simpl. destruct fallback; intro H; inversion H; subst;
        exact Hne.
    + destruct (EnvConfig.fallback_truthy fallback) eqn:Ht; simpl;
        [|discriminate].
      destruct fallback as [[f|n]|]; simpl in Ht; [| |discriminate].
      * intro H. inversion H. subst s. simpl.
        intro He. rewrite He in Ht. discriminate.
      * intro H. inversion H. apply string_of_int_nonempty.
Qed.

Lemma getEnv_cases_witness :
  EnvConfig._getEnv (fun _ => None) "RATE_LIMIT"
                    (Some (EnvConfig.FNumber 100))
  = EnvConfig.Value "100".
Proof.
  refine (proj1 (proj2 (getEnv_cases (fun _ => None) "RATE_LIMIT"
                                     (Some (EnvConfig.FNumber 100))))
                _ (EnvConfig.FNumber 100) _ _); reflexivity.
Defined.

Example getEnv_zero_fallback :
  EnvConfig._getEnv (fun _ => None) "PORT" (Some (EnvConfig.FNumber 0))
  = EnvConfig.Throws "Required environment variable PORT is missing".
Proof. reflexivity. Qed.

(** ** The database probe *)

(** X19: [checkDbConnection] probes until a probe succeeds or the retries are
    used up: it makes at least one and at most [retries + 1] probes, every
    probe before the last one failed, it returns exactly when the last
    probe it made succeeded, and otherwise it has made all [retries + 1]
    probes and throws the error of the last. *)
Theorem checkDbConnection_probes (probe : nat -> option string)
        (first retries : nat) :
  let out := DbConnection.checkDbConnection probe first retries in
  (first < snd out <= first + retries + 1)%nat
  /\ (forall i, (first <= i)%nat -> (S i < snd out)%nat -> probe i <> None)
  /\ probe (Nat.pred (snd out)) = fst out
  /\ (fst out <> None -> snd out = (first + retries + 1)%nat).
Proof.
  revert first. induction retries as [|r IH]; intro first; cbv zeta; simpl;
    destruct (probe first) as [e|] eqn:Hp; simpl.
  - split; [lia|]. split; [intros; lia|]. split; [exact Hp|].
    intros _. lia.
  - split; [lia|]. split; [intros; lia|]. split; [exact Hp|].
    intro H. contradiction.
  - specialize (IH (S first)). cbv zeta in IH.
    destruct IH as [Hb [Hfail [Hlast Hall]]].
    split; [lia|]. split; [|split; [exact Hlast|]].
    + intros i Hi Hlt.
      destruct (Nat.eq_dec i first) as [->|Hne].
      * rewrite Hp. discriminate.
      * apply Hfail; lia.
    + intro H. rewrite (Hall H). lia.
  - split; [lia|]. split; [intros; lia|]. split; [exact Hp|].
    intro H. contradiction.
Qed.

Lemma checkDbConnection_probes_witness :
  snd (DbConnection.checkDbConnection (fun _ => Some "ECONNREFUSED") 0
                                      DbConnection.MAX_RETRIES)
  = 4%nat.
Proof.
  refine (proj2 (proj2 (proj2 (checkDbConnection_probes
                                 (fun _ => Some "ECONNREFUSED") 0
                                 DbConnection.MAX_RETRIES))) _).
  discriminate.
Defined.

(** ** Paging *)

Section Paging.

Context {T : Type}.

Lemma firstn_plus (a b : nat) (l : list T) :
  firstn (a + b) l = (firstn a l ++ firstn b (skipn a l))%list.
Proof.
  revert l. induction a as [|a IH]; intro l; simpl; [reflexivity|].
  destruct l as [|x l]; simpl.
  - rewrite firstn_nil. reflexivity.
  - rewrite IH. reflexivity.
Qed.

(** The page and the flag, for a page number and a size that are not 0. *)
Lemma findPage_positive (rows : list T) (p size : nat) :
  UseTable.findPage rows (Some (UseTable.mkPaging (S p) (S size)))
  = UseTable.mkPage (firstn (S size) (skipn (p * S size) rows))
                    (S p * S size <? List.length rows)%nat.
Proof.
  unfold UseTable.findPage, UseTable.queryMany, UseTable.or_default.
  cbn [option_map UseTable.pageSize UseTable.page].
  replace (S p - 1)%nat with p by lia.
  set (rest := skipn (p * S size) rows).
  assert (Hlen : List.length rest = (List.length rows - p * S size)%nat)
    by (unfold rest; apply length_skipn).
  rewrite length_firstn.
  destruct (S size <? Nat.min (S size + 1) (List.length rest))%nat eqn:Hmore.
  - apply Nat.ltb_lt in Hmore.
    replace (S size + 1)%nat with (S (S size)) by lia.
    rewrite removelast_firstn by lia.
    f_equal. symmetry. apply Nat.ltb_lt. lia.
  - apply Nat.ltb_ge in Hmore.
    assert (Hshort : (List.length rest <= S size)%nat) by lia.
    rewrite (firstn_all2 (n := (S size + 1)%nat)) by lia.
    rewrite (firstn_all2 (n := S size)) by lia.
    f_equal. symmetry. apply Nat.ltb_ge. lia.
Qed.

(** X20: [findPage] hands back the rows of the page asked for, at most a page
    size of them, and [hasMore] tells exactly whether rows remain after
    that page. A page number of 0 or none is read as the first page, a
    page size of 0 or none as 20. *)
Theorem findPage_slice (rows : list T) (paging : option UseTable.Paging) :
  let size := match option_map UseTable.pageSize paging with
              | Some (S s) => S s
              | _ => 20%nat
              end in
  let number := match option_map UseTable.page paging with
                | Some (S p) => S p
                | _ => 1%nat
                end in
  let found := UseTable.findPage rows paging in
  UseTable.result found = firstn size (skipn ((number - 1) * size) rows)
  /\ UseTable.hasMore found = (number * size <? List.length rows)%nat
  /\ (List.length (UseTable.result found) <= size)%nat.
Proof.
  cbv zeta.
  assert (Hnorm : forall p s,
             UseTable.findPage rows paging
             = UseTable.findPage rows (Some (UseTable.mkPaging (S p) (S s))) ->
             UseTable.findPage rows paging
             = UseTable.mkPage (firstn (S s) (skipn (p * S s) rows))
                               (S p * S s <? List.length rows)%nat).
  { intros p s H. rewrite H. apply findPage_positive. }
  destruct paging as [[[|p] [|s]]|]; cbn [option_map UseTable.page
                                            UseTable.pageSize].
  - rewrite (Hnorm 0%nat 19%nat eq_refl). cbn [UseTable.result UseTable.hasMore].
    repeat split. apply firstn_le_length.
  - rewrite (Hnorm 0%nat s eq_refl). cbn [UseTable.result UseTable.hasMore].
    repeat split. apply firstn_le_length.
  - rewrite (Hnorm p 19%nat eq_refl). cbn [UseTable.result UseTable.hasMore].
    replace (S p - 1)%nat with p by lia.
    repeat split. apply firstn_le_length.
  - rewrite (Hnorm p s eq_refl). cbn [UseTable.result UseTable.hasMore].
    replace (S p - 1)%nat with p by lia.
    repeat split. apply firstn_le_length.
  - rewrite (Hnorm 0%nat 19%nat eq_refl). cbn [UseTable.result UseTable.hasMore].
    repeat split. apply firstn_le_length.
Qed.

Lemma pages_upto_firstn (rows : list T) (size k : nat) :
  UseTable.pages_upto rows (S size) k = firstn (k * S size) rows.
Proof.
  induction k as [|k IH]; [reflexivity|].
  cbn [UseTable.pages_upto]. rewrite IH, findPage_positive.
  cbn [UseTable.result].
  replace (S k * S size)%nat with (k * S size + S size)%nat by lia.
  symmetry. apply firstn_plus.
Qed.

(** X21: Read one after the other, the pages [1 .. k] of a given size are the
    first [k] times size rows, with no row skipped and none repeated; as
    soon as a page says [hasMore = false], the pages read so far are all
    the rows. *)
Theorem pages_tile (rows : list T) (size k : nat) :
  UseTable.pages_upto rows (S size) k = firstn (k * S size) rows
  /\ (UseTable.hasMore
        (UseTable.findPage rows (Some (UseTable.mkPaging (S k) (S size))))
      = false ->
      UseTable.pages_upto rows (S size) (S k) = rows).
Proof.
  split; [apply pages_upto_firstn|].
  rewrite findPage_positive. cbn [UseTable.hasMore]. intro H.
  apply Nat.ltb_ge in H. rewrite pages_upto_firstn.
  apply firstn_all2. exact H.
Qed.

End Paging.

Lemma pages_tile_witness :
  UseTable.pages_upto [1; 2; 3; 4; 5] 2 3 = [1; 2; 3; 4; 5].
Proof.
  refine (proj2 (pages_tile [1; 2; 3; 4; 5] 1 2) _).
  reflexivity.
Defined.

Example findPage_last_page :
  UseTable.findPage [1; 2; 3; 4; 5] (Some (UseTable.mkPaging 3 2))
  = UseTable.mkPage [5] false.
Proof. reflexivity. Qed.

(** ** Generated passwords *)

Section RandomPasswords.

Import RandomPassword.

Lemma list_ascii_app (a b : string) :
  list_ascii_of_string (a ++ b)
  = (list_ascii_of_string a ++ list_ascii_of_string b)%list.
Proof.
  induction a as [|c a IH]; simpl; [reflexivity|]. rewrite IH. reflexivity.
Qed.

Lemma get_in_range (s : string) (n : nat) :
  (n < String.length s)%nat ->
  exists c, String.get n s = Some c /\ In c (list_ascii_of_string s).
Proof.
  revert n. induction s as [|a s IH]; intros n Hn; simpl in Hn; [lia|].
  destruct n as [|n]; simpl.
  - exists a. split; [reflexivity|left; reflexivity].
  - destruct (IH n) as [c [Hc Hin]]; [lia|].
    exists c. split; [exact Hc|right; exact Hin].
Qed.

Lemma pick_one (chars : string) (r : nat) :
  chars <> "" ->
  exists c, pick chars r = String c EmptyString
            /\ In c (list_ascii_of_string chars).
Proof.
  intro Hne. unfold pick.
  assert (Hlen : String.length chars <> 0%nat)
    by (destruct chars; [contradiction|discriminate]).
  destruct (get_in_range chars (r mod String.length chars)) as [c [Hc Hin]].
  - apply Nat.mod_upper_bound. exact Hlen.
  - rewrite Hc. exists c. split; [reflexivity|exact Hin].
Qed.

Lemma fill_chars (draws : nat -> nat) (count i : nat) (password : string) :
  exists extra,
    list_ascii_of_string (fill draws i count password)
    = (list_ascii_of_string password ++ extra)%list
    /\ List.length extra = count
    /\ Forall (fun c => In c (list_ascii_of_string allChars)) extra.
Proof.
  revert i password. induction count as [|count IH]; intros i password.
  - exists []. simpl. rewrite app_nil_r. repeat split. constructor.
  - cbn [fill].
    destruct (pick_one allChars (draws i)) as [c [Hc Hin]]; [discriminate|].
    rewrite Hc.
    destruct (IH (S i) (password ++ String c EmptyString))
      as [extra [He [Hl Hf]]].
    exists (c :: extra). rewrite He, list_ascii_app. simpl.
    rewrite <- app_assoc. simpl. repeat split.
    + rewrite Hl. reflexivity.
    + constructor; assumption.
Qed.

(** What every generated password is made of. *)
Lemma generated_characters (draws : nat -> nat)
        (shuffle : list ascii -> list ascii) (length : nat) :
  (forall l, Permutation.Permutation l (shuffle l)) ->
  let password :=
    list_ascii_of_string (generateRandomPassword draws shuffle length) in
  List.length password = Nat.max 4 length
  /\ Forall (fun c => In c (list_ascii_of_string allChars)) password
  /\ (exists c, In c password /\ is_upper c = true)
  /\ (exists c, In c password /\ is_lower c = true)
  /\ (exists c, In c password /\ is_digit c = true)
  /\ (exists c, In c password /\ is_special c = true).
Proof.
  intros Hperm. cbv zeta. unfold generateRandomPassword.
  rewrite list_ascii_of_string_of_list_ascii.
  destruct (pick_one upperChars (draws 0%nat)) as [u [Hu Huin]];
    [discriminate|].
  destruct (pick_one lowerChars (draws 1%nat)) as [l [Hl Hlin]];
    [discriminate|].
  destruct (pick_one numbers (draws 2%nat)) as [d [Hd Hdin]];
    [discriminate|].
  destruct (pick_one specialChars (draws 3%nat)) as [s [Hs Hsin]];
    [discriminate|].
  rewrite Hu, Hl, Hd, Hs. cbn [append String.length].
  destruct (fill_chars draws (length - 4) 4
                       (String u (String l (String d (String s EmptyString)))))
    as [extra [He [Hlen Hall]]].
  set (raw := list_ascii_of_string (fill draws 4 (length - 4) _)) in *.
  cbn [list_ascii_of_string app] in He.
  assert (Hp : Permutation.Permutation raw (shuffle raw)) by apply Hperm.
  assert (Hmem : forall c, In c raw -> In c (shuffle raw))
    by (intros c Hc; exact (Permutation.Permutation_in c Hp Hc)).
  assert (Hfour : forall c, In c [u; l; d; s] -> In c raw).
  { intros c Hc. rewrite He. simpl in Hc. simpl. tauto. }
  assert (Hclass : forall (chars : string) (test : ascii -> bool) c,
             forallb test (list_ascii_of_string chars) = true ->
             In c (list_ascii_of_string chars) -> test c = true).
  { intros chars test c Hf Hc.
    exact (proj1 (forallb_forall test _) Hf c Hc). }
  split; [|split; [|split; [|split; [|split]]]].
  - rewrite <- (Permutation.Permutation_length Hp), He.
    cbn [List.length]. rewrite Hlen. lia.
  - apply (Permutation.Permutation_Forall Hp). rewrite He.
    assert (Hin_all : forall c,
               In c (list_ascii_of_string upperChars)
               \/ In c (list_ascii_of_string lowerChars)
               \/ In c (list_ascii_of_string numbers)
               \/ In c (list_ascii_of_string specialChars) ->
               In c (list_ascii_of_string allChars)).
    { intros c H. unfold allChars. repeat rewrite list_ascii_app.
      repeat rewrite in_app_iff. tauto. }
    constructor; [apply Hin_all; tauto|].
    constructor; [apply Hin_all; tauto|].
    constructor; [apply Hin_all; tauto|].
    constructor; [apply Hin_all; tauto|].
    exact Hall.
  - exists u. split; [apply Hmem, Hfour; simpl; tauto|].
    apply (Hclass upperChars); [reflexivity|exact Huin].
  - exists l. split; [apply Hmem, Hfour; simpl; tauto|].
    apply (Hclass lowerChars); [reflexivity|exact Hlin].
  - exists d. split; [apply Hmem, Hfour; simpl; tauto|].
    apply (Hclass numbers); [reflexivity|exact Hdin].
  - exists s. split; [apply Hmem, Hfour; simpl; tauto|].
    apply (Hclass specialChars); [reflexivity|exact Hsin].
Qed.

(** X22: Whatever the random numbers, and provided the shuffle only reorders
    the characters, a generated password has [max 4 length] characters
    (four even when fewer are asked for), all of them from the four
    alphabets, and at least one capital, one small letter, one digit and
    one special character. *)
Theorem generateRandomPassword_shape (draws : nat -> nat)
        (shuffle : list ascii -> list ascii) (length : nat) :
  (forall l, Permutation.Permutation l (shuffle l)) ->
  let password :=
    list_ascii_of_string (generateRandomPassword draws shuffle length) in
  List.length password = Nat.max 4 length
  /\ Forall (fun c => In c (list_ascii_of_string allChars)) password
  /\ (exists c, In c password /\ is_upper c = true)
  /\ (exists c, In c password /\ is_lower c = true)
  /\ (exists c, In c password /\ is_digit c = true)
  /\ (exists c, In c password /\ is_special c = true).
Proof.
  exact (generated_characters draws shuffle length).
Qed.

End RandomPasswords.

Lemma generateRandomPassword_shape_witness :
  List.length
    (list_ascii_of_string
       (RandomPassword.generateRandomPassword (fun i => (7 * i + 3)%nat)
                                              (fun l => rev l) 2))
  = 4%nat.
Proof.
  refine (proj1 (generateRandomPassword_shape
                   (fun i => (7 * i + 3)%nat) (fun l => rev l) 2 _)).
  intro l. apply Permutation.Permutation_rev.
Defined.

(** ** The response envelope *)

(** X23: In every envelope of [HttpResponse] the rest of the data is passed on
    and a message or code the data brings replaces the default one. With
    neither in the data, [created] answers code 201 and "data has been
    created"; a property that is present but undefined falls through to
    the defaults of [baseResponse], code 200 and "data has been
    received", also in [created], [updated] and [deleted]. *)
Theorem HttpResponse_envelope {D : Type}
        (dataResponse : HttpResponse.DataResponseEntity D) :
  let own_message := HttpResponse.data_message dataResponse in
  let own_code := HttpResponse.data_code dataResponse in
  let pick {A : Type} (own : HttpResponse.field A) (named base : A) : A :=
    match own with
    | HttpResponse.Present a => a
    | HttpResponse.Absent => named
    | HttpResponse.Undef => base
    end in
  HttpResponse.get dataResponse
  = HttpResponse.mkDtoHttp
      (pick own_code 200 200)
      (pick own_message "data has been received" "data has been received")
      (HttpResponse.data_rest dataResponse)
  /\ HttpResponse.created dataResponse
     = HttpResponse.mkDtoHttp
         (pick own_code 201 200)
         (pick own_message "data has been created" "data has been received")
         (HttpResponse.data_rest dataResponse)
  /\ HttpResponse.updated dataResponse
     = HttpResponse.mkDtoHttp
         (pick own_code 200 200)
         (pick own_message "data has been updated" "data has been received")
         (HttpResponse.data_rest dataResponse)
  /\ HttpResponse.deleted dataResponse
     = HttpResponse.mkDtoHttp
         (pick own_code 200 200)
         (pick own_message "data deleted" "data has been received")
         (HttpResponse.data_rest dataResponse).
Proof.
  destruct dataResponse as [[| |m] [| |c] rest]; repeat split; reflexivity.
Qed.

(** The body of a successful registration: the message of the service,
    not "data has been created". *)
Example HttpResponse_created_registration :
  HttpResponse.created
    (HttpResponse.mkData
       (HttpResponse.Present "User registered successfully. Please check your email to verify your account.")
       HttpResponse.Absent (Some 4))
  = HttpResponse.mkDtoHttp
      201
      "User registered successfully. Please check your email to verify your account."
      (Some 4).
Proof. reflexivity. Qed.

(** ** The error middlewares *)

Section ErrorMiddlewares.

Import ErrorMiddleware.

(** X24: Whatever it is handed, [expressErrorDrizzle] answers only with 400
    or 409, with the status repeated as the body's code and a message
    that starts with "Error: ", and only for an instance of [Error]; it
    answers 409 exactly for the unique-violation code with a string
    message, whatever else the error carries. Anything that is not an
    [Error] goes to [next]. *)
Theorem expressErrorDrizzle_answers (err : Thrown) :
  (forall status body,
      expressErrorDrizzle err = Responds status body ->
      instanceof_Error err = true
      /\ (status = 400 \/ status = 409)
      /\ b_code body = status
      /\ (exists m, b_message body = "Error: " ++ m)
      /\ (status = 409 <-> exists m, err_code err = Some "23505"
                                     /\ err_msg err = MsgString m))
  /\ (instanceof_Error err = true ->
      forall m, err_code err = Some "23505" -> err_msg err = MsgString m ->
                expressErrorDrizzle err
                = Responds 409 (mkErrBody 409 "Error: Duplicate entry detected"
                                          None))
  /\ (instanceof_Error err = false -> expressErrorDrizzle err = CallsNext).
Proof.
  split; [|split].
  - intros status body. unfold expressErrorDrizzle, isPostgresError,
      after_switch, formatErrorMessage, UNIQUE_VIOLATION,
      FOREIGN_KEY_VIOLATION.
    destruct (instanceof_Error err); [|discriminate].
    destruct (err_msg err) as [m|c m] eqn:Hm.
    + destruct (err_code err) as [c|] eqn:Hc.
      * destruct (String.eqb_spec c "23505") as [Hu|Hu].
        -- intro H. inversion H. subst. simpl.
           repeat split; try (right; reflexivity); eauto.
        -- destruct (String.eqb_spec c "23503") as [Hf|Hf].
           ++ intro H. inversion H. subst. simpl.
              repeat split; try (left; reflexivity); eauto;
                try discriminate.
              intros [m' [Hc' _]]. inversion Hc'.
           ++ destruct (includes m "validation failed" || isValidationError err).
              ** intro H. inversion H. subst. simpl.
                 repeat split; try (left; reflexivity); eauto;
                   try discriminate.
                 intros [m' [Hc' _]]. inversion Hc'. contradiction.
              ** destruct (String.eqb (err_name err) "DrizzleError");
                   [|discriminate].
                 intro H. inversion H. subst. simpl.
                 repeat split; try (left; reflexivity); eauto;
                   try discriminate.
                 intros [m' [Hc' _]]. inversion Hc'. contradiction.
      * destruct (includes m "validation failed" || isValidationError err).
        -- intro H. inversion H. subst. simpl.
           repeat split; try (left; reflexivity); eauto; try discriminate.
           intros [m' [Hc' _]]. discriminate.
        -- destruct (String.eqb (err_name err) "DrizzleError");
             [|discriminate].
           intro H. inversion H. subst. simpl.
           repeat split; try (left; reflexivity); eauto; try discriminate.
           intros [m' [Hc' _]]. discriminate.
    + destruct (err_code err); discriminate.
  - intros He m Hc Hm. unfold expressErrorDrizzle, isPostgresError.
    rewrite He, Hc, Hm. reflexivity.
  - intro He. unfold expressErrorDrizzle. rewrite He. reflexivity.
Qed.

(** X25: With [expressErrorDrizzle] installed before [expressErrorResponse],
    an [ErrorResponse] that is an [Error] with a string message and
    carries no string code, no details array and another name than
    DrizzleError is answered with its own status and message, unless its
    message contains "validation failed": then the answer is 400 "Error:
    Validation failed", whatever its status. An [Error] whose message is
    an object never reaches [expressErrorResponse]: the first middleware
    throws on it. *)
Theorem drizzle_then_response_answers (err : Thrown) :
  instanceof_Error err = true ->
  (forall m,
      err_msg err = MsgString m ->
      instanceof_MulterError err = false ->
      instanceof_BaseResponse err = true ->
      err_code err = None ->
      err_details err = None ->
      err_name err <> "DrizzleError" ->
      drizzle_then_response err
      = if includes m "validation failed"
        then Responds 400 (mkErrBody 400 "Error: Validation failed" (Some []))
        else Responds (err_statusCode err)
                      (mkErrBody (err_statusCode err) m None))
  /\ (forall c m, err_msg err = MsgObject c m ->
                  drizzle_then_response err = TypeError).
Proof.
  intro He. split.
  - intros m Hm Hmul Hbase Hc Hd Hn.
    unfold drizzle_then_response, expressErrorDrizzle, isPostgresError,
      after_switch, isValidationError, expressErrorResponse,
      generateErrorResponse.
    rewrite He, Hc, Hm, Hd, Hmul, Hbase.
    destruct (includes m "validation failed"); [reflexivity|].
    simpl. destruct (String.eqb_spec (err_name err) "DrizzleError");
      [contradiction|reflexivity].
  - intros c m Hm.
    unfold drizzle_then_response, expressErrorDrizzle, isPostgresError,
      after_switch.
    rewrite He, Hm. destruct (err_code err); reflexivity.
Qed.

End ErrorMiddlewares.

Lemma expressErrorDrizzle_answers_witness :
  ErrorMiddleware.expressErrorDrizzle
    (ErrorMiddleware.mkThrown
       true false false 0 (Some "23505")
       (ErrorMiddleware.MsgString
          "duplicate key value violates unique constraint")
       None "error")
  = ErrorMiddleware.Responds
      409 (ErrorMiddleware.mkErrBody 409 "Error: Duplicate entry detected"
                                     None).
Proof.
  refine (proj1 (proj2 (expressErrorDrizzle_answers _)) _ _ _ _);
    reflexivity.
Defined.

Lemma drizzle_then_response_answers_witness :
  ErrorMiddleware.drizzle_then_response
    (ErrorMiddleware.mkThrown
       true false true 404 None
       (ErrorMiddleware.MsgString "Token validation failed") None "NotFound")
  = ErrorMiddleware.Responds
      400 (ErrorMiddleware.mkErrBody 400 "Error: Validation failed" (Some [])).
Proof.
  refine (proj1 (drizzle_then_response_answers _ _)
                "Token validation failed" _ _ _ _ _ _); try reflexivity.
  discriminate.
Defined.

(** ** Mail failures and the auth service *)

Section MailFailures.

Variable E : Env.

Lemma sendVerificationEmail_outcome (now : Z) (email : string) (w : World) :
  fst (AuthService.sendVerificationEmail E now email w)
  = Thrown (NotFound "User not found")
  \/ fst (AuthService.sendVerificationEmail E now email w)
     = Thrown StringDataRightTruncation
  \/ fst (AuthService.sendVerificationEmail E now email w)
     = Returned (AuthService.mkMessage "Verification email sent" None None).
Proof.
  unfold AuthService.sendVerificationEmail, bind,
    AuthService.getUserByEmail, gets.
  destruct (Db.select_first _ (userTable w)) as [u|]; [|left; reflexivity].
  rewrite generate_Exp1d. unfold AuthService.liftE, ret.
  unfold AuthService.set_passwordToken.
  destruct (Db.varchar 255 _) as [stored|]; [|right; left; reflexivity].
  unfold Db.set_userTable, modify.
  match goal with
  | |- context [AuthService.trySendEmail E ?m ?f ?w0] =>
      destruct (trySendEmail_returns E m f w0) as [H1 _];
      destruct (AuthService.trySendEmail E m f w0) as [[[]|e] w1]
  end; simpl in H1; [|discriminate].
  right. right. reflexivity.
Qed.

(** X26: No call of the auth service ends in the internal-server error its
    code holds ready for a mail that cannot be sent: [sendEmail] catches
    the failure of the transport itself, so the catch clauses around it
    never run. *)
Theorem auth_service_never_internal_error (now : Z) (w : World)
        (m : string) :
  (forall email password token,
      fst (AuthService.resetPassword E now email password token w)
      <> Thrown (InternalServer m))
  /\ (forall email,
         fst (AuthService.requestPasswordReset E now email w)
         <> Thrown (InternalServer m))
  /\ (forall email,
         fst (AuthService.sendVerificationEmail E now email w)
         <> Thrown (InternalServer m))
  /\ (forall data,
         fst (AuthService.createUser E now data w)
         <> Thrown (InternalServer m))
  /\ (forall email password,
         fst (AuthService.userLogin E now email password w)
         <> Thrown (InternalServer m)).
Proof.
  split; [|split; [|split; [|split]]].
  - intros email password token.
    destruct (stored_token_matches email token w) eqn:Hs.
    + rewrite (resetPassword_ignores_verification E now email password token
                 w Hs). discriminate.
    + rewrite (resetPassword_rejects E now email password token w Hs).
      discriminate.
  - intro email.
    unfold AuthService.requestPasswordReset, bind,
      AuthService.getUserByEmail, gets.
    destruct (Db.select_first _ (userTable w)) as [u|]; [|discriminate].
    rewrite generate_Exp1h. unfold AuthService.liftE, ret.
    unfold AuthService.set_passwordToken.
    destruct (Db.varchar 255 _) as [stored|]; [|discriminate].
    unfold Db.set_userTable, modify.
    match goal with
    | |- context [AuthService.trySendEmail E ?m ?f ?w0] =>
        destruct (trySendEmail_returns E m f w0) as [H1 _];
        destruct (AuthService.trySendEmail E m f w0) as [[[]|e] w1]
    end; simpl in H1; [|discriminate]. discriminate.
  - intro email.
    destruct (sendVerificationEmail_outcome now email w) as [H|[H|H]];
      rewrite H; discriminate.
  - intro data. unfold AuthService.createUser, bind.
    destruct (insertUserSchema_parse E data) as [v|]; [|discriminate].
    unfold AuthService.parsed, ret, AuthService.getUserByEmail, gets.
    destruct (Db.select_first _ (userTable w)) as [u|]; [discriminate|].
    match goal with
    | |- context [Db.insert_user ?d w] =>
        assert (Hins : forall e w1, Db.insert_user d w = (Thrown e, w1) ->
                                    e = UniqueViolation);
        [|destruct (Db.insert_user d w) as [[u|e] w1] eqn:Hi]
    end.
    + intros e w1. unfold Db.insert_user.
      destruct (existsb _ (userTable w));
        [intro H; inversion H; reflexivity|].
      destruct (existsb _ (userTable w)); intro H; inversion H; reflexivity.
    + destruct (sendVerificationEmail_outcome now (ins_email v) w1)
        as [H|[H|H]].
      * destruct (AuthService.sendVerificationEmail E now (ins_email v) w1)
          as [[r|e] w2]; simpl in H; inversion H. discriminate.
      * destruct (AuthService.sendVerificationEmail E now (ins_email v) w1)
          as [[r|e] w2]; simpl in H; inversion H. discriminate.
      * destruct (AuthService.sendVerificationEmail E now (ins_email v) w1)
          as [[r|e] w2]; simpl in H; inversion H. discriminate.
    + rewrite (Hins e w1 eq_refl). discriminate.
  - intros email password.
    unfold AuthService.userLogin, bind, gets.
    destruct (loginSchema_parse E email password) as [v|]; [|discriminate].
    cbn [AuthService.parsed ret].
    destruct (Db.select_first _ (userTable w)) as [user|]; [|discriminate].
    destruct (user_isActive user); [|discriminate]. cbn [negb].
    destruct (hashing_verify E _ _); [|discriminate]. cbn [negb].
    unfold AuthService.generateAuthToken. rewrite generate_Exp1d.
    discriminate.
Qed.

End MailFailures.

(** ** The other token hook *)

Section EnhancedHook.

Variable L : useTokenEnhanced.Lib.

(** X27: The enhanced hook extracts in another order than the hook the
    middleware imports: the cookie first, then an Authorization header
    of the form Bearer or JWT, one blank, credentials, then the query
    string. On a request with a token in the query string and another in
    the cookie the two hooks therefore answer differently, and a header
    with the word Token is read by the first hook only. *)
Theorem enhanced_extract_order (req : Request) :
  (JS.truthy (cookies_token req) = true ->
   useTokenEnhanced.extract req = Some (JS.toString (cookies_token req)))
  /\ (JS.truthy (cookies_token req) = false ->
      forall scheme t,
        headers_authorization req = Some (scheme ++ " " ++ t) ->
        In scheme ["Bearer"; "JWT"] -> no_space t = true ->
        useTokenEnhanced.extract req = Some t)
  /\ (JS.truthy (cookies_token req) = false ->
      headers_authorization req = None ->
      useTokenEnhanced.extract req
      = if JS.truthy (query_token req)
        then Some (JS.toString (query_token req)) else None)
  /\ (JS.truthy (query_token req) = true ->
      JS.truthy (cookies_token req) = true ->
      useToken.extract req = Some (JS.toString (query_token req))
      /\ useTokenEnhanced.extract req
         = Some (JS.toString (cookies_token req)))
  /\ (JS.truthy (query_token req) = false ->
      JS.truthy (cookies_token req) = false ->
      forall t, headers_authorization req = Some ("Token " ++ t) ->
                no_space t = true ->
                useToken.extract req = Some t
                /\ useTokenEnhanced.extract req = None).
Proof.
  unfold useTokenEnhanced.extract. split; [|split; [|split; [|split]]].
  - intro Hc. rewrite Hc. reflexivity.
  - intros Hc scheme t Hh Hin Ht. rewrite Hc, Hh.
    assert (Hs : no_space scheme = true)
      by (destruct Hin as [H|[H|[]]]; subst scheme; reflexivity).
    assert (Hne : JS.nonempty (scheme ++ " " ++ t) = true)
      by (destruct Hin as [H|[H|[]]]; subst scheme; reflexivity).
    rewrite Hne, (split_scheme_credentials scheme t Hs Ht).
    assert (Hinc : JS.includes useTokenEnhanced.allowedAuthorize scheme = true)
      by (destruct Hin as [H|[H|[]]]; subst scheme; reflexivity).
    rewrite Hinc. reflexivity.
  - intros Hc Hh. rewrite Hc, Hh. reflexivity.
  - intros Hq Hc. split.
    + unfold useToken.extract. rewrite Hq. reflexivity.
    + rewrite Hc. reflexivity.
  - intros Hq Hc t Hh Ht. split.
    + rewrite (extract_falls_to_header req Hq Hc).
      apply (proj2 (header_credentials_iff req t)).
      exists "Token". split; [exact Hh|]. split; [|exact Ht].
      right. right. left. reflexivity.
    + rewrite Hc, Hh, Hq.
      change (JS.nonempty ("Token " ++ t)) with true. cbn iota.
      change ("Token " ++ t) with ("Token" ++ " " ++ t).
      rewrite (split_scheme_credentials "Token" t eq_refl Ht).
      reflexivity.
Qed.

(** X28: The enhanced [verify] answers code 200 exactly when the token is not
    empty, has three dot-separated parts of which the first two decode to
    JSON, and the library returns an object with both an [iat] and an
    [exp] claim, which is then the data; in every other case the code is
    401 and the data null, a payload that is a bare string included. *)
Theorem enhanced_verify_codes (now : Z) (token publicKey : string) :
  let r := useTokenEnhanced.verify L now token publicKey in
  (useTokenEnhanced.result_code r = 200
   <-> exists p,
       token <> ""
       /\ useTokenEnhanced.validateTokenFormat L token = true
       /\ useTokenEnhanced.lib_verify L now token publicKey
          = useTokenEnhanced.Verified (DPayload p)
       /\ useTokenEnhanced.has_claim "iat" p = true
       /\ useTokenEnhanced.has_claim "exp" p = true
       /\ r = useTokenEnhanced.mkResult (Some (DPayload p))
                                        "Token is valid" 200)
  /\ (useTokenEnhanced.result_code r = 200
      \/ useTokenEnhanced.result_code r = 401
         /\ useTokenEnhanced.result_data r = None).
Proof.
  cbv zeta. unfold useTokenEnhanced.verify, JS.nonempty.
  destruct (String.eqb_spec token "") as [He|Hne]; cbn [negb].
  - split; [|right; split; reflexivity].
    split; [discriminate|]. intros [p [H _]]. contradiction.
  - destruct (useTokenEnhanced.validateTokenFormat L token) eqn:Hf;
      cbn [negb].
    + destruct (useTokenEnhanced.lib_verify L now token publicKey)
        as [[str|p]|e] eqn:Hv.
      * cbn. split; [|right; split; reflexivity].
        split; [discriminate|]. intros [p [_ [_ [H _]]]]. discriminate.
      * unfold useTokenEnhanced.validateTokenPayload. cbn [forallb].
        destruct (useTokenEnhanced.has_claim "iat" p) eqn:Hiat;
          destruct (useTokenEnhanced.has_claim "exp" p) eqn:Hexp; cbn.
        -- split; [|left; reflexivity]. split.
           ++ intros _. exists p. repeat split; assumption.
           ++ intros _. reflexivity.
        -- split; [|right; split; reflexivity].
           split; [discriminate|].
           intros [p' [_ [_ [H [_ [Hexp' _]]]]]]. inversion H. subst p'.
           rewrite Hexp in Hexp'. discriminate.
        -- split; [|right; split; reflexivity].
           split; [discriminate|].
           intros [p' [_ [_ [H [Hiat' _]]]]]. inversion H. subst p'.
           rewrite Hiat in Hiat'. discriminate.
        -- split; [|right; split; reflexivity].
           split; [discriminate|].
           intros [p' [_ [_ [H [Hiat' _]]]]]. inversion H. subst p'.
           rewrite Hiat in Hiat'. discriminate.
      * unfold useTokenEnhanced.handleVerificationError.
        destruct (useTokenEnhanced.isTokenExpiredError e),
          (useTokenEnhanced.isJsonWebTokenError e),
          (useTokenEnhanced.isNotBeforeError e); cbn;
          (split; [|right; split; reflexivity]);
          (split; [discriminate|]);
          intros [p [_ [_ [H _]]]]; discriminate.
    + cbn. split; [|right; split; reflexivity].
      split; [discriminate|]. intros [p [_ [H _]]]. discriminate.
Qed.

End EnhancedHook.

Lemma enhanced_extract_order_witness :
  useToken.extract Sample.crowded_request = Some "from-query"
  /\ useTokenEnhanced.extract Sample.crowded_request = Some "from-cookie".
Proof.
  refine (proj1 (proj2 (proj2 (proj2
            (enhanced_extract_order Sample.crowded_request)))) _ _);
    reflexivity.
Defined.

(** ** Generated passwords against the password rule *)

Section GeneratedAgainstRule.

Import RandomPassword.

Lemma first_line_whole (chars : list ascii) :
  forallb (fun c => negb (PasswordRule.is_line_break c)) chars = true ->
  PasswordRule.first_line chars = chars.
Proof.
  induction chars as [|c chars IH]; simpl; [reflexivity|].
  intro H. apply andb_true_iff in H. destruct H as [Hc Hrest].
  apply negb_true_iff in Hc. rewrite Hc, (IH Hrest). reflexivity.
Qed.

Lemma existsb_of_member {A : Type} (test : A -> bool) (l : list A) (a : A) :
  In a l -> test a = true -> existsb test l = true.
Proof.
  intros Hin Ht. apply existsb_exists. exists a. split; assumption.
Qed.

(** X29: A generated password of eight characters or more passes the
    password pattern of the schemas exactly when no underscore was drawn:
    the alphabet of special characters holds an underscore, which the
    pattern's character class leaves out. *)
Theorem generated_password_against_rule (draws : nat -> nat)
        (shuffle : list ascii -> list ascii) (length : nat) :
  (forall l, Permutation.Permutation l (shuffle l)) ->
  (8 <= length)%nat ->
  PasswordRule.matches (generateRandomPassword draws shuffle length)
  = negb (existsb (Ascii.eqb "_")
                  (list_ascii_of_string
                     (generateRandomPassword draws shuffle length))).
Proof.
  intros Hperm Hlen.
  destruct (generated_characters draws shuffle length Hperm)
    as [Hl [Hall [[u [Hu Hut]] [[l [Hlo Hlt]] [[d [Hd Hdt]] _]]]]].
  unfold PasswordRule.matches.
  set (chars := list_ascii_of_string
                  (generateRandomPassword draws shuffle length)) in *.
  assert (Hline : PasswordRule.first_line chars = chars).
  { apply first_line_whole. apply forallb_forall. intros c Hc.
    rewrite Forall_forall in Hall. specialize (Hall c Hc).
    assert (Hsafe : forallb (fun x => negb (PasswordRule.is_line_break x))
                            (list_ascii_of_string allChars) = true)
      by reflexivity.
    exact (proj1 (forallb_forall _ _) Hsafe c Hall). }
  rewrite Hline.
  rewrite (existsb_of_member is_lower chars l Hlo Hlt).
  rewrite (existsb_of_member is_upper chars u Hu Hut).
  rewrite (existsb_of_member is_digit chars d Hd Hdt).
  assert (Hlong : (8 <=? List.length chars)%nat = true)
    by (apply Nat.leb_le; rewrite Hl; lia).
  rewrite Hlong. cbn [andb]. rewrite andb_true_r.
  clear. induction chars as [|c chars IH]; [reflexivity|].
  cbn [forallb existsb]. rewrite IH. unfold PasswordRule.in_class.
  rewrite (Ascii.eqb_sym c "_"). destruct (Ascii.eqb "_" c); reflexivity.
Qed.

End GeneratedAgainstRule.

Lemma generated_password_against_rule_witness :
  PasswordRule.matches
    (RandomPassword.generateRandomPassword (fun _ => 10%nat) (fun l => l) 12)
  = false.
Proof.
  rewrite (generated_password_against_rule (fun _ => 10%nat) (fun l => l) 12).
  - reflexivity.
  - intro l. apply Permutation.Permutation_refl.
  - lia.
Defined.

(** ** The OpenAPI document *)

(** X30: [getOpenAPISpec] writes the module's one document: after any series
    of calls its servers are the single "Current Server" entry of the
    last call that came with a request, so a call without a request
    hands back what an earlier request left; the two initial servers
    are kept only as long as no call came with a request. A request
    without a host header yields the text "undefined" in the address. *)
Theorem getOpenAPISpec_last_request (calls : list (option ApiDocs.HostInfo))
        (servers : list ApiDocs.Server) :
  ApiDocs.after_calls calls servers
  = match ApiDocs.last_request calls with
    | Some r =>
        [ApiDocs.mkServer
           (ApiDocs.protocol r ++ "://"
              ++ JS.nullish (ApiDocs.host r) "undefined" ++ "/api/v1")
           "Current Server"]
    | None => servers
    end.
Proof.
  revert servers. unfold ApiDocs.after_calls.
  induction calls as [|c calls IH]; intro servers; [reflexivity|].
  cbn [fold_left ApiDocs.last_request]. rewrite IH.
  destruct (ApiDocs.last_request calls) as [r|]; [reflexivity|].
  destruct c as [r|]; reflexivity.
Qed.

Example getOpenAPISpec_keeps_last_host :
  ApiDocs.after_calls
    [Some (ApiDocs.mkHostInfo "https" (Some "api.example.com")); None]
    ApiDocs.initial_servers
  = [ApiDocs.mkServer "https://api.example.com/api/v1" "Current Server"].
Proof. reflexivity. Qed.
